(** * Mcrafter_LLM_Agent: the human-agent GUI front end

    A shallow embedding of [run_gui_advanced_fixed.py]: the class
    [FixedAdvancedHumanAgentGUI] (its event routing, the four-step input
    wizard and the tick driver) and the command-line parsing of [main].

    Conventions of the embedding.
    - A Python [str] is a [string]; each [ascii] is read as the code point
      with the same number, so the model covers the strings over
      U+0000..U+00FF, with Python's character classes written out on that
      range.
    - The object [self] is the record [GUI]; a method is a function from
      [GUI] to [GUI], or to [result GUI] when it can raise: [Raise] is an
      uncaught exception.
    - Everything the program does to the outside (lines printed, calls into
      the simulation modules) is appended to the field [trace]. *)

From Stdlib Require Import ZArith List Bool String Ascii Lia.
From Stdlib Require Import DecimalString DecimalPos.
From stdpp Require Import base option list gmap.
Import ListNotations.

Local Open Scope string_scope.
Local Open Scope Z_scope.

(** ** Exceptions *)

Inductive exception : Type :=
| ValueError
| IndexError
| TypeError
| ZeroDivisionError.

Inductive result (A : Type) : Type :=
| Ok (a : A)
| Raise (e : exception).

Arguments Ok {A} a.
Arguments Raise {A} e.

Definition bind {A B : Type} (r : result A) (k : A -> result B) : result B :=
  match r with
  | Ok a => k a
  | Raise e => Raise e
  end.

Notation "x <-! r ; k" := (bind r (fun x => k))
  (at level 100, r at next level, right associativity).

(** [result_map f xs]: a list comprehension whose element expression may
    raise; the first exception aborts it. *)
Fixpoint result_map {A B : Type} (f : A -> result B) (xs : list A)
  : result (list B) :=
  match xs with
  | [] => Ok []
  | x :: xs' => y <-! f x; ys <-! result_map f xs'; Ok (y :: ys)
  end.

(** The value a computation returned, [default] if it raised. *)
Definition ok_or {A : Type} (default : A) (r : result A) : A :=
  match r with
  | Ok a => a
  | Raise _ => default
  end.

(** ** The built-in string operations the program uses *)

Module PyStr.

Definition code (c : ascii) : N := N_of_ascii c.

Definition between (lo hi : N) (c : ascii) : bool :=
  ((lo <=? code c) && (code c <=? hi))%N.

(** [str.strip()] without argument removes the characters for which
    [str.isspace] holds: TAB..CR, FS..US, SPACE, NEL and NBSP below
    U+0100. *)
Definition isspace_char (c : ascii) : bool :=
  between 9 13 c || between 28 31 c || between 32 32 c
  || between 133 133 c || between 160 160 c.

(** The white space [int()] skips around a literal: FS..US are kept as
    they are and are not white space for the parser. The program calls
    [int] on stripped strings only, which have no white space of either
    kind at their ends. *)
Definition int_isspace_char (c : ascii) : bool :=
  between 9 13 c || between 32 32 c
  || between 133 133 c || between 160 160 c.

(** Decimal characters (category Nd): ['0'..'9'] only. *)
Definition isdecimal_char (c : ascii) : bool := between 48 57 c.

(** [str.isdigit] also accepts the superscript digits U+00B2, U+00B3 and
    U+00B9. *)
Definition isdigit_char (c : ascii) : bool :=
  isdecimal_char c || between 178 179 c || between 185 185 c.

(** [str.isprintable]: not a control character, not a separator other
    than SPACE, not the soft hyphen. *)
Definition isprintable_char (c : ascii) : bool :=
  between 32 126 c || between 161 172 c || between 174 255 c.

Fixpoint forallb_str (p : ascii -> bool) (s : string) : bool :=
  match s with
  | EmptyString => true
  | String c s' => p c && forallb_str p s'
  end.

Definition is_empty (s : string) : bool :=
  match s with
  | EmptyString => true
  | String _ _ => false
  end.

(** [not s] on a string. *)
Definition falsy (s : string) : bool := is_empty s.

Definition isdigit (s : string) : bool :=
  negb (is_empty s) && forallb_str isdigit_char s.

Definition isprintable (s : string) : bool :=
  forallb_str isprintable_char s.

Fixpoint lstrip_with (p : ascii -> bool) (s : string) : string :=
  match s with
  | EmptyString => EmptyString
  | String c s' => if p c then lstrip_with p s' else s
  end.

Fixpoint rstrip_with (p : ascii -> bool) (s : string) : string :=
  match s with
  | EmptyString => EmptyString
  | String c s' =>
      let r := rstrip_with p s' in
      if p c && is_empty r then EmptyString else String c r
  end.

Definition strip_with (p : ascii -> bool) (s : string) : string :=
  rstrip_with p (lstrip_with p s).

Definition strip (s : string) : string := strip_with isspace_char s.

(** [s.split(sep)] for a one-character separator. *)
Fixpoint split (sep : ascii) (s : string) : list string :=
  match s with
  | EmptyString => [EmptyString]
  | String c s' =>
      if Ascii.eqb c sep then EmptyString :: split sep s'
      else match split sep s' with
           | [] => [String c EmptyString]
           | t :: ts => String c t :: ts
           end
  end.

(** [s[:-1]] *)
Fixpoint drop_last (s : string) : string :=
  match s with
  | EmptyString => EmptyString
  | String c EmptyString => EmptyString
  | String c s' => String c (drop_last s')
  end.

Definition digit_value (c : ascii) : Z := Z.of_N (code c) - 48.

(** The digits of a literal, left to right: single underscores may
    separate digits, the literal may not end with one. *)
Fixpoint scan_digits (prev_underscore : bool) (s : string)
  : option (list Z) :=
  match s with
  | EmptyString => if prev_underscore then None else Some []
  | String c s' =>
      if Ascii.eqb c "_" then
        if prev_underscore then None else scan_digits true s'
      else if isdecimal_char c then
        cons (digit_value c) <$> scan_digits false s'
      else None
  end.

Definition digits_value (ds : list Z) : Z :=
  fold_left (fun acc d => 10 * acc + d) ds 0.

(** The interpreter refuses a literal of more than [max_str_digits]
    digits when that limit is positive ([sys.get_int_max_str_digits()],
    4300 unless changed; 0, and every interpreter older than the limit,
    means no limit). Literals of at most 640 digits are never refused. *)
Definition too_many_digits (max_str_digits : nat) (ds : list Z) : bool :=
  ((0 <? max_str_digits) && (640 <? length ds)
   && (max_str_digits <? length ds))%nat.

Definition int_unsigned (max_str_digits : nat) (s : string) : result Z :=
  match s with
  | EmptyString => Raise ValueError
  | String c _ =>
      if Ascii.eqb c "_" then Raise ValueError
      else match scan_digits false s with
           | None => Raise ValueError
           | Some ds =>
               if too_many_digits max_str_digits ds then Raise ValueError
               else Ok (digits_value ds)
           end
  end.

(** [int(s)] in base 10: optional white space, an optional sign, then
    the digits; anything else is a [ValueError]. *)
Definition int (max_str_digits : nat) (s : string) : result Z :=
  match strip_with int_isspace_char s with
  | String "+" body => int_unsigned max_str_digits body
  | String "-" body =>
      z <-! int_unsigned max_str_digits body; Ok (- z)
  | body => int_unsigned max_str_digits body
  end.

(** [str(n)] for an integer. *)
Definition str_of_Z (z : Z) : string :=
  NilZero.string_of_int (Z.to_int z).

Definition str_of_nat (n : nat) : string := str_of_Z (Z.of_nat n).

End PyStr.

(** ** Agents and the simulation modules *)

(** An agent object as the GUI sees it. [is_human] stands for the test
    [hasattr(agent, 'is_human') and agent.is_human]. *)
Record Agent : Type := {
  is_human : bool;
  op : string;
  rss_to_collect : string;
  rss_to_share : string;
  target_agent_id : Z;
  skill_updates : list (string * string * string * Z)
}.

Definition set_op (v : string) (a : Agent) : Agent :=
  {| is_human := is_human a; op := v; rss_to_collect := rss_to_collect a;
     rss_to_share := rss_to_share a; target_agent_id := target_agent_id a;
     skill_updates := skill_updates a |}.

Definition set_rss_to_collect (v : string) (a : Agent) : Agent :=
  {| is_human := is_human a; op := op a; rss_to_collect := v;
     rss_to_share := rss_to_share a; target_agent_id := target_agent_id a;
     skill_updates := skill_updates a |}.

Definition set_rss_to_share (v : string) (a : Agent) : Agent :=
  {| is_human := is_human a; op := op a; rss_to_collect := rss_to_collect a;
     rss_to_share := v; target_agent_id := target_agent_id a;
     skill_updates := skill_updates a |}.

Definition set_target_agent_id (v : Z) (a : Agent) : Agent :=
  {| is_human := is_human a; op := op a; rss_to_collect := rss_to_collect a;
     rss_to_share := rss_to_share a; target_agent_id := v;
     skill_updates := skill_updates a |}.

(** Modelled from the spec: [HumanAgent.update_current_skill] is defined in
    [memory_system/agent.py], which is not part of the sources at hand. The
    spec gives only its calling contract (the wizard invokes it with the
    four collected values), so the model records each call, with its
    arguments, on the agent it is called on. *)
Definition update_current_skill
  (a : Agent) (o c s : string) (t : Z) : Agent :=
  {| is_human := is_human a; op := op a; rss_to_collect := rss_to_collect a;
     rss_to_share := rss_to_share a; target_agent_id := target_agent_id a;
     skill_updates := skill_updates a ++ [(o, c, s, t)] |}.

(** The modules the GUI drives ([run], [utils], [crafter]) are outside this
    file. [World] is the environment together with the processors' own
    state; a call receives the agents and the world and may change both. *)
Class Collaborators : Type := {
  World : Type;
  Actions : Type;
  Obs : Type;
  Rewards : Type;
  Info : Type;
  Thoughts : Type;
  Contexts : Type;
  Responses : Type;
  initialize_agents : list Z -> Z -> list Agent;
  new_world : Z -> Z -> Z -> World;
  process_all_agent_actions :
    Z -> list Agent * World -> unit * (list Agent * World);
  collect_agent_actions :
    Z -> list Agent * World -> Actions * (list Agent * World);
  step_environment :
    Actions -> list Agent * World
    -> (Obs * Rewards * bool * Info) * (list Agent * World);
  update_crafting_stations :
    list Agent * World -> unit * (list Agent * World);
  update_all_agent_states :
    Obs -> Z -> Info -> Z -> list Agent * World
    -> unit * (list Agent * World);
  identify_agents_needing_thought :
    Info -> list Agent * World -> Thoughts * (list Agent * World);
  create_agent_contexts :
    Info -> list Agent * World -> Contexts * (list Agent * World);
  process_agent_thinking_parallel :
    Contexts -> Info -> list Agent * World
    -> Responses * (list Agent * World);
  update_agents_from_responses :
    Responses -> list Agent * World -> unit * (list Agent * World);
  show_step_report :
    Thoughts -> list Agent * World -> unit * (list Agent * World)
}.

(** What the program does to the outside, in order. *)
Inductive Effect : Type :=
| Print (line : string)
| CallProcessAllAgentActions (n : Z)
| CallCollectAgentActions (n : Z)
| CallStepEnvironment
| CallUpdateCraftingStations
| CallUpdateAllAgentStates (step : Z) (episode_number : Z)
| CallIdentifyAgentsNeedingThought
| CallCreateAgentContexts
| CallProcessAgentThinkingParallel
| CallUpdateAgentsFromResponses
| CallShowStepReport
| Draw (what : string)
| DisplayFlip
| ClockTick (fps : Z).

(** ** Events, keys and buttons *)

Inductive Event : Type :=
| QUIT
| KEYDOWN (key : Z) (unicode : string)
| MOUSEBUTTONDOWN (button : Z) (pos : Z * Z)
| OTHER.

Definition K_BACKSPACE : Z := 8.
Definition K_TAB : Z := 9.
Definition K_RETURN : Z := 13.
Definition K_ESCAPE : Z := 27.
Definition K_SPACE : Z := 32.
Definition K_1 : Z := 49.
Definition K_2 : Z := 50.
Definition K_3 : Z := 51.
Definition K_4 : Z := 52.
Definition K_5 : Z := 53.
Definition K_6 : Z := 54.
Definition K_QUESTION : Z := 63.
Definition K_a : Z := 97.
Definition K_d : Z := 100.
Definition K_f : Z := 102.
Definition K_h : Z := 104.
Definition K_i : Z := 105.
Definition K_p : Z := 112.
Definition K_r : Z := 114.
Definition K_s : Z := 115.
Definition K_t : Z := 116.
Definition K_w : Z := 119.

Definition keymap : gmap Z string :=
  list_to_map
    [ (K_a, "move_left"); (K_d, "move_right"); (K_w, "move_up");
      (K_s, "move_down"); (K_SPACE, "do"); (K_TAB, "sleep");
      (K_r, "place_stone"); (K_t, "place_table"); (K_f, "place_furnace");
      (K_p, "place_plant"); (K_1, "make_wood_pickaxe");
      (K_2, "make_stone_pickaxe"); (K_3, "make_iron_pickaxe");
      (K_4, "make_wood_sword"); (K_5, "make_stone_sword");
      (K_6, "make_iron_sword") ].

Record Rect : Type := {
  left : Z;
  top : Z;
  width : Z;
  height : Z
}.

(** [pygame.Rect.collidepoint]: the right and bottom edges are outside. *)
Definition collidepoint (r : Rect) (pos : Z * Z) : bool :=
  (left r <=? fst pos) && (fst pos <? left r + width r)
  && (top r <=? snd pos) && (snd pos <? top r + height r).

(** The entries of [self.colors] the buttons use. *)
Module colors.
Definition yellow : Z * Z * Z := (255, 255, 0).
Definition blue : Z * Z * Z := (0, 0, 255).
Definition light_gray : Z * Z * Z := (192, 192, 192).
Definition orange : Z * Z * Z := (255, 165, 0).
End colors.

Record Button : Type := {
  rect : Rect;
  text : string;
  action : string;
  color : Z * Z * Z;
  hover_color : Z * Z * Z
}.

Fixpoint enumerate_from {A : Type} (n : nat) (l : list A)
  : list (nat * A) :=
  match l with
  | [] => []
  | x :: l' => (n, x) :: enumerate_from (S n) l'
  end.

Definition enumerate {A : Type} (l : list A) : list (nat * A) :=
  enumerate_from 0 l.

(** The button registry: a dictionary in insertion order, the nine action
    buttons in rows of three, then the four control buttons. *)
Definition create_buttons : list (string * Button) :=
  let button_y := 650 in
  let button_width := 80 in
  let button_height := 30 in
  let button_spacing := 10 in
  let actions :=
    [ ("Navigator", "Navigator"); ("Share", "share"); ("Noop", "noop");
      ("Move Left", "move_left"); ("Move Right", "move_right");
      ("Move Up", "move_up"); ("Move Down", "move_down"); ("Do", "do");
      ("Sleep", "sleep") ] in
  let control_buttons :=
    [ ("Pause", "pause", 610, 750); ("Human Action", "human_action", 700, 750);
      ("Help", "help", 790, 750); ("Inventory", "inventory", 880, 750) ] in
  map (fun '(i, (text, action)) =>
         let x := 610 + (Z.of_nat i mod 3) * (button_width + button_spacing) in
         let y := button_y + (Z.of_nat i / 3) * (button_height + 5) in
         (action,
          {| rect := {| left := x; top := y;
                        width := button_width; height := button_height |};
             text := text; action := action;
             color := colors.light_gray; hover_color := colors.yellow |}))
      (enumerate actions)
  ++ map (fun '(text, action, x, y) =>
            (action,
             {| rect := {| left := x; top := y; width := 80; height := 30 |};
                text := text; action := action;
                color := colors.blue; hover_color := colors.orange |}))
         control_buttons.

(** ** The GUI object *)

Section GUI.

Context `{Collaborators}.

(** The digit limit of the interpreter's [int()], see
    [PyStr.too_many_digits]. *)
Variable max_str_digits : nat.

Record GUI : Type := {
  human_agent_ids : list Z;
  n_players : Z;
  max_steps : Z;
  agents : list Agent;
  env : World;
  current_step : Z;
  running : bool;
  paused : bool;
  current_human_agent : option nat;
  waiting_for_human_input : bool;
  show_help : bool;
  show_inventory : bool;
  input_mode : bool;
  input_prompt : string;
  input_field : string;
  input_type : string;
  fps : Z;
  buttons : list (string * Button);
  trace : list Effect
}.

(** Assignments to the attributes of [self]. *)
Definition set_agents (v : list Agent) (g : GUI) : GUI :=
  {| human_agent_ids := human_agent_ids g; n_players := n_players g;
     max_steps := max_steps g; agents := v; env := env g;
     current_step := current_step g; running := running g;
     paused := paused g; current_human_agent := current_human_agent g;
     waiting_for_human_input := waiting_for_human_input g;
     show_help := show_help g; show_inventory := show_inventory g;
     input_mode := input_mode g; input_prompt := input_prompt g;
     input_field := input_field g; input_type := input_type g;
     fps := fps g; buttons := buttons g; trace := trace g |}.

Definition set_env (v : World) (g : GUI) : GUI :=
  {| human_agent_ids := human_agent_ids g; n_players := n_players g;
     max_steps := max_steps g; agents := agents g; env := v;
     current_step := current_step g; running := running g;
     paused := paused g; current_human_agent := current_human_agent g;
     waiting_for_human_input := waiting_for_human_input g;
     show_help := show_help g; show_inventory := show_inventory g;
     input_mode := input_mode g; input_prompt := input_prompt g;
     input_field := input_field g; input_type := input_type g;
     fps := fps g; buttons := buttons g; trace := trace g |}.

Definition set_current_step (v : Z) (g : GUI) : GUI :=
  {| human_agent_ids := human_agent_ids g; n_players := n_players g;
     max_steps := max_steps g; agents := agents g; env := env g;
     current_step := v; running := running g; paused := paused g;
     current_human_agent := current_human_agent g;
     waiting_for_human_input := waiting_for_human_input g;
     show_help := show_help g; show_inventory := show_inventory g;
     input_mode := input_mode g; input_prompt := input_prompt g;
     input_field := input_field g; input_type := input_type g;
     fps := fps g; buttons := buttons g; trace := trace g |}.

Definition set_running (v : bool) (g : GUI) : GUI :=
  {| human_agent_ids := human_agent_ids g; n_players := n_players g;
     max_steps := max_steps g; agents := agents g; env := env g;
     current_step := current_step g; running := v; paused := paused g;
     current_human_agent := current_human_agent g;
     waiting_for_human_input := waiting_for_human_input g;
     show_help := show_help g; show_inventory := show_inventory g;
     input_mode := input_mode g; input_prompt := input_prompt g;
     input_field := input_field g; input_type := input_type g;
     fps := fps g; buttons := buttons g; trace := trace g |}.

Definition set_paused (v : bool) (g : GUI) : GUI :=
  {| human_agent_ids := human_agent_ids g; n_players := n_players g;
     max_steps := max_steps g; agents := agents g; env := env g;
     current_step := current_step g; running := running g; paused := v;
     current_human_agent := current_human_agent g;
     waiting_for_human_input := waiting_for_human_input g;
     show_help := show_help g; show_inventory := show_inventory g;
     input_mode := input_mode g; input_prompt := input_prompt g;
     input_field := input_field g; input_type := input_type g;
     fps := fps g; buttons := buttons g; trace := trace g |}.

Definition set_current_human_agent (v : option nat) (g : GUI) : GUI :=
  {| human_agent_ids := human_agent_ids g; n_players := n_players g;
     max_steps := max_steps g; agents := agents g; env := env g;
     current_step := current_step g; running := running g;
     paused := paused g; current_human_agent := v;
     waiting_for_human_input := waiting_for_human_input g;
     show_help := show_help g; show_inventory := show_inventory g;
     input_mode := input_mode g; input_prompt := input_prompt g;
     input_field := input_field g; input_type := input_type g;
     fps := fps g; buttons := buttons g; trace := trace g |}.

Definition set_show_help (v : bool) (g : GUI) : GUI :=
  {| human_agent_ids := human_agent_ids g; n_players := n_players g;
     max_steps := max_steps g; agents := agents g; env := env g;
     current_step := current_step g; running := running g;
     paused := paused g; current_human_agent := current_human_agent g;
     waiting_for_human_input := waiting_for_human_input g; show_help := v;
     show_inventory := show_inventory g; input_mode := input_mode g;
     input_prompt := input_prompt g; input_field := input_field g;
     input_type := input_type g; fps := fps g; buttons := buttons g;
     trace := trace g |}.

Definition set_show_inventory (v : bool) (g : GUI) : GUI :=
  {| human_agent_ids := human_agent_ids g; n_players := n_players g;
     max_steps := max_steps g; agents := agents g; env := env g;
     current_step := current_step g; running := running g;
     paused := paused g; current_human_agent := current_human_agent g;
     waiting_for_human_input := waiting_for_human_input g;
     show_help := show_help g; show_inventory := v;
     input_mode := input_mode g; input_prompt := input_prompt g;
     input_field := input_field g; input_type := input_type g;
     fps := fps g; buttons := buttons g; trace := trace g |}.

Definition set_input_mode (v : bool) (g : GUI) : GUI :=
  {| human_agent_ids := human_agent_ids g; n_players := n_players g;
     max_steps := max_steps g; agents := agents g; env := env g;
     current_step := current_step g; running := running g;
     paused := paused g; current_human_agent := current_human_agent g;
     waiting_for_human_input := waiting_for_human_input g;
     show_help := show_help g; show_inventory := show_inventory g;
     input_mode := v; input_prompt := input_prompt g;
     input_field := input_field g; input_type := input_type g;
     fps := fps g; buttons := buttons g; trace := trace g |}.

Definition set_input_prompt (v : string) (g : GUI) : GUI :=
  {| human_agent_ids := human_agent_ids g; n_players := n_players g;
     max_steps := max_steps g; agents := agents g; env := env g;
     current_step := current_step g; running := running g;
     paused := paused g; current_human_agent := current_human_agent g;
     waiting_for_human_input := waiting_for_human_input g;
     show_help := show_help g; show_inventory := show_inventory g;
     input_mode := input_mode g; input_prompt := v;
     input_field := input_field g; input_type := input_type g;
     fps := fps g; buttons := buttons g; trace := trace g |}.

Definition set_input_field (v : string) (g : GUI) : GUI :=
  {| human_agent_ids := human_agent_ids g; n_players := n_players g;
     max_steps := max_steps g; agents := agents g; env := env g;
     current_step := current_step g; running := running g;
     paused := paused g; current_human_agent := current_human_agent g;
     waiting_for_human_input := waiting_for_human_input g;
     show_help := show_help g; show_inventory := show_inventory g;
     input_mode := input_mode g; input_prompt := input_prompt g;
     input_field := v; input_type := input_type g; fps := fps g;
     buttons := buttons g; trace := trace g |}.

Definition set_input_type (v : string) (g : GUI) : GUI :=
  {| human_agent_ids := human_agent_ids g; n_players := n_players g;
     max_steps := max_steps g; agents := agents g; env := env g;
     current_step := current_step g; running := running g;
     paused := paused g; current_human_agent := current_human_agent g;
     waiting_for_human_input := waiting_for_human_input g;
     show_help := show_help g; show_inventory := show_inventory g;
     input_mode := input_mode g; input_prompt := input_prompt g;
     input_field := input_field g; input_type := v; fps := fps g;
     buttons := buttons g; trace := trace g |}.

Definition set_fps (v : Z) (g : GUI) : GUI :=
  {| human_agent_ids := human_agent_ids g; n_players := n_players g;
     max_steps := max_steps g; agents := agents g; env := env g;
     current_step := current_step g; running := running g;
     paused := paused g; current_human_agent := current_human_agent g;
     waiting_for_human_input := waiting_for_human_input g;
     show_help := show_help g; show_inventory := show_inventory g;
     input_mode := input_mode g; input_prompt := input_prompt g;
     input_field := input_field g; input_type := input_type g; fps := v;
     buttons := buttons g; trace := trace g |}.

Definition set_trace (v : list Effect) (g : GUI) : GUI :=
  {| human_agent_ids := human_agent_ids g; n_players := n_players g;
     max_steps := max_steps g; agents := agents g; env := env g;
     current_step := current_step g; running := running g;
     paused := paused g; current_human_agent := current_human_agent g;
     waiting_for_human_input := waiting_for_human_input g;
     show_help := show_help g; show_inventory := show_inventory g;
     input_mode := input_mode g; input_prompt := input_prompt g;
     input_field := input_field g; input_type := input_type g;
     fps := fps g; buttons := buttons g; trace := v |}.

Definition log (es : list Effect) (g : GUI) : GUI :=
  set_trace (trace g ++ es) g.

(** [repr] of a list of integers, as an f-string shows it. *)
Definition repr_int_list (l : list Z) : string :=
  "[" ++ String.concat ", " (map PyStr.str_of_Z l) ++ "]".

(** *** [__init__] *)

Definition init (human_agent_ids : list Z) (n_players max_steps : Z)
  : GUI :=
  {| human_agent_ids := human_agent_ids;
     n_players := n_players;
     max_steps := max_steps;
     agents := initialize_agents human_agent_ids n_players;
     env := new_world max_steps n_players 4;
     current_step := 0;
     running := true;
     paused := false;
     current_human_agent := None;
     waiting_for_human_input := false;
     show_help := false;
     show_inventory := false;
     input_mode := false;
     input_prompt := "";
     input_field := "";
     input_type := "";
     fps := 5;
     buttons := create_buttons;
     trace :=
       [ Print "Fixed Advanced GUI Controls:";
         Print "  h: Human agent action selection";
         Print "  p: Pause/Resume simulation";
         Print "  i: Show/hide inventory";
         Print "  ?: Show/hide help";
         Print "  ESC: Quit";
         Print "  Mouse: Click buttons for actions";
         Print "  ENTER: Confirm input (when in input mode)" ] |}.

(** *** [render] *)

(** The drawing calls change nothing of [self]; the sidebar computes
    [current_step / max_steps] for the progress bar. *)
Definition render (g : GUI) : result GUI :=
  if max_steps g =? 0 then Raise ZeroDivisionError
  else
    Ok (log ([Draw "game_area"; Draw "sidebar"; Draw "buttons"]
             ++ (if show_help g then [Draw "help_overlay"] else [])
             ++ (if show_inventory g then [Draw "inventory_overlay"] else [])
             ++ (if input_mode g then [Draw "input_overlay"] else [])
             ++ [DisplayFlip; ClockTick (fps g)]) g).

(** *** The wizard *)

Definition handle_action (action : string) (g : GUI) : GUI :=
  log [Print ("Action selected: " ++ action)] g.

Definition human_agents_of (l : list Agent) : list nat :=
  map fst (List.filter (fun p => is_human (snd p)) (enumerate l)).

Definition start_human_action_selection (g : GUI) : GUI :=
  match human_agents_of (agents g) with
  | [] => log [Print "No human agents available"] g
  | first :: _ =>
      let g1 :=
        match current_human_agent g with
        | None => set_current_human_agent (Some first) g
        | Some _ => g
        end in
      let g2 := set_input_mode true g1 in
      let g3 := set_input_type "op" g2 in
      let g4 :=
        set_input_prompt
          ("Human Agent "
           ++ match current_human_agent g3 with
              | Some i => PyStr.str_of_nat i
              | None => "None"
              end
           ++ " - Enter operation type (Navigator/share/noop/etc):") g3 in
      set_input_field "" g4
  end.

(** [self.agents[self.current_human_agent]]: indexing with [None] is a
    [TypeError], an index past the end an [IndexError]. *)
Definition current_agent (g : GUI) : result (nat * Agent) :=
  match current_human_agent g with
  | None => Raise TypeError
  | Some i =>
      match agents g !! i with
      | Some a => Ok (i, a)
      | None => Raise IndexError
      end
  end.

(** [self.agents[self.current_human_agent].attr = v] *)
Definition assign_current (upd : Agent -> Agent) (g : GUI) : result GUI :=
  found <-! current_agent g;
  let '(i, a) := found in
  Ok (set_agents (<[i := upd a]> (agents g)) g).

Definition or_default (s default : string) : string :=
  if PyStr.falsy s then default else s.

Definition parse_target (s : string) : Z :=
  match PyStr.int max_str_digits (PyStr.strip s) with
  | Ok z => z
  | Raise _ => -1
  end.

Definition process_input (g : GUI) : result GUI :=
  if String.eqb (input_type g) "op" then
    let op := or_default (PyStr.strip (input_field g)) "noop" in
    g1 <-! assign_current (set_op op) g;
    Ok (set_input_field ""
          (set_input_prompt
             "Enter resource to collect (or 'not_applicable'):"
             (set_input_type "collect" g1)))
  else if String.eqb (input_type g) "collect" then
    let rss_to_collect :=
      or_default (PyStr.strip (input_field g)) "not_applicable" in
    g1 <-! assign_current (set_rss_to_collect rss_to_collect) g;
    Ok (set_input_field ""
          (set_input_prompt
             "Enter resource to share (or 'not_applicable'):"
             (set_input_type "share" g1)))
  else if String.eqb (input_type g) "share" then
    let rss_to_share :=
      or_default (PyStr.strip (input_field g)) "not_applicable" in
    g1 <-! assign_current (set_rss_to_share rss_to_share) g;
    Ok (set_input_field ""
          (set_input_prompt
             "Enter target agent id (or -1 if not applicable):"
             (set_input_type "target" g1)))
  else if String.eqb (input_type g) "target" then
    let target_agent_id := parse_target (input_field g) in
    g1 <-! assign_current (set_target_agent_id target_agent_id) g;
    found <-! current_agent g1;
    let '(i, agent) := found in
    let g2 :=
      set_agents
        (<[i := update_current_skill agent (op agent)
                  (rss_to_collect agent) (rss_to_share agent)
                  target_agent_id]> (agents g1)) g1 in
    let g3 :=
      log [Print ("[Human Agent " ++ PyStr.str_of_nat i
                  ++ "] Action set: op=" ++ op agent
                  ++ ", collect=" ++ rss_to_collect agent
                  ++ ", share=" ++ rss_to_share agent
                  ++ ", target_agent_id="
                  ++ PyStr.str_of_Z target_agent_id)] g2 in
    Ok (set_input_type "" (set_input_field "" (set_input_mode false g3)))
  else Ok g.

(** *** Event handlers *)

Definition handle_normal_event (key : Z) (g : GUI) : GUI :=
  if key =? K_ESCAPE then set_running false g
  else if key =? K_p then set_paused (negb (paused g)) g
  else if key =? K_h then start_human_action_selection g
  else if key =? K_i then set_show_inventory (negb (show_inventory g)) g
  else if key =? K_QUESTION then set_show_help (negb (show_help g)) g
  else match keymap !! key with
       | Some action => handle_action action g
       | None => g
       end.

Definition handle_input_event (key : Z) (unicode : string) (g : GUI)
  : result GUI :=
  if key =? K_ESCAPE then
    Ok (set_input_type "" (set_input_field "" (set_input_mode false g)))
  else if key =? K_RETURN then process_input g
  else if key =? K_BACKSPACE then
    Ok (set_input_field (PyStr.drop_last (input_field g)) g)
  else if PyStr.isprintable unicode then
    Ok (set_input_field (input_field g ++ unicode) g)
  else Ok g.

Definition handle_button_action (button_id : string) (g : GUI) : GUI :=
  if String.eqb button_id "pause" then set_paused (negb (paused g)) g
  else if String.eqb button_id "human_action" then
    start_human_action_selection g
  else if String.eqb button_id "help" then
    set_show_help (negb (show_help g)) g
  else if String.eqb button_id "inventory" then
    set_show_inventory (negb (show_inventory g)) g
  else handle_action button_id g.

(** The first button, in registry order, whose rectangle holds [pos]. *)
Fixpoint button_at (bs : list (string * Button)) (pos : Z * Z)
  : option string :=
  match bs with
  | [] => None
  | (button_id, button) :: bs' =>
      if collidepoint (rect button) pos then Some button_id
      else button_at bs' pos
  end.

Definition handle_mouse_click (pos : Z * Z) (g : GUI) : GUI :=
  match button_at (buttons g) pos with
  | Some button_id => handle_button_action button_id g
  | None => g
  end.

(** One iteration of the loop over [pygame.event.get()]. *)
Definition handle_event (event : Event) (g : GUI) : result GUI :=
  match event with
  | QUIT => Ok (set_running false g)
  | KEYDOWN key unicode =>
      if input_mode g then handle_input_event key unicode g
      else Ok (handle_normal_event key g)
  | MOUSEBUTTONDOWN button pos =>
      if button =? 1 then Ok (handle_mouse_click pos g) else Ok g
  | OTHER => Ok g
  end.

Fixpoint handle_events (events : list Event) (g : GUI) : result GUI :=
  match events with
  | [] => Ok g
  | event :: events' =>
      g1 <-! handle_event event g; handle_events events' g1
  end.

(** *** The tick driver *)

(** The calls of one tick, as they appear in the trace. *)
Definition tick_calls (n step : Z) : list Effect :=
  [ CallProcessAllAgentActions n;
    CallCollectAgentActions n;
    CallStepEnvironment;
    CallUpdateCraftingStations;
    CallUpdateAllAgentStates step 0;
    CallIdentifyAgentsNeedingThought;
    CallCreateAgentContexts;
    CallProcessAgentThinkingParallel;
    CallUpdateAgentsFromResponses;
    CallShowStepReport ].

(** The body of [run_simulation_step] after its guard: the new agents
    and world, and the environment's [done]. *)
Definition tick_world (g : GUI) : list Agent * World * bool :=
  let s0 := (agents g, env g) in
  let '(_, s1) := process_all_agent_actions (n_players g) s0 in
  let '(agents_actions, s2) := collect_agent_actions (n_players g) s1 in
  let '((obs, rewards, done, info), s3) :=
    step_environment agents_actions s2 in
  let '(_, s4) := update_crafting_stations s3 in
  let '(_, s5) := update_all_agent_states obs (current_step g) info 0 s4 in
  let '(agents_with_new_thought, s6) :=
    identify_agents_needing_thought info s5 in
  let '(agents_contexts, s7) := create_agent_contexts info s6 in
  let '(agents_responses, s8) :=
    process_agent_thinking_parallel agents_contexts info s7 in
  let '(_, s9) := update_agents_from_responses agents_responses s8 in
  let '(_, s10) := show_step_report agents_with_new_thought s9 in
  (s10, done).

Definition run_simulation_step (g : GUI) : GUI :=
  if paused g || input_mode g then g
  else
    let '(agents', env', done) := tick_world g in
    let g1 := set_env env' (set_agents agents' g) in
    let g2 := log (tick_calls (n_players g) (current_step g)) g1 in
    let g3 := set_current_step (current_step g2 + 1) g2 in
    if done || (max_steps g3 <=? current_step g3) then
      set_running false (log [Print "Simulation completed!"] g3)
    else g3.

(** *** The main loop *)

(** One pass of the loop body. *)
Definition frame (events : list Event) (g : GUI) : result GUI :=
  g1 <-! handle_events events g;
  render (run_simulation_step g1).

(** [while self.running: ...], fed with the events of each frame; it
    stops early when [frames] runs out. *)
Fixpoint run_loop (frames : list (list Event)) (g : GUI) : result GUI :=
  if running g then
    match frames with
    | [] => Ok g
    | events :: frames' => g1 <-! frame events g; run_loop frames' g1
    end
  else Ok g.

(** [run]: the closing line is printed once the loop has ended, which it
    has not when [frames] ran out first. *)
Definition run (frames : list (list Event)) (g : GUI) : result GUI :=
  let g0 :=
    log [ Print ("Starting Fixed Advanced HumanAgent GUI with "
                 ++ PyStr.str_of_Z (n_players g) ++ " agents");
          Print ("Human agents: " ++ repr_int_list (human_agent_ids g));
          Print "Press 'h' for human actions, 'p' to pause/resume, '?' for help, ESC to quit" ] g in
  g1 <-! run_loop frames g0;
  Ok (if running g1 then g1
      else log [Print "Fixed Advanced GUI closed"] g1).

(** *** [main] *)

Record Args : Type := {
  arg_human_agents : string;
  arg_agent_num : Z;
  arg_step_num : Z;
  arg_fps : Z
}.

(** The list comprehension over [args.human_agents.split(',')]. *)
Definition parse_human_agent_ids (human_agents : string)
  : result (list Z) :=
  if PyStr.falsy (PyStr.strip human_agents) then Ok []
  else
    result_map (fun x => PyStr.int max_str_digits (PyStr.strip x))
      (List.filter (fun x => PyStr.isdigit (PyStr.strip x))
         (PyStr.split "," human_agents)).

Definition main (args : Args) (frames : list (list Event)) : result GUI :=
  human_agent_ids <-! parse_human_agent_ids (arg_human_agents args);
  let gui := init human_agent_ids (arg_agent_num args) (arg_step_num args) in
  run frames (set_fps (arg_fps args) gui).

End GUI.

Arguments GUI {_}.

(** ** Operations and reachable states *)

Section Operations.

Context `{Collaborators}.
Variable max_str_digits : nat.

(** What one pass of the main loop is made of. *)
Inductive Operation : Type :=
| OpEvent (event : Event)
| OpTick
| OpRender.

Definition perform (o : Operation) (g : GUI) : result GUI :=
  match o with
  | OpEvent event => handle_event max_str_digits event g
  | OpTick => Ok (run_simulation_step g)
  | OpRender => render g
  end.

Fixpoint perform_all (os : list Operation) (g : GUI) : result GUI :=
  match os with
  | [] => Ok g
  | o :: os' => g1 <-! perform o g; perform_all os' g1
  end.

(** The states the program can be in: those the loop reaches from a
    freshly constructed GUI, whatever the frame rate [main] sets. *)
Inductive reachable : GUI -> Prop :=
| reach_init (human_agent_ids : list Z) (n_players max_steps fps : Z) :
    reachable (set_fps fps (init human_agent_ids n_players max_steps))
| reach_perform (o : Operation) (g g' : GUI) :
    reachable g -> perform o g = Ok g' -> reachable g'
| reach_print (lines : list string) (g : GUI) :
    reachable g -> reachable (log (map Print lines) g).

(** The wizard's part of the state. *)
Definition wizard_state (g : GUI)
  : bool * string * string * string * option nat :=
  (input_mode g, input_type g, input_field g, input_prompt g,
   current_human_agent g).

(** The events that ask for wizard entry: the key [h] outside the wizard,
    or a left click on the button registered as [human_action]. *)
Inductive triggers_entry (g : GUI) : Event -> Prop :=
| entry_by_key (unicode : string) :
    input_mode g = false -> triggers_entry g (KEYDOWN K_h unicode)
| entry_by_button (pos : Z * Z) :
    button_at (buttons g) pos = Some "human_action" ->
    triggers_entry g (MOUSEBUTTONDOWN 1 pos).

(** The events that toggle [paused]. *)
Inductive toggles_pause (g : GUI) : Event -> Prop :=
| pause_by_key (unicode : string) :
    input_mode g = false -> toggles_pause g (KEYDOWN K_p unicode)
| pause_by_button (pos : Z * Z) :
    button_at (buttons g) pos = Some "pause" ->
    toggles_pause g (MOUSEBUTTONDOWN 1 pos).

(** The agent a wizard session started in [g] writes to. *)
Definition wizard_target (g : GUI) : option nat :=
  match current_human_agent g with
  | Some i => Some i
  | None => head (human_agents_of (agents g))
  end.

(** The buffer after one key press of the wizard that is neither confirm
    nor cancel. *)
Definition edit_field (key : Z) (unicode : string) (field : string)
  : string :=
  if key =? K_BACKSPACE then PyStr.drop_last field
  else if PyStr.isprintable unicode then (field ++ unicode)%string
  else field.

Definition typed (keys : list (Z * string)) : string :=
  fold_left (fun field k => edit_field (fst k) (snd k) field) keys "".

Definition is_edit_key (k : Z * string) : Prop :=
  fst k <> K_ESCAPE /\ fst k <> K_RETURN.

Definition typing (keys : list (Z * string)) : list Event :=
  map (fun k => KEYDOWN (fst k) (snd k)) keys.

Definition confirm : Event := KEYDOWN K_RETURN (String "013" "").

(** Whether processing [event] in [g] ends the loop. *)
Definition closes (g : GUI) (event : Event) : bool :=
  match event with
  | QUIT => true
  | KEYDOWN key _ => negb (input_mode g) && (key =? K_ESCAPE)
  | _ => false
  end.

(** Whether [run_simulation_step] ticks in [g], and whether that tick
    ends the loop. *)
Definition ticks (g : GUI) : bool := negb (paused g || input_mode g).

Definition tick_ends (g : GUI) : bool :=
  ticks g && (snd (tick_world g) || (max_steps g <=? current_step g + 1)).

(** The agent the target step leaves behind: the target written, then
    the skill update called with the agent's three fields and the
    target. *)
Definition committed (a : Agent) (t : Z) : Agent :=
  update_current_skill (set_target_agent_id t a)
    (op a) (rss_to_collect a) (rss_to_share a) t.

(** The wizard invariant of the data model. *)
Definition wizard_invariant (g : GUI) : Prop :=
  (input_mode g = true <-> input_type g <> "")
  /\ (input_mode g = true -> exists i, current_human_agent g = Some i).

(** What holds of every state of a running GUI: the registry is the one
    built at construction, and the wizard is only ever active when some
    agent is human. *)
Definition session_invariant (g : GUI) : Prop :=
  buttons g = create_buttons
  /\ (input_mode g = true -> human_agents_of (agents g) <> []).

End Operations.

(** [human_agents_of], counting from [n]. *)
Definition human_agents_from (n : nat) (l : list Agent) : list nat :=
  map fst (List.filter (fun p => is_human (snd p)) (enumerate_from n l)).

(** ** The command line, as documented *)

(** The reading of [--human_agents] its help text gives: the tokens
    between commas, stripped; those made of the digits [0..9] only, each
    read in base ten. [parse_human_agent_ids] is compared with it below. *)
Definition is_ascii (c : ascii) : bool := (PyStr.code c <? 128)%N.

Definition all_decimal (t : string) : bool :=
  negb (PyStr.is_empty t) && PyStr.forallb_str PyStr.isdecimal_char t.

Definition decimal_value (t : string) : Z :=
  PyStr.digits_value (map PyStr.digit_value (list_ascii_of_string t)).

Definition parse_human_agent_ids_spec (human_agents : string) : list Z :=
  map decimal_value
    (List.filter all_decimal
       (map PyStr.strip (PyStr.split "," human_agents))).

(** The one-character string [SUPERSCRIPT TWO], U+00B2. *)
Definition superscript_two : string := String "178" "".

(** ** A stand-in for the simulation modules *)

Definition fresh_agent (human : bool) : Agent :=
  {| is_human := human; op := ""; rss_to_collect := ""; rss_to_share := "";
     target_agent_id := -1; skill_updates := [] |}.

(** Agents that never act in a world that is a countdown: the environment
    reports [done] when the countdown runs out. Used to run the GUI on
    concrete inputs. *)
Definition countdown : Collaborators :=
  {| World := Z;
     Actions := unit; Obs := unit; Rewards := unit; Info := unit;
     Thoughts := unit; Contexts := unit; Responses := unit;
     initialize_agents := fun ids n =>
       map (fun i => fresh_agent (existsb (Z.eqb (Z.of_nat i)) ids))
           (seq 0 (Z.to_nat n));
     new_world := fun length _ _ => length;
     process_all_agent_actions := fun _ s => (tt, s);
     collect_agent_actions := fun _ s => (tt, s);
     step_environment := fun _ s =>
       ((tt, tt, snd s <=? 1, tt), (fst s, snd s - 1));
     update_crafting_stations := fun s => (tt, s);
     update_all_agent_states := fun _ _ _ _ s => (tt, s);
     identify_agents_needing_thought := fun _ s => (tt, s);
     create_agent_contexts := fun _ s => (tt, s);
     process_agent_thinking_parallel := fun _ _ s => (tt, s);
     update_agents_from_responses := fun _ s => (tt, s);
     show_step_report := fun _ s => (tt, s) |}.

(** A GUI over [countdown] with two agents, the second one human. *)
Definition demo : @GUI countdown := @init countdown [1] 2 5.

(** The demo GUI after wizard entry, [Nav] typed and confirmed, and two
    more characters typed at the collect step. *)
Definition demo_mid_session : @GUI countdown :=
  ok_or demo
    (handle_events 4300
       ([KEYDOWN K_h "h"] ++ typing [(110, "N"); (97, "a"); (118, "v")]
        ++ [confirm] ++ typing [(119, "w"); (111, "o")]) demo).

(** A GUI over [countdown] with three agents, none of them human. *)
Definition demo_no_human : @GUI countdown := @init countdown [] 3 5.

(** The demo GUI at each wizard step, the buffer holding only blanks (a
    letter at the target step of [demo_at_target_junk]). *)
Definition demo_at_op : @GUI countdown :=
  ok_or demo
    (handle_events 4300 ([KEYDOWN K_h "h"] ++ typing [(K_SPACE, " ")]) demo).

Definition demo_at_collect : @GUI countdown :=
  ok_or demo
    (handle_events 4300 ([confirm] ++ typing [(K_SPACE, " ")]) demo_at_op).

Definition demo_at_share : @GUI countdown :=
  ok_or demo
    (handle_events 4300 ([confirm] ++ typing [(K_SPACE, " ")])
       demo_at_collect).

Definition demo_at_target : @GUI countdown :=
  ok_or demo
    (handle_events 4300 ([confirm] ++ typing [(K_SPACE, " ")])
       demo_at_share).

Definition demo_at_target_junk : @GUI countdown :=
  ok_or demo
    (handle_events 4300 (typing [(120, "x")]) demo_at_target).

(** The demo GUI paused by the key [p]. *)
Definition demo_paused : @GUI countdown :=
  ok_or demo (handle_event 4300 (KEYDOWN K_p "p") demo).

(** [demo_mid_session] after the confirm of the collect step. *)
Definition demo_at_share_typed : @GUI countdown :=
  ok_or demo (handle_event 4300 confirm demo_mid_session).



(** The key presses that type [Navigator]. *)
Definition navigator_keys : list (Z * string) :=
  [ (110, "N"); (97, "a"); (118, "v"); (105, "i"); (103, "g");
    (97, "a"); (116, "t"); (111, "o"); (114, "r") ].

(** ** Drawing the buttons *)

(** What [render_buttons] asks of the screen, in order. *)
Inductive DrawCmd : Type :=
| FillRect (color : Z * Z * Z) (r : Rect)
| OutlineRect (color : Z * Z * Z) (r : Rect) (line_width : Z)
| TextCentered (text : string) (font_size : Z) (color : Z * Z * Z)
    (center : Z * Z).

Definition color_white : Z * Z * Z := (255, 255, 255).
Definition color_black : Z * Z * Z := (0, 0, 0).

(** [pygame.Rect.center] *)
Definition rect_center (r : Rect) : Z * Z :=
  (left r + width r / 2, top r + height r / 2).

(** [render_buttons], the pointer being at [mouse_pos]: each button is
    filled in its hover colour when the pointer is inside its rectangle,
    in its own colour otherwise, then outlined and labelled. *)
Definition render_buttons
  (bs : list (string * Button)) (mouse_pos : Z * Z) : list DrawCmd :=
  flat_map
    (fun '(button_id, button) =>
       let color :=
         if collidepoint (rect button) mouse_pos then hover_color button
         else color button in
       [ FillRect color (rect button);
         OutlineRect color_white (rect button) 2;
         TextCentered (text button) 18 color_black
           (rect_center (rect button)) ])
    bs.

(** ** Counting in the trace *)

Definition is_step_call (e : Effect) : bool :=
  match e with
  | CallStepEnvironment => true
  | _ => false
  end.

(** How many times the environment was stepped. *)
Definition environment_steps (t : list Effect) : Z :=
  Z.of_nat (length (List.filter is_step_call t)).

Definition is_print (e : Effect) : bool :=
  match e with
  | Print _ => true
  | _ => false
  end.

(** ** Worlds that keep the agents in place *)

(** The simulation modules leave the list of agents at its length: a tick
    may change every agent, and creates or removes none. *)
Definition keeps_agent_count `{Collaborators} : Prop :=
  forall g : GUI, length (fst (fst (tick_world g))) = length (agents g).

(** The designated agent, if any, is an agent of the list. *)
Definition designation_in_range `{Collaborators} (g : GUI) : Prop :=
  forall i : nat,
    current_human_agent g = Some i -> (i < length (agents g))%nat.

(** The frames of a session without any input. *)
Definition idle_frames (n : nat) : list (list Event) := repeat [] n.

(** The demo GUI after three frames, a movement key pressed in the
    second. *)
Definition demo_after_three_ticks : @GUI countdown :=
  ok_or demo (run_loop 4300 [[]; [KEYDOWN K_w "w"]; []] demo).

(** The values [input_type] is documented to take while the wizard runs. *)
Definition wizard_steps : list string := ["op"; "collect"; "share"; "target"].

(** A world in which every tick removes the first agent of the list: a
    stand-in that does not keep the agents in place. *)
Definition dropping : Collaborators :=
  {| World := Z;
     Actions := unit; Obs := unit; Rewards := unit; Info := unit;
     Thoughts := unit; Contexts := unit; Responses := unit;
     initialize_agents := fun ids n =>
       map (fun i => fresh_agent (existsb (Z.eqb (Z.of_nat i)) ids))
           (seq 0 (Z.to_nat n));
     new_world := fun length _ _ => length;
     process_all_agent_actions := fun _ s => (tt, (tail (fst s), snd s));
     collect_agent_actions := fun _ s => (tt, s);
     step_environment := fun _ s => ((tt, tt, false, tt), s);
     update_crafting_stations := fun s => (tt, s);
     update_all_agent_states := fun _ _ _ _ s => (tt, s);
     identify_agents_needing_thought := fun _ s => (tt, s);
     create_agent_contexts := fun _ s => (tt, s);
     process_agent_thinking_parallel := fun _ _ s => (tt, s);
     update_agents_from_responses := fun _ s => (tt, s);
     show_step_report := fun _ s => (tt, s) |}.

(** Over [dropping], two agents, the second human: a wizard session is
    started and cancelled, a tick removes the first agent, and the wizard
    is entered again. *)
Definition dropped_in_wizard : @GUI dropping :=
  ok_or (@init dropping [1] 2 5)
    (@perform_all dropping 4300
       [OpEvent (KEYDOWN K_h "h"); OpEvent (KEYDOWN K_ESCAPE ""); OpTick;
        OpEvent (KEYDOWN K_h "h")]
       (@init dropping [1] 2 5)).

(** [input_type] is empty or one of the wizard's steps. *)
Definition step_is_known `{Collaborators} (g : GUI) : Prop :=
  input_type g = "" \/ In (input_type g) wizard_steps.

(** The bound the main loop keeps on the step counter. *)
Definition within_step_limit `{Collaborators} (g : GUI) : Prop :=
  0 <= current_step g <= max_steps g
  /\ (running g = true -> current_step g < max_steps g).

(** Command lines for the demo: agent 1 human, two agents, five steps; and
    the same with a step limit of zero. *)
Definition demo_args : Args :=
  {| arg_human_agents := "1"; arg_agent_num := 2; arg_step_num := 5;
     arg_fps := 5 |}.

Definition zero_step_args : Args :=
  {| arg_human_agents := "1"; arg_agent_num := 2; arg_step_num := 0;
     arg_fps := 5 |}.

(** The demo GUI at the target step, [-7] typed. *)
Definition demo_at_target_minus_seven : @GUI countdown :=
  ok_or demo
    (handle_events 4300
       ([KEYDOWN K_h "h"; confirm; confirm; confirm]
        ++ typing [(45, "-"); (55, "7")]) demo).

(** ** Pacing *)

(** Whether [e], if it is a call of [clock.tick], asks for [rate] frames
    per second. *)
Definition paced_at (rate : Z) (e : Effect) : Prop :=
  match e with
  | ClockTick fps => fps = rate
  | _ => True
  end.

Definition is_flip (e : Effect) : bool :=
  match e with
  | DisplayFlip => true
  | _ => false
  end.

(** How many frames were shown. *)
Definition frames_shown (t : list Effect) : nat :=
  length (List.filter is_flip t).

Definition fast_args : Args :=
  {| arg_human_agents := "1"; arg_agent_num := 2; arg_step_num := 5;
     arg_fps := 30 |}.

(** The demo GUI at the operation step, [ Scout ] typed between blanks. *)
Definition demo_at_op_padded : @GUI countdown :=
  ok_or demo
    (handle_events 4300
       ([KEYDOWN K_h "h"]
        ++ typing [(K_SPACE, " "); (83, "S"); (99, "c"); (111, "o");
                   (117, "u"); (116, "t"); (K_SPACE, " ")]) demo).

(** Whether the interpreter's limit on the digits of an integer literal
    lets a token of [String.length t] digits through: there is no limit
    ([0]), or the token has at most 640 digits, or at most
    [max_str_digits]. *)
Definition digit_limit_allows (max_str_digits : nat) (t : string) : Prop :=
  max_str_digits = 0%nat
  \/ (String.length t <= Nat.max 640 max_str_digits)%nat.

(** ** The keys and buttons that select an action *)

(** The keys that select an action outside the wizard, each with its
    action: the entries of [keymap] but for [p], which pauses. *)
Definition action_keys : list (Z * string) :=
  [ (97, "move_left"); (100, "move_right"); (119, "move_up");
    (115, "move_down"); (32, "do"); (9, "sleep");
    (114, "place_stone"); (116, "place_table"); (102, "place_furnace");
    (49, "make_wood_pickaxe"); (50, "make_stone_pickaxe");
    (51, "make_iron_pickaxe"); (52, "make_wood_sword");
    (53, "make_stone_sword"); (54, "make_iron_sword") ].

(** The nine action buttons, each with the top left corner of its
    rectangle; the rectangles are 80 wide and 30 high. *)
Definition action_button_places : list (string * (Z * Z)) :=
  [ ("Navigator", (610, 650)); ("share", (700, 650)); ("noop", (790, 650));
    ("move_left", (610, 685)); ("move_right", (700, 685));
    ("move_up", (790, 685)); ("move_down", (610, 720)); ("do", (700, 720));
    ("sleep", (790, 720)) ].

(** ** A wizard session, as specified *)

(** The buffer after a key press, in the words of the specification: a
    backspace removes the last character of the buffer (and does nothing
    to an empty buffer), any other key that carries printable text
    appends it, and every other key is ignored. *)
Definition buffer_after_key (buffer : string) (k : Z * string) : string :=
  if fst k =? K_BACKSPACE then
    string_of_list_ascii (removelast (list_ascii_of_string buffer))
  else if PyStr.isprintable (snd k) then (buffer ++ snd k)%string
  else buffer.

(** The text a sequence of key presses leaves in an empty buffer. *)
Definition typed_text (keys : list (Z * string)) : string :=
  fold_left buffer_after_key keys "".

Section Sessions.

Context `{Collaborators}.

(** The key presses among the operations of a run, in order. *)
Definition keys_of (os : list Operation) : list (Z * string) :=
  flat_map
    (fun o =>
       match o with
       | OpEvent (KEYDOWN key unicode) => [(key, unicode)]
       | _ => []
       end)
    os.

(** What may happen between two confirms of a session begun in [g]
    without ending or restarting it: any key but confirm and cancel, any
    press but a left click on the Human Action button, a window-close
    request, any other event, a call of [run_simulation_step], and a
    rendering (which needs a step limit other than 0). *)
Inductive keeps_session (g : GUI) : Operation -> Prop :=
| keeps_key (key : Z) (unicode : string) :
    key <> K_ESCAPE -> key <> K_RETURN ->
    keeps_session g (OpEvent (KEYDOWN key unicode))
| keeps_press (button : Z) (pos : Z * Z) :
    button <> 1 \/ button_at (buttons g) pos <> Some "human_action" ->
    keeps_session g (OpEvent (MOUSEBUTTONDOWN button pos))
| keeps_quit : keeps_session g (OpEvent QUIT)
| keeps_other : keeps_session g (OpEvent OTHER)
| keeps_tick : keeps_session g OpTick
| keeps_render : max_steps g <> 0 -> keeps_session g OpRender.

(** The wizard of [g] is at step [step] for agent [i], the buffer holds
    [field], the agents are [l]; the registry and the step limit are
    those of [g0]. *)
Definition wizard_at
  (g0 g : GUI) (step : string) (i : nat) (l : list Agent) (field : string)
  : Prop :=
  input_mode g = true
  /\ input_type g = step
  /\ input_field g = field
  /\ current_human_agent g = Some i
  /\ agents g = l
  /\ buttons g = buttons g0
  /\ max_steps g = max_steps g0.

End Sessions.

(** The demo session: [ Nav] typed with a slip, a tab, a tick, a
    rendering and a click on Pause in between; nothing for the resource
    to collect; [wood ] for the resource to share; [-7] for the target. *)
Definition demo_session_op : list Operation :=
  [ OpEvent (KEYDOWN 32 " "); OpEvent (KEYDOWN 110 "N");
    OpEvent (KEYDOWN 97 "a"); OpEvent (KEYDOWN 120 "x");
    OpEvent (KEYDOWN 8 (String "008" "")); OpTick; OpRender;
    OpEvent (KEYDOWN 118 "v"); OpEvent (KEYDOWN 9 (String "009" ""));
    OpEvent (MOUSEBUTTONDOWN 1 (620, 760)) ].

Definition demo_session_share : list Operation :=
  [ OpEvent (KEYDOWN 119 "w"); OpEvent (KEYDOWN 111 "o");
    OpEvent (KEYDOWN 111 "o"); OpEvent (KEYDOWN 100 "d");
    OpEvent (KEYDOWN 32 " ") ].

Definition demo_session_target : list Operation :=
  [ OpEvent (KEYDOWN 45 "-"); OpEvent (KEYDOWN 55 "7") ].

(** The state the demo session ends in. *)
Definition demo_after_session : @GUI countdown :=
  ok_or demo
    (perform_all 4300
       ([OpEvent (KEYDOWN K_h "h")]
        ++ demo_session_op ++ [OpEvent confirm]
        ++ [OpEvent confirm]
        ++ demo_session_share ++ [OpEvent confirm]
        ++ demo_session_target ++ [OpEvent confirm]) demo).

(** * Properties *)

(** Take every GUI record in sight apart and compute the assignments. *)
Ltac gui_norm :=
  repeat match goal with g : GUI |- _ => destruct g end;
  cbv beta iota delta
    [set_agents set_env set_current_step set_running set_paused
     set_current_human_agent set_show_help set_show_inventory
     set_input_mode set_input_prompt set_input_field set_input_type
     set_fps set_trace log wizard_state
     human_agent_ids n_players max_steps agents env current_step running
     paused current_human_agent waiting_for_human_input show_help
     show_inventory input_mode input_prompt input_field input_type fps
     buttons trace] in *.

(** ** The model on concrete inputs *)

Example strip_samples :
  PyStr.strip "  Navigator " = "Navigator"
  /\ PyStr.strip "   " = ""
  /\ PyStr.strip (String "009" "a b" ++ String "160" "") = "a b".
Proof. repeat split. Qed.

Example split_samples :
  PyStr.split "," "0,,2" = ["0"; ""; "2"]
  /\ PyStr.split "," "" = [""]
  /\ PyStr.split "," "1," = ["1"; ""].
Proof. repeat split. Qed.

Example int_samples :
  PyStr.int 4300 " -1_0 " = Ok (-10)
  /\ PyStr.int 4300 "007" = Ok 7
  /\ PyStr.int 4300 "+5" = Ok 5
  /\ PyStr.int 4300 "" = Raise ValueError
  /\ PyStr.int 4300 "1__0" = Raise ValueError
  /\ PyStr.int 4300 "_1" = Raise ValueError
  /\ PyStr.int 4300 "1_" = Raise ValueError
  /\ PyStr.int 4300 "1 2" = Raise ValueError
  /\ PyStr.int 4300 "0x10" = Raise ValueError
  /\ PyStr.int 4300 "1.5" = Raise ValueError
  /\ PyStr.int 4300 superscript_two = Raise ValueError.
Proof. repeat split. Qed.

Example str_samples :
  PyStr.str_of_Z (-1) = "-1"
  /\ PyStr.str_of_nat 12 = "12"
  /\ repr_int_list [0; 2] = "[0, 2]"
  /\ repr_int_list [] = "[]".
Proof. repeat split. Qed.

Example isdigit_samples :
  PyStr.isdigit "12" = true
  /\ PyStr.isdigit "" = false
  /\ PyStr.isdigit "-1" = false
  /\ PyStr.isdigit superscript_two = true.
Proof. repeat split. Qed.

Example button_samples :
  map fst create_buttons
  = ["Navigator"; "share"; "noop"; "move_left"; "move_right"; "move_up";
     "move_down"; "do"; "sleep"; "pause"; "human_action"; "help";
     "inventory"]
  /\ button_at create_buttons (610, 650) = Some "Navigator"
  /\ button_at create_buttons (790, 720) = Some "sleep"
  /\ button_at create_buttons (690, 650) = None
  /\ button_at create_buttons (700, 750) = Some "human_action"
  /\ button_at create_buttons (779, 779) = Some "human_action"
  /\ button_at create_buttons (780, 779) = None.
Proof. repeat split. Qed.

Example keymap_samples :
  keymap !! K_w = Some "move_up"
  /\ keymap !! K_p = Some "place_plant"
  /\ keymap !! K_RETURN = None.
Proof. repeat split. Qed.

(** Five ticks of [demo] (five steps at most) end the loop; the sixth and
    seventh batch of events are never read. *)
Example run_loop_sample :
  exists g,
    run_loop 4300 [[]; []; []; []; []; [QUIT]; []] demo = Ok g
    /\ current_step g = 5
    /\ running g = false
    /\ last (trace g) = Some (ClockTick 5).
Proof. eexists. vm_compute. repeat split. Qed.

(** Key [p] shadows its entry in [keymap]: it pauses. *)
Example key_p_pauses :
  handle_normal_event K_p demo = set_paused true demo.
Proof. reflexivity. Qed.

(** ** Each wizard step, spelled out *)

Section WizardSteps.

Context `{Collaborators}.
Variable max_str_digits : nat.


Lemma current_agent_found (g : GUI) (i : nat) (a : Agent) :
  current_human_agent g = Some i ->
  agents g !! i = Some a ->
  current_agent g = Ok (i, a).
Proof.
  intros Hcur Hat. unfold current_agent. now rewrite Hcur, Hat.
Qed.

Lemma assign_current_found
  (upd : Agent -> Agent) (g : GUI) (i : nat) (a : Agent) :
  current_human_agent g = Some i ->
  agents g !! i = Some a ->
  assign_current upd g = Ok (set_agents (<[i := upd a]> (agents g)) g).
Proof.
  intros Hcur Hat. unfold assign_current.
  now rewrite (current_agent_found g i a).
Qed.

Lemma process_input_op (g : GUI) (i : nat) (a : Agent) :
  input_type g = "op" ->
  current_human_agent g = Some i ->
  agents g !! i = Some a ->
  process_input max_str_digits g =
    Ok (set_input_field ""
          (set_input_prompt
             "Enter resource to collect (or 'not_applicable'):"
             (set_input_type "collect"
                (set_agents
                   (<[i := set_op
                             (or_default (PyStr.strip (input_field g))
                                "noop") a]> (agents g)) g)))).
Proof.
  intros Hty Hcur Hat. unfold process_input. rewrite Hty. cbn.
  now rewrite (assign_current_found _ g i a).
Qed.

Lemma process_input_collect (g : GUI) (i : nat) (a : Agent) :
  input_type g = "collect" ->
  current_human_agent g = Some i ->
  agents g !! i = Some a ->
  process_input max_str_digits g =
    Ok (set_input_field ""
          (set_input_prompt
             "Enter resource to share (or 'not_applicable'):"
             (set_input_type "share"
                (set_agents
                   (<[i := set_rss_to_collect
                             (or_default (PyStr.strip (input_field g))
                                "not_applicable") a]> (agents g)) g)))).
Proof.
  intros Hty Hcur Hat. unfold process_input. rewrite Hty. cbn.
  now rewrite (assign_current_found _ g i a).
Qed.

Lemma process_input_share (g : GUI) (i : nat) (a : Agent) :
  input_type g = "share" ->
  current_human_agent g = Some i ->
  agents g !! i = Some a ->
  process_input max_str_digits g =
    Ok (set_input_field ""
          (set_input_prompt
             "Enter target agent id (or -1 if not applicable):"
             (set_input_type "target"
                (set_agents
                   (<[i := set_rss_to_share
                             (or_default (PyStr.strip (input_field g))
                                "not_applicable") a]> (agents g)) g)))).
Proof.
  intros Hty Hcur Hat. unfold process_input. rewrite Hty. cbn.
  now rewrite (assign_current_found _ g i a).
Qed.

Lemma process_input_target (g : GUI) (i : nat) (a : Agent) :
  input_type g = "target" ->
  current_human_agent g = Some i ->
  agents g !! i = Some a ->
  exists line,
    process_input max_str_digits g =
      Ok (set_input_type ""
            (set_input_field ""
               (set_input_mode false
                  (log [Print line]
                     (set_agents
                        (<[i := committed a
                                  (parse_target max_str_digits
                                     (input_field g))]>
                           (agents g)) g))))).
Proof.
  intros Hty Hcur Hat. unfold process_input. rewrite Hty. cbn.
  rewrite (assign_current_found _ g i a) by assumption. cbn.
  pose proof (lookup_lt_Some _ _ _ Hat) as Hlt.
  rewrite (current_agent_found _ i
             (set_target_agent_id
                (parse_target max_str_digits (input_field g)) a)).
  - cbn. eexists. do 5 f_equal.
    gui_norm. f_equal. apply list_insert_insert_eq.
  - gui_norm. assumption.
  - gui_norm. now apply list_lookup_insert_eq.
Qed.

Lemma handle_event_confirm (g : GUI) (unicode : string) :
  input_mode g = true ->
  handle_event max_str_digits (KEYDOWN K_RETURN unicode) g
  = process_input max_str_digits g.
Proof. intros Hm. cbn. now rewrite Hm. Qed.

End WizardSteps.

(** ** Cancelling the wizard *)

Section Cancel.

Context `{Collaborators}.
Variable max_str_digits : nat.

(** C5. In every state in which the wizard is active, whatever was typed
    or confirmed before, the cancel key (ESC) ends the wizard: the step
    is idle again, the text buffer is empty, and the agents are exactly
    the agents of before. *)
Theorem cancel_returns_to_idle (g : GUI) (unicode : string) :
  input_mode g = true ->
  exists g',
    handle_event max_str_digits (KEYDOWN K_ESCAPE unicode) g = Ok g'
    /\ input_mode g' = false
    /\ input_type g' = ""
    /\ input_field g' = ""
    /\ agents g' = agents g.
Proof.
  intros Hm. eexists. split.
  - cbn. rewrite Hm. reflexivity.
  - now gui_norm.
Qed.

End Cancel.

Lemma cancel_returns_to_idle_witness :
  input_mode demo_mid_session = true
  /\ exists g',
       handle_event 4300 (KEYDOWN K_ESCAPE "") demo_mid_session = Ok g'
       /\ input_mode g' = false
       /\ input_type g' = ""
       /\ input_field g' = ""
       /\ agents g' = agents demo_mid_session.
Proof.
  split; [reflexivity|].
  apply (cancel_returns_to_idle (H := countdown) 4300 demo_mid_session "").
  reflexivity.
Defined.

(** ** Wizard entry without a human agent *)

Section EntryWithoutHumans.

Context `{Collaborators}.
Variable max_str_digits : nat.

(** C6. When no agent is human-capable, asking for wizard entry (key [h]
    outside the wizard, or a click on the Human Action button) returns
    normally, leaves the whole wizard state and every agent as they were,
    and reports the condition on the output. *)
Theorem entry_without_human_agents (g : GUI) (event : Event) :
  human_agents_of (agents g) = [] ->
  triggers_entry g event ->
  exists g',
    handle_event max_str_digits event g = Ok g'
    /\ wizard_state g' = wizard_state g
    /\ agents g' = agents g
    /\ trace g' = (trace g ++ [Print "No human agents available"])%list.
Proof.
  intros Hnone Htrig. eexists. split.
  - destruct Htrig as [unicode Hm | pos Hat]; cbn.
    + rewrite Hm. cbn. unfold start_human_action_selection.
      rewrite Hnone. reflexivity.
    + unfold handle_mouse_click. rewrite Hat. cbn.
      unfold start_human_action_selection. rewrite Hnone. reflexivity.
  - now gui_norm.
Qed.

End EntryWithoutHumans.

Lemma entry_without_human_agents_witness :
  human_agents_of (agents demo_no_human) = []
  /\ wizard_state demo_no_human = (false, "", "", "", None)
  /\ triggers_entry demo_no_human (MOUSEBUTTONDOWN 1 (705, 760))
  /\ (exists g',
        handle_event 4300 (MOUSEBUTTONDOWN 1 (705, 760)) demo_no_human
        = Ok g'
        /\ wizard_state g' = wizard_state demo_no_human
        /\ agents g' = agents demo_no_human
        /\ trace g' =
             (trace demo_no_human
              ++ [Print "No human agents available"])%list)
  /\ (exists g',
        handle_event 4300 (KEYDOWN K_h "h") demo_no_human = Ok g'
        /\ wizard_state g' = wizard_state demo_no_human
        /\ agents g' = agents demo_no_human
        /\ trace g' =
             (trace demo_no_human
              ++ [Print "No human agents available"])%list).
Proof.
  assert (Hclick :
            triggers_entry demo_no_human (MOUSEBUTTONDOWN 1 (705, 760)))
    by (apply entry_by_button; reflexivity).
  assert (Hkey : triggers_entry demo_no_human (KEYDOWN K_h "h"))
    by (apply entry_by_key; reflexivity).
  split; [reflexivity|]. split; [reflexivity|]. split; [exact Hclick|].
  split.
  - exact (entry_without_human_agents (H := countdown) 4300 demo_no_human
             (MOUSEBUTTONDOWN 1 (705, 760)) eq_refl Hclick).
  - exact (entry_without_human_agents (H := countdown) 4300 demo_no_human
             (KEYDOWN K_h "h") eq_refl Hkey).
Defined.

(** ** Defaults for blank input *)

Section Defaults.

Context `{Collaborators}.
Variable max_str_digits : nat.

Lemma int_of_blank (s : string) :
  PyStr.strip s = "" -> parse_target max_str_digits s = -1.
Proof. intros Hs. unfold parse_target. now rewrite Hs. Qed.

Lemma parse_target_unparsable (s : string) (e : exception) :
  PyStr.int max_str_digits (PyStr.strip s) = Raise e ->
  parse_target max_str_digits s = -1.
Proof. intros Hs. unfold parse_target. now rewrite Hs. Qed.

(** C4. In the wizard, on the designated agent, confirming a buffer that
    is empty once stripped writes ["noop"] to [op] at the operation
    step, ["not_applicable"] to [rss_to_collect] at the collect step and
    to [rss_to_share] at the share step, and [-1] to [target_agent_id]
    at the target step; at the target step every buffer that [int]
    rejects gives [-1] as well. *)
Theorem blank_confirm_writes_default
  (g : GUI) (i : nat) (a : Agent) (unicode : string) :
  input_mode g = true ->
  current_human_agent g = Some i ->
  agents g !! i = Some a ->
  exists g',
    handle_event max_str_digits (KEYDOWN K_RETURN unicode) g = Ok g'
    /\ (input_type g = "op" -> PyStr.strip (input_field g) = "" ->
        op <$> agents g' !! i = Some "noop")
    /\ (input_type g = "collect" -> PyStr.strip (input_field g) = "" ->
        rss_to_collect <$> agents g' !! i = Some "not_applicable")
    /\ (input_type g = "share" -> PyStr.strip (input_field g) = "" ->
        rss_to_share <$> agents g' !! i = Some "not_applicable")
    /\ (input_type g = "target" ->
        PyStr.strip (input_field g) = ""
        \/ (exists e,
              PyStr.int max_str_digits (PyStr.strip (input_field g))
              = Raise e) ->
        target_agent_id <$> agents g' !! i = Some (-1)).
Proof.
  intros Hm Hcur Hat.
  pose proof (lookup_lt_Some _ _ _ Hat) as Hlt.
  rewrite handle_event_confirm by assumption.
  destruct (String.eqb_spec (input_type g) "op") as [Hop|Hop];
    [|destruct (String.eqb_spec (input_type g) "collect") as [Hco|Hco];
      [|destruct (String.eqb_spec (input_type g) "share") as [Hsh|Hsh];
        [|destruct (String.eqb_spec (input_type g) "target")
            as [Hta|Hta]]]].
  - rewrite (process_input_op _ g i a) by assumption.
    eexists. split; [reflexivity|].
    repeat split; intros Hty; try (rewrite Hop in Hty; discriminate).
    intros ->. gui_norm. now rewrite list_lookup_insert_eq.
  - rewrite (process_input_collect _ g i a) by assumption.
    eexists. split; [reflexivity|].
    repeat split; intros Hty; try (rewrite Hco in Hty; discriminate).
    intros ->. gui_norm. now rewrite list_lookup_insert_eq.
  - rewrite (process_input_share _ g i a) by assumption.
    eexists. split; [reflexivity|].
    repeat split; intros Hty; try (rewrite Hsh in Hty; discriminate).
    intros ->. gui_norm. now rewrite list_lookup_insert_eq.
  - destruct (process_input_target max_str_digits g i a)
      as [line ->]; try assumption.
    eexists. split; [reflexivity|].
    repeat split; intros Hty; try (rewrite Hta in Hty; discriminate).
    intros Hbad.
    assert (Hp : parse_target max_str_digits (input_field g) = -1).
    { destruct Hbad as [Hblank | [e He]].
      - now apply int_of_blank.
      - now apply parse_target_unparsable with e. }
    rewrite Hp. gui_norm. now rewrite list_lookup_insert_eq.
  - exists g. split.
    + unfold process_input.
      apply String.eqb_neq in Hop, Hco, Hsh, Hta.
      now rewrite Hop, Hco, Hsh, Hta.
    + repeat split; intros Hty; contradiction.
Qed.

End Defaults.

Lemma blank_confirm_writes_default_witness :
  (exists g',
     handle_event 4300 confirm demo_at_op = Ok g'
     /\ op <$> agents g' !! 1%nat = Some "noop")
  /\ (exists g',
        handle_event 4300 confirm demo_at_collect = Ok g'
        /\ rss_to_collect <$> agents g' !! 1%nat = Some "not_applicable")
  /\ (exists g',
        handle_event 4300 confirm demo_at_share = Ok g'
        /\ rss_to_share <$> agents g' !! 1%nat = Some "not_applicable")
  /\ (exists g',
        handle_event 4300 confirm demo_at_target = Ok g'
        /\ target_agent_id <$> agents g' !! 1%nat = Some (-1))
  /\ (exists g',
        handle_event 4300 confirm demo_at_target_junk = Ok g'
        /\ target_agent_id <$> agents g' !! 1%nat = Some (-1)).
Proof.
  repeat split.
  - destruct (blank_confirm_writes_default (H := countdown) 4300
                demo_at_op 1 (fresh_agent true) (String "013" "")
                eq_refl eq_refl eq_refl) as (g' & Hev & Hop & _).
    exists g'. split; [exact Hev | apply Hop; reflexivity].
  - destruct (blank_confirm_writes_default (H := countdown) 4300
                demo_at_collect 1 (set_op "noop" (fresh_agent true))
                (String "013" "") eq_refl eq_refl eq_refl)
      as (g' & Hev & _ & Hco & _).
    exists g'. split; [exact Hev | apply Hco; reflexivity].
  - destruct (blank_confirm_writes_default (H := countdown) 4300
                demo_at_share 1
                (set_rss_to_collect "not_applicable"
                   (set_op "noop" (fresh_agent true)))
                (String "013" "") eq_refl eq_refl eq_refl)
      as (g' & Hev & _ & _ & Hsh & _).
    exists g'. split; [exact Hev | apply Hsh; reflexivity].
  - destruct (blank_confirm_writes_default (H := countdown) 4300
                demo_at_target 1
                (set_rss_to_share "not_applicable"
                   (set_rss_to_collect "not_applicable"
                      (set_op "noop" (fresh_agent true))))
                (String "013" "") eq_refl eq_refl eq_refl)
      as (g' & Hev & _ & _ & _ & Hta).
    exists g'. split; [exact Hev | apply Hta; [reflexivity | now left]].
  - destruct (blank_confirm_writes_default (H := countdown) 4300
                demo_at_target_junk 1
                (set_rss_to_share "not_applicable"
                   (set_rss_to_collect "not_applicable"
                      (set_op "noop" (fresh_agent true))))
                (String "013" "") eq_refl eq_refl eq_refl)
      as (g' & Hev & _ & _ & _ & Hta).
    exists g'. split; [exact Hev | apply Hta; [reflexivity|]].
    right. exists ValueError. reflexivity.
Defined.

(** ** The tick driver *)

Section TickDriver.

Context `{Collaborators}.
Variable max_str_digits : nat.

Lemma run_simulation_step_gated (g : GUI) :
  paused g = true \/ input_mode g = true -> run_simulation_step g = g.
Proof.
  intros Hgate. unfold run_simulation_step.
  destruct Hgate as [-> | ->]; [reflexivity|].
  now rewrite orb_true_r.
Qed.

(** What a tick does to the counter, the trace and [running]. *)
Lemma run_simulation_step_ticks (g : GUI) :
  paused g = false ->
  input_mode g = false ->
  let ends := snd (tick_world g) || (max_steps g <=? current_step g + 1) in
  current_step (run_simulation_step g) = current_step g + 1
  /\ trace (run_simulation_step g)
     = (trace g ++ tick_calls (n_players g) (current_step g)
        ++ (if ends then [Print "Simulation completed!"] else []))%list
  /\ running (run_simulation_step g) = running g && negb ends
  /\ paused (run_simulation_step g) = false
  /\ wizard_state (run_simulation_step g) = wizard_state g.
Proof.
  intros Hp Hm. unfold run_simulation_step. rewrite Hp, Hm. cbn [orb].
  destruct (tick_world g) as [[agents' env'] done]. cbn [snd].
  gui_norm. cbn in Hp, Hm. subst.
  destruct (done || (max_steps0 <=? current_step0 + 1)); cbn.
  - rewrite <- app_assoc, andb_false_r. repeat split.
  - rewrite andb_true_r. repeat split.
Qed.

Lemma handle_event_toggles_pause (g : GUI) (event : Event) :
  toggles_pause g event ->
  handle_event max_str_digits event g
  = Ok (set_paused (negb (paused g)) g).
Proof.
  intros [unicode Hm | pos Hat]; cbn.
  - now rewrite Hm.
  - unfold handle_mouse_click. now rewrite Hat.
Qed.


End TickDriver.

Section TickDriverExact.

Context `{Collaborators}.
Variable max_str_digits : nat.

(** C3. While [paused] is set or the wizard is active,
    [run_simulation_step] does nothing at all: no call into the
    simulation modules, nothing logged, the step counter, the agents and
    the world as before. And from a paused state with the wizard idle,
    once [paused] has been toggled (key [p] or the Pause button) the step
    that follows performs one tick, and one only: the ten calls of the
    step sequence are made once, in the order of the source, each on the
    agents and the world the call before left and with the actions,
    observations, information, thoughts, contexts and responses the
    calls before returned; the agents and the world after the step are
    those the last call returns; the step counter grows by exactly one;
    and the loop is told to stop exactly when the environment reported
    done or the step limit is reached. *)
Theorem tick_only_when_running_and_idle (g : GUI) :
  (paused g = true \/ input_mode g = true ->
   run_simulation_step g = g)
  /\ (forall event : Event,
        paused g = true ->
        input_mode g = false ->
        toggles_pause g event ->
        exists g1,
          handle_event max_str_digits event g = Ok g1
          /\ paused g1 = false
          /\ let n := n_players g in
             let step := current_step g in
             let '(_, s1) :=
               process_all_agent_actions n (agents g, env g) in
             let '(agents_actions, s2) := collect_agent_actions n s1 in
             let '((obs, _, done, info), s3) :=
               step_environment agents_actions s2 in
             let '(_, s4) := update_crafting_stations s3 in
             let '(_, s5) := update_all_agent_states obs step info 0 s4 in
             let '(agents_with_new_thought, s6) :=
               identify_agents_needing_thought info s5 in
             let '(agents_contexts, s7) := create_agent_contexts info s6 in
             let '(agents_responses, s8) :=
               process_agent_thinking_parallel agents_contexts info s7 in
             let '(_, s9) :=
               update_agents_from_responses agents_responses s8 in
             let '(_, s10) :=
               show_step_report agents_with_new_thought s9 in
             let ends := done || (max_steps g <=? step + 1) in
             let g2 := run_simulation_step g1 in
             (agents g2, env g2) = s10
             /\ current_step g2 = step + 1
             /\ trace g2
                = (trace g
                   ++ [ CallProcessAllAgentActions n;
                        CallCollectAgentActions n;
                        CallStepEnvironment;
                        CallUpdateCraftingStations;
                        CallUpdateAllAgentStates step 0;
                        CallIdentifyAgentsNeedingThought;
                        CallCreateAgentContexts;
                        CallProcessAgentThinkingParallel;
                        CallUpdateAgentsFromResponses;
                        CallShowStepReport ]
                   ++ (if ends then [Print "Simulation completed!"]
                       else []))%list
             /\ running g2 = running g && negb ends
             /\ paused g2 = false
             /\ wizard_state g2 = wizard_state g).
Proof.
  split; [apply run_simulation_step_gated|].
  intros event Hp Hm Htog.
  rewrite (handle_event_toggles_pause max_str_digits g event Htog).
  exists (set_paused (negb (paused g)) g).
  split; [reflexivity|].
  split; [gui_norm; cbn in Hp; now subst|].
  unfold run_simulation_step, tick_world.
  replace (paused (set_paused (negb (paused g)) g)) with false
    by (gui_norm; cbn in Hp; now subst).
  replace (input_mode (set_paused (negb (paused g)) g)) with false
    by (gui_norm; cbn in Hm; now subst).
  replace (agents (set_paused (negb (paused g)) g)) with (agents g)
    by now gui_norm.
  replace (env (set_paused (negb (paused g)) g)) with (env g)
    by now gui_norm.
  replace (n_players (set_paused (negb (paused g)) g)) with (n_players g)
    by now gui_norm.
  replace (current_step (set_paused (negb (paused g)) g))
    with (current_step g) by now gui_norm.
  cbn [orb].
  destruct (process_all_agent_actions _ _) as [? s1].
  destruct (collect_agent_actions _ _) as [agents_actions s2].
  destruct (step_environment _ _) as [[[[obs ?] done] info] s3].
  destruct (update_crafting_stations _) as [? s4].
  destruct (update_all_agent_states _ _ _ _ _) as [? s5].
  destruct (identify_agents_needing_thought _ _) as [thoughts s6].
  destruct (create_agent_contexts _ _) as [contexts s7].
  destruct (process_agent_thinking_parallel _ _ _) as [responses s8].
  destruct (update_agents_from_responses _ _) as [? s9].
  destruct (show_step_report _ _) as [? [agents' env']].
  gui_norm. cbn in Hp, Hm. subst.
  destruct (done || _); cbn.
  - rewrite <- app_assoc, andb_false_r. repeat split.
  - rewrite andb_true_r. repeat split.
Qed.

End TickDriverExact.

Lemma tick_only_when_running_and_idle_witness :
  run_simulation_step demo_paused = demo_paused
  /\ run_simulation_step demo_mid_session = demo_mid_session
  /\ exists g1,
       handle_event 4300 (MOUSEBUTTONDOWN 1 (620, 760)) demo_paused = Ok g1
       /\ paused g1 = false
       /\ agents (run_simulation_step g1) = agents demo_paused
       /\ env demo_paused = 5
       /\ env (run_simulation_step g1) = 4
       /\ current_step demo_paused = 0
       /\ current_step (run_simulation_step g1) = 1
       /\ trace (run_simulation_step g1)
          = (trace demo_paused
             ++ [ CallProcessAllAgentActions 2;
                  CallCollectAgentActions 2;
                  CallStepEnvironment;
                  CallUpdateCraftingStations;
                  CallUpdateAllAgentStates 0 0;
                  CallIdentifyAgentsNeedingThought;
                  CallCreateAgentContexts;
                  CallProcessAgentThinkingParallel;
                  CallUpdateAgentsFromResponses;
                  CallShowStepReport ])%list
       /\ running (run_simulation_step g1) = true.
Proof.
  split; [|split].
  - apply (proj1 (tick_only_when_running_and_idle (H := countdown) 4300
                    demo_paused)).
    left. reflexivity.
  - apply (proj1 (tick_only_when_running_and_idle (H := countdown) 4300
                    demo_mid_session)).
    right. reflexivity.
  - destruct (proj2 (tick_only_when_running_and_idle (H := countdown) 4300
                       demo_paused)
                (MOUSEBUTTONDOWN 1 (620, 760)) eq_refl eq_refl
                (pause_by_button demo_paused (620, 760) eq_refl))
      as (g1 & Hev & Hp1 & Htick).
    exists g1. split; [exact Hev|]. split; [exact Hp1|].
    cbv beta iota zeta delta
      [countdown process_all_agent_actions collect_agent_actions
       step_environment update_crafting_stations update_all_agent_states
       identify_agents_needing_thought create_agent_contexts
       process_agent_thinking_parallel update_agents_from_responses
       show_step_report] in Htick.
    destruct Htick as (Hstate & Hstep & Htrace & Hrun & _).
    injection Hstate as Hagents Henv.
    split; [exact Hagents|]. split; [reflexivity|].
    split; [exact Henv|]. split; [reflexivity|].
    split; [exact Hstep|]. split; [exact Htrace | exact Hrun].
Defined.

(** ** What ends the main loop *)

Section Termination.

Context `{Collaborators}.
Variable max_str_digits : nat.

(** What a confirm leaves alone. *)
Lemma process_input_frame (g g' : GUI) :
  process_input max_str_digits g = Ok g' ->
  running g' = running g
  /\ paused g' = paused g
  /\ current_human_agent g' = current_human_agent g
  /\ current_step g' = current_step g
  /\ buttons g' = buttons g
  /\ env g' = env g
  /\ length (agents g') = length (agents g).
Proof.
  intros Hp.
  unfold process_input, assign_current, current_agent, bind in Hp.
  gui_norm.
  repeat match type of Hp with
         | context [String.eqb ?a ?b] => destruct (String.eqb a b)
         | context [match ?o with Some _ => _ | None => _ end] =>
             destruct o
         end;
    try discriminate; inversion Hp; subst;
    rewrite ?length_insert; repeat split.
Qed.

Lemma start_human_action_selection_frame (g : GUI) :
  let g' := start_human_action_selection g in
  running g' = running g
  /\ paused g' = paused g
  /\ current_step g' = current_step g
  /\ buttons g' = buttons g
  /\ env g' = env g
  /\ agents g' = agents g.
Proof.
  unfold start_human_action_selection.
  destruct (human_agents_of (agents g)) as [|first rest];
    [now gui_norm|].
  destruct (current_human_agent g); now gui_norm.
Qed.

Lemma handle_button_action_running (button_id : string) (g : GUI) :
  running (handle_button_action button_id g) = running g.
Proof.
  unfold handle_button_action, handle_action.
  repeat match goal with
         | |- context [String.eqb ?a ?b] => destruct (String.eqb a b)
         end;
    try apply start_human_action_selection_frame; now gui_norm.
Qed.

Lemma handle_event_running (g g' : GUI) (event : Event) :
  handle_event max_str_digits event g = Ok g' ->
  running g' = running g && negb (closes g event).
Proof.
  destruct event as [|key unicode|button pos|]; cbn.
  - intros [= <-]. gui_norm. now rewrite andb_false_r.
  - destruct (input_mode g); cbn.
    + rewrite andb_true_r. unfold handle_input_event.
      destruct (key =? K_ESCAPE); [intros [= <-]; now gui_norm|].
      destruct (key =? K_RETURN); [apply process_input_frame|].
      destruct (key =? K_BACKSPACE); [intros [= <-]; now gui_norm|].
      destruct (PyStr.isprintable unicode); intros [= <-]; now gui_norm.
    + intros [= <-]. unfold handle_normal_event, handle_action.
      destruct (key =? K_ESCAPE); cbn;
        [gui_norm; now rewrite andb_false_r|].
      rewrite andb_true_r.
      destruct (key =? K_p); [now gui_norm|].
      destruct (key =? K_h);
        [apply start_human_action_selection_frame|].
      destruct (key =? K_i); [now gui_norm|].
      destruct (key =? K_QUESTION); [now gui_norm|].
      match goal with
      | |- context [match ?o with Some _ => _ | None => _ end] =>
          destruct o
      end; now gui_norm.
  - rewrite andb_true_r.
    destruct (button =? 1); intros [= <-]; [|reflexivity].
    unfold handle_mouse_click.
    destruct (button_at (buttons g) pos); [|reflexivity].
    apply handle_button_action_running.
  - intros [= <-]. now rewrite andb_true_r.
Qed.

Lemma run_simulation_step_running (g : GUI) :
  running (run_simulation_step g) = running g && negb (tick_ends g).
Proof.
  unfold tick_ends, ticks.
  destruct (paused g) eqn:Hp; [|destruct (input_mode g) eqn:Hm].
  - rewrite run_simulation_step_gated by now left.
    cbn. now rewrite andb_true_r.
  - rewrite run_simulation_step_gated by now right.
    cbn. now rewrite andb_true_r.
  - destruct (run_simulation_step_ticks g Hp Hm) as (_ & _ & -> & _).
    reflexivity.
Qed.

Lemma render_running (g g' : GUI) :
  render g = Ok g' -> running g' = running g.
Proof.
  unfold render. destruct (max_steps g =? 0); [discriminate|].
  intros [= <-]. now gui_norm.
Qed.

(** C2, as amended. [running] is never set back to [True], and it is
    cleared by exactly three things: a window-close event; the ESC key
    pressed while the wizard is idle; and a tick (the GUI neither paused
    nor in the wizard) after which the environment reported [done] or
    the step counter has reached [max_steps]. Every other event, every
    other call of [run_simulation_step] and every [render] leaves it as
    it was. *)
Theorem running_cleared_by_close_escape_or_tick (g : GUI) :
  (forall (event : Event) (g' : GUI),
     handle_event max_str_digits event g = Ok g' ->
     running g' = running g && negb (closes g event))
  /\ running (run_simulation_step g) = running g && negb (tick_ends g)
  /\ (forall g' : GUI, render g = Ok g' -> running g' = running g).
Proof.
  split; [|split].
  - intros event g'. apply handle_event_running.
  - apply run_simulation_step_running.
  - intros g'. apply render_running.
Qed.

End Termination.

(** C2, refuted as stated. The ESC key, pressed while the wizard is idle,
    is not a window-close event and involves no tick, and it clears
    [running]. *)
Lemma escape_key_ends_loop :
  running demo = true
  /\ input_mode demo = false
  /\ KEYDOWN K_ESCAPE "" <> QUIT
  /\ handle_event 4300 (KEYDOWN K_ESCAPE "") demo
     = Ok (set_running false demo)
  /\ running (set_running false demo) = false
  /\ current_step (set_running false demo) = current_step demo
  /\ trace (set_running false demo) = trace demo.
Proof. repeat split; try reflexivity. discriminate. Qed.

Lemma running_cleared_by_close_escape_or_tick_witness :
  (exists g',
     handle_event 4300 QUIT demo = Ok g' /\ running g' = false)
  /\ (exists g',
        handle_event 4300 (KEYDOWN K_ESCAPE "") demo_mid_session = Ok g'
        /\ running g' = true)
  /\ running (run_simulation_step demo) = true
  /\ (exists g', render demo = Ok g' /\ running g' = true).
Proof.
  pose proof (running_cleared_by_close_escape_or_tick (H := countdown) 4300
                demo) as (Hev & Htick & Hrender).
  pose proof (running_cleared_by_close_escape_or_tick (H := countdown) 4300
                demo_mid_session) as (Hev' & _).
  split; [|split; [|split]].
  - eexists. split; [reflexivity|]. now rewrite (Hev QUIT _ eq_refl).
  - eexists. split; [reflexivity|].
    now rewrite (Hev' (KEYDOWN K_ESCAPE "") _ eq_refl).
  - now rewrite Htick.
  - eexists. split; [reflexivity|]. now rewrite (Hrender _ eq_refl).
Defined.

(** ** The list of human agents *)

Section HumanAgents.

Lemma human_agents_from_cons (n : nat) (a : Agent) (l : list Agent) :
  human_agents_from n (a :: l)
  = if is_human a then n :: human_agents_from (S n) l
    else human_agents_from (S n) l.
Proof. unfold human_agents_from. cbn. now destruct (is_human a). Qed.

Lemma human_agents_of_from (l : list Agent) :
  human_agents_of l = human_agents_from 0 l.
Proof. reflexivity. Qed.

(** The first entry of the list is the lowest index of a human agent. *)
Lemma human_agents_from_head (l : list Agent) :
  forall (n first : nat) (rest : list nat),
    human_agents_from n l = first :: rest ->
    (n <= first)%nat
    /\ is_human <$> l !! (first - n)%nat = Some true
    /\ forall j : nat,
         (n <= j < first)%nat ->
         is_human <$> l !! (j - n)%nat <> Some true.
Proof.
  induction l as [|a l IH]; intros n first rest Hl; [discriminate|].
  rewrite human_agents_from_cons in Hl.
  destruct (is_human a) eqn:Ha.
  - injection Hl as <- _. split; [lia|]. split.
    + rewrite Nat.sub_diag. cbn. now rewrite Ha.
    + intros j Hj. lia.
  - destruct (IH _ _ _ Hl) as (Hle & Hat & Hlow).
    split; [lia|]. split.
    + replace (first - n)%nat with (S (first - S n)) by lia. exact Hat.
    + intros j Hj. destruct (decide (j = n)) as [->|Hne].
      * rewrite Nat.sub_diag. cbn. rewrite Ha. discriminate.
      * replace (j - n)%nat with (S (j - S n)) by lia.
        apply Hlow. lia.
Qed.

Lemma human_agents_from_nonempty (l : list Agent) :
  forall (n i : nat) (a : Agent),
    l !! i = Some a -> is_human a = true -> human_agents_from n l <> [].
Proof.
  induction l as [|b l IH]; intros n i a Hat Ha; [discriminate|].
  rewrite human_agents_from_cons.
  destruct (is_human b) eqn:Hb; [discriminate|].
  destruct i as [|i]; cbn in Hat.
  - injection Hat as ->. congruence.
  - now apply IH with i a.
Qed.

(** Replacing an agent by one with the same flag changes nothing. *)
Lemma human_agents_from_insert (l : list Agent) :
  forall (n i : nat) (a a' : Agent),
    l !! i = Some a ->
    is_human a' = is_human a ->
    human_agents_from n (<[i := a']> l) = human_agents_from n l.
Proof.
  induction l as [|b l IH]; intros n i a a' Hat Ha; [discriminate|].
  destruct i as [|i]; cbn in Hat.
  - injection Hat as ->.
    change (<[0%nat := a']> (a :: l)) with (a' :: l).
    rewrite !human_agents_from_cons. now rewrite Ha.
  - change (<[S i := a']> (b :: l)) with (b :: <[i := a']> l).
    rewrite !human_agents_from_cons. now rewrite (IH (S n) i a a').
Qed.

Lemma human_agents_of_insert
  (l : list Agent) (i : nat) (a a' : Agent) :
  l !! i = Some a ->
  is_human a' = is_human a ->
  human_agents_of (<[i := a']> l) = human_agents_of l.
Proof. apply human_agents_from_insert. Qed.

Lemma human_agents_of_nonempty (l : list Agent) (i : nat) (a : Agent) :
  l !! i = Some a -> is_human a = true -> human_agents_of l <> [].
Proof. apply human_agents_from_nonempty. Qed.

Lemma human_agents_of_head
  (l : list Agent) (first : nat) (rest : list nat) :
  human_agents_of l = first :: rest ->
  is_human <$> l !! first = Some true
  /\ forall j : nat, (j < first)%nat -> is_human <$> l !! j <> Some true.
Proof.
  intros Hl. destruct (human_agents_from_head l 0 first rest Hl)
    as (_ & Hat & Hlow).
  rewrite Nat.sub_0_r in Hat. split; [exact Hat|].
  intros j Hj. specialize (Hlow j). rewrite Nat.sub_0_r in Hlow.
  apply Hlow. lia.
Qed.

End HumanAgents.

(** ** What each operation can change *)

Section Frames.

Context `{Collaborators}.
Variable max_str_digits : nat.

(** The five ways in which an event acts on the GUI. *)
Lemma handle_event_cases (event : Event) (g g' : GUI) :
  handle_event max_str_digits event g = Ok g' ->
  (wizard_state g' = wizard_state g
   /\ agents g' = agents g /\ buttons g' = buttons g)
  \/ g' = start_human_action_selection g
  \/ (input_mode g = true /\ process_input max_str_digits g = Ok g')
  \/ (input_mode g = true /\ exists field, g' = set_input_field field g)
  \/ (input_mode g = true
      /\ g' = set_input_type ""
                (set_input_field "" (set_input_mode false g))).
Proof.
  destruct event as [|key unicode|button pos|]; cbn.
  - intros [= <-]. left. now gui_norm.
  - destruct (input_mode g) eqn:Hm.
    + unfold handle_input_event.
      destruct (key =? K_ESCAPE); [intros [= <-]; now do 4 right|].
      destruct (key =? K_RETURN); [intros Hp; now right; right; left|].
      destruct (key =? K_BACKSPACE);
        [intros [= <-]; right; right; right; left; eauto|].
      destruct (PyStr.isprintable unicode); intros [= <-].
      * right; right; right; left; eauto.
      * now left.
    + intros [= <-]. unfold handle_normal_event, handle_action.
      destruct (key =? K_ESCAPE); [left; now gui_norm|].
      destruct (key =? K_p); [left; now gui_norm|].
      destruct (key =? K_h); [now right; left|].
      destruct (key =? K_i); [left; now gui_norm|].
      destruct (key =? K_QUESTION); [left; now gui_norm|].
      match goal with
      | |- context [match ?o with Some _ => _ | None => _ end] =>
          destruct o
      end; left; now gui_norm.
  - destruct (button =? 1); intros [= <-]; [|now left].
    unfold handle_mouse_click.
    destruct (button_at (buttons g) pos) as [button_id|]; [|now left].
    unfold handle_button_action, handle_action.
    destruct (String.eqb button_id "pause"); [left; now gui_norm|].
    destruct (String.eqb button_id "human_action"); [now right; left|].
    destruct (String.eqb button_id "help"); [left; now gui_norm|].
    destruct (String.eqb button_id "inventory"); left; now gui_norm.
  - intros [= <-]. now left.
Qed.

Lemma wizard_invariant_of_state (g g' : GUI) :
  wizard_state g' = wizard_state g ->
  wizard_invariant g -> wizard_invariant g'.
Proof.
  unfold wizard_invariant. gui_norm. intros [= -> -> _ _ ->]. auto.
Qed.

Lemma start_human_action_selection_invariant (g : GUI) :
  wizard_invariant g -> wizard_invariant (start_human_action_selection g).
Proof.
  unfold start_human_action_selection, wizard_invariant.
  destruct (human_agents_of (agents g)) as [|first rest];
    [now gui_norm|].
  destruct (current_human_agent g) eqn:Hcur; gui_norm; intros _;
    (split; [split; [discriminate | reflexivity] | eauto]).
Qed.

Lemma process_input_invariant (g g' : GUI) :
  process_input max_str_digits g = Ok g' ->
  wizard_invariant g -> wizard_invariant g'.
Proof.
  intros Hp.
  unfold process_input, assign_current, current_agent, bind in Hp.
  unfold wizard_invariant. gui_norm.
  repeat match type of Hp with
         | context [String.eqb ?a ?b] => destruct (String.eqb_spec a b)
         | context [match ?o with Some _ => _ | None => _ end] =>
             destruct o
         end;
    try discriminate; inversion Hp; subst; clear Hp;
    intros [[Hto Hfrom] Hcur];
    try (assert (Hm : input_mode0 = true)
           by (apply Hfrom; discriminate));
    intuition (try discriminate; try congruence; eauto).
Qed.


(** A confirm writes to the designated agent only, and never to its
    [is_human] flag. *)
Lemma process_input_agents (g g' : GUI) (i : nat) :
  process_input max_str_digits g = Ok g' ->
  current_human_agent g = Some i ->
  (forall j : nat, j <> i -> agents g' !! j = agents g !! j)
  /\ human_agents_of (agents g') = human_agents_of (agents g).
Proof.
  intros Hp Hcur.
  unfold process_input, assign_current, current_agent, bind in Hp.
  gui_norm.
  repeat match type of Hp with
         | context [String.eqb ?a ?b] => destruct (String.eqb a b)
         | context [match ?o with Some _ => _ | None => _ end] =>
             let Heq := fresh "Hat" in destruct o eqn:Heq
         end;
    try discriminate; inversion Hp; subst; clear Hp;
    (split;
     [intros j Hj; now rewrite ?list_lookup_insert_ne by congruence|]);
    try reflexivity;
    try (now apply human_agents_of_insert with a).
  match goal with
  | Hc : Some _ = Some i |- _ => injection Hc as ->
  end.
  match goal with
  | H1 : ?l !! i = Some ?a, H2 : <[i := ?b]> ?l !! i = Some ?c |- _ =>
      rewrite list_lookup_insert_eq in H2
        by exact (lookup_lt_Some _ _ _ H1);
      injection H2 as <-;
      rewrite list_insert_insert_eq;
      now apply human_agents_of_insert with a
  end.
Qed.

End Frames.

(** ** The runs of the program are reachable *)

Section Runs.

Context `{Collaborators}.
Variable max_str_digits : nat.

Lemma reachable_handle_events (events : list Event) :
  forall g g' : GUI,
    reachable max_str_digits g ->
    handle_events max_str_digits events g = Ok g' ->
    reachable max_str_digits g'.
Proof.
  induction events as [|event events IH]; intros g g' Hr;
    cbn [handle_events].
  - now intros [= <-].
  - destruct (handle_event max_str_digits event g) as [g1|e] eqn:Hev;
      [|discriminate].
    cbn [bind]. apply IH.
    now apply (reach_perform max_str_digits (OpEvent event) g).
Qed.

Lemma reachable_frame (events : list Event) (g g' : GUI) :
  reachable max_str_digits g ->
  frame max_str_digits events g = Ok g' ->
  reachable max_str_digits g'.
Proof.
  intros Hr. unfold frame.
  destruct (handle_events max_str_digits events g) as [g1|e] eqn:Hev;
    [|discriminate].
  cbn [bind]. intros Hrender.
  apply (reach_perform max_str_digits OpRender (run_simulation_step g1));
    [|exact Hrender].
  apply (reach_perform max_str_digits OpTick g1); [|reflexivity].
  now apply (reachable_handle_events events g).
Qed.

Lemma reachable_run_loop (frames : list (list Event)) :
  forall g g' : GUI,
    reachable max_str_digits g ->
    run_loop max_str_digits frames g = Ok g' ->
    reachable max_str_digits g'.
Proof.
  induction frames as [|events frames IH]; intros g g' Hr;
    cbn [run_loop]; destruct (running g); try now intros [= <-].
  destruct (frame max_str_digits events g) as [g1|e] eqn:Hf;
    [|discriminate].
  cbn [bind]. apply IH. now apply (reachable_frame events g).
Qed.

(** Whatever arguments and events [main] is given, the state it ends in
    is one of the reachable ones. *)
Lemma reachable_main (args : Args) (frames : list (list Event)) (g : GUI) :
  main max_str_digits args frames = Ok g -> reachable max_str_digits g.
Proof.
  unfold main, run.
  destruct (parse_human_agent_ids max_str_digits (arg_human_agents args))
    as [ids|e]; [|discriminate].
  cbn [bind].
  match goal with
  | |- context [run_loop _ _ (log (?p1 :: ?p2 :: ?p3 :: nil) ?g0)] =>
      assert (Hr : reachable max_str_digits (log [p1; p2; p3] g0))
  end.
  { match goal with
    | |- reachable _ (log [Print ?l1; Print ?l2; Print ?l3] _) =>
        apply (reach_print max_str_digits [l1; l2; l3])
    end.
    apply reach_init. }
  match goal with
  | |- context [run_loop _ _ ?g0] =>
      destruct (run_loop max_str_digits frames g0) as [g1|e] eqn:Hloop;
      [|discriminate]
  end.
  cbn [bind]. intros [= <-].
  pose proof (reachable_run_loop frames _ _ Hr Hloop) as Hr1.
  destruct (running g1); [assumption|].
  now apply (reach_print max_str_digits ["Fixed Advanced GUI closed"]).
Qed.

End Runs.

(** ** The wizard invariant *)

Section Invariant.

Context `{Collaborators}.
Variable max_str_digits : nat.

Lemma run_simulation_step_wizard_state (g : GUI) :
  wizard_state (run_simulation_step g) = wizard_state g.
Proof.
  destruct (paused g) eqn:Hp; [|destruct (input_mode g) eqn:Hm].
  - now rewrite run_simulation_step_gated by now left.
  - now rewrite run_simulation_step_gated by now right.
  - now destruct (run_simulation_step_ticks g Hp Hm) as (_ & _ & _ & _ & ->).
Qed.

Lemma render_wizard_state (g g' : GUI) :
  render g = Ok g' -> wizard_state g' = wizard_state g.
Proof.
  unfold render. destruct (max_steps g =? 0); [discriminate|].
  intros [= <-]. now gui_norm.
Qed.

Lemma init_wizard_invariant (ids : list Z) (n m : Z) :
  wizard_invariant (init ids n m).
Proof.
  unfold wizard_invariant, init; cbn.
  split; [split; [discriminate | congruence] | discriminate].
Qed.

Lemma perform_wizard_invariant (o : Operation) (g g' : GUI) :
  wizard_invariant g ->
  perform max_str_digits o g = Ok g' ->
  wizard_invariant g'.
Proof.
  intros Hinv. destruct o as [event| |]; cbn.
  - intros Hev.
    destruct (handle_event_cases _ _ _ _ Hev)
      as [(Hw & _) | [-> | [(_ & Hp) | [(_ & field & ->) | (_ & ->)]]]].
    + now apply (wizard_invariant_of_state g).
    + now apply start_human_action_selection_invariant.
    + now apply (process_input_invariant max_str_digits g).
    + revert Hinv. unfold wizard_invariant. now gui_norm.
    + unfold wizard_invariant. gui_norm.
      split; [split; [discriminate | congruence] | discriminate].
  - intros [= <-].
    apply (wizard_invariant_of_state g); [|assumption].
    apply run_simulation_step_wizard_state.
  - intros Hr. apply (wizard_invariant_of_state g); [|assumption].
    now apply render_wizard_state.
Qed.

(** C7. The wizard is active exactly when its step is not idle
    ([input_mode] is true if and only if [input_type] is not empty), and
    while it is active one agent index is designated as its target. This
    holds of a freshly constructed GUI and every operation keeps it:
    every event (wizard entry, confirm, cancel, text editing, the
    normal-mode keys, the buttons), the tick and the rendering. *)
Theorem wizard_invariant_always :
  (forall (ids : list Z) (n m : Z), wizard_invariant (init ids n m))
  /\ (forall (o : Operation) (g g' : GUI),
        wizard_invariant g ->
        perform max_str_digits o g = Ok g' ->
        wizard_invariant g').
Proof.
  split.
  - apply init_wizard_invariant.
  - apply perform_wizard_invariant.
Qed.

Lemma reachable_wizard_invariant (g : GUI) :
  reachable max_str_digits g -> wizard_invariant g.
Proof.
  induction 1 as [ids n m fps | o g g' _ IH Hstep | lines g _ IH].
  - apply (wizard_invariant_of_state (init ids n m));
      [reflexivity | apply init_wizard_invariant].
  - now apply (perform_wizard_invariant o g).
  - apply (wizard_invariant_of_state g); [now gui_norm | assumption].
Qed.

End Invariant.

Lemma wizard_invariant_always_witness :
  wizard_invariant demo
  /\ wizard_invariant demo_mid_session
  /\ handle_event 4300 confirm demo_mid_session = Ok demo_at_share_typed
  /\ wizard_invariant demo_at_share_typed.
Proof.
  pose proof (wizard_invariant_always (H := countdown) 4300)
    as (Hinit & Hstep).
  assert (Hmid : wizard_invariant demo_mid_session).
  { unfold wizard_invariant. cbn.
    split; [split; [discriminate | reflexivity] | eauto]. }
  assert (Hev : handle_event 4300 confirm demo_mid_session
                = Ok demo_at_share_typed) by (vm_compute; reflexivity).
  split; [apply (Hinit [1] 2 5)|]. split; [exact Hmid|].
  split; [exact Hev|].
  exact (Hstep (OpEvent confirm) demo_mid_session demo_at_share_typed
           Hmid Hev).
Defined.

(** ** The designated agent *)

Section Designated.

Context `{Collaborators}.
Variable max_str_digits : nat.





End Designated.


(** ** Mouse clicks during the wizard *)

Section MouseInWizard.

Context `{Collaborators}.
Variable max_str_digits : nat.

Lemma collidepoint_spec (r : Rect) (x y : Z) :
  collidepoint r (x, y) = true
  <-> left r <= x < left r + width r /\ top r <= y < top r + height r.
Proof.
  unfold collidepoint. cbn [fst snd].
  rewrite !andb_true_iff, !Z.leb_le, !Z.ltb_lt. lia.
Qed.

(** Walk down the registry, deciding each rectangle by arithmetic. *)
Ltac find_button :=
  let v := eval vm_compute in create_buttons in
  change create_buttons with v;
  cbn [button_at rect];
  repeat match goal with
         | |- (if collidepoint ?r ?p then _ else _) = _ =>
             let E := fresh "E" in
             destruct (collidepoint r p) eqn:E;
             [ apply collidepoint_spec in E; cbn in E;
               first [reflexivity | exfalso; lia]
             | first [ exfalso; apply not_true_iff_false in E; apply E;
                       apply collidepoint_spec; cbn; lia
                     | clear E ] ]
         end.

(** Where the Pause and the Human Action buttons are. *)
Lemma button_at_pause (x y : Z) :
  610 <= x < 690 -> 750 <= y < 780 ->
  button_at create_buttons (x, y) = Some "pause".
Proof. intros Hx Hy. find_button. Qed.

Lemma button_at_human_action (x y : Z) :
  700 <= x < 780 -> 750 <= y < 780 ->
  button_at create_buttons (x, y) = Some "human_action".
Proof. intros Hx Hy. find_button. Qed.

Lemma process_input_human_agents (g g' : GUI) :
  process_input max_str_digits g = Ok g' ->
  human_agents_of (agents g') = human_agents_of (agents g).
Proof.
  intros Hp. destruct (current_human_agent g) as [i|] eqn:Hcur.
  - now apply (process_input_agents _ _ _ _ Hp Hcur).
  - unfold process_input, assign_current, current_agent, bind in Hp.
    rewrite Hcur in Hp.
    repeat match type of Hp with
           | context [String.eqb ?a ?b] => destruct (String.eqb a b)
           end; try discriminate.
    now injection Hp as <-.
Qed.

Lemma run_simulation_step_buttons (g : GUI) :
  buttons (run_simulation_step g) = buttons g.
Proof.
  unfold run_simulation_step.
  destruct (paused g || input_mode g); [reflexivity|].
  destruct (tick_world g) as [[agents' env'] done].
  gui_norm. now destruct (done || _).
Qed.

Lemma perform_session_invariant (o : Operation) (g g' : GUI) :
  session_invariant g ->
  perform max_str_digits o g = Ok g' ->
  session_invariant g'.
Proof.
  intros [Hb Hh]. unfold session_invariant.
  destruct o as [event| |]; cbn [perform].
  - intros Hev.
    destruct (handle_event_cases _ _ _ _ Hev)
      as [(Hw & Ha & Hb') | [-> | [(Hm & Hp) | [(Hm & field & ->)
                                                | (_ & ->)]]]].
    + split; [congruence|]. rewrite Ha.
      unfold wizard_state in Hw. injection Hw as -> _ _ _ _. exact Hh.
    + destruct (start_human_action_selection_frame g)
        as (_ & _ & _ & -> & _ & ->).
      split; [assumption|].
      unfold start_human_action_selection.
      destruct (human_agents_of (agents g)); [now gui_norm|].
      discriminate.
    + rewrite (process_input_human_agents _ _ Hp).
      destruct (process_input_frame _ _ _ Hp) as (_ & _ & _ & _ & -> & _).
      split; [assumption|]. intros _. now apply Hh.
    + revert Hb Hh Hm. now gui_norm.
    + revert Hb. gui_norm. intros ->. split; [reflexivity|discriminate].
  - intros [= <-]. split.
    + now rewrite run_simulation_step_buttons.
    + pose proof (run_simulation_step_wizard_state g) as Hw.
      unfold wizard_state in Hw. injection Hw as Hm _ _ _ _.
      rewrite Hm. intros Hm'.
      rewrite run_simulation_step_gated by now right. now apply Hh.
  - unfold render. destruct (max_steps g =? 0); [discriminate|].
    intros [= <-]. revert Hb Hh. now gui_norm.
Qed.

Lemma reachable_session_invariant (g : GUI) :
  reachable max_str_digits g -> session_invariant g.
Proof.
  induction 1 as [ids n m fps | o g g' _ IH Hstep | lines g _ IH].
  - split; [reflexivity | discriminate].
  - now apply (perform_session_invariant o g).
  - revert IH. unfold session_invariant. now gui_norm.
Qed.

(** C9. A mouse press is routed without regard to the wizard. In every
    state the program can reach with the wizard active, a left click in
    the rectangle of a button runs that button's action; a click on
    Human Action puts the wizard back at the operation step with an
    empty buffer, writing to no agent; a click on Pause toggles
    [paused], the wizard staying active. *)
Theorem mouse_click_acts_during_wizard (g : GUI) :
  reachable max_str_digits g ->
  input_mode g = true ->
  (forall (pos : Z * Z) (button_id : string),
     button_at create_buttons pos = Some button_id ->
     handle_event max_str_digits (MOUSEBUTTONDOWN 1 pos) g
     = Ok (handle_button_action button_id g))
  /\ (forall x y : Z,
        700 <= x < 780 -> 750 <= y < 780 ->
        exists g',
          handle_event max_str_digits (MOUSEBUTTONDOWN 1 (x, y)) g = Ok g'
          /\ input_mode g' = true
          /\ input_type g' = "op"
          /\ input_field g' = ""
          /\ agents g' = agents g
          /\ current_human_agent g' = current_human_agent g)
  /\ (forall x y : Z,
        610 <= x < 690 -> 750 <= y < 780 ->
        exists g',
          handle_event max_str_digits (MOUSEBUTTONDOWN 1 (x, y)) g = Ok g'
          /\ paused g' = negb (paused g)
          /\ wizard_state g' = wizard_state g
          /\ agents g' = agents g).
Proof.
  intros Hreach Hm.
  destruct (reachable_session_invariant g Hreach) as [Hb Hh].
  destruct (reachable_wizard_invariant _ g Hreach) as [_ Hcur].
  specialize (Hh Hm). destruct (Hcur Hm) as [i Hi].
  assert (Hroute : forall pos button_id,
             button_at create_buttons pos = Some button_id ->
             handle_event max_str_digits (MOUSEBUTTONDOWN 1 pos) g
             = Ok (handle_button_action button_id g)).
  { intros pos button_id Hat. cbn. unfold handle_mouse_click.
    now rewrite Hb, Hat. }
  split; [exact Hroute|]. split.
  - intros x y Hx Hy.
    rewrite (Hroute _ _ (button_at_human_action x y Hx Hy)).
    eexists. split; [reflexivity|].
    unfold handle_button_action. cbn [String.eqb Ascii.eqb Bool.eqb].
    unfold start_human_action_selection.
    destruct (human_agents_of (agents g)) as [|first rest];
      [contradiction|].
    rewrite Hi. now gui_norm.
  - intros x y Hx Hy.
    rewrite (Hroute _ _ (button_at_pause x y Hx Hy)).
    eexists. split; [reflexivity|].
    unfold handle_button_action. cbn [String.eqb Ascii.eqb Bool.eqb].
    now gui_norm.
Qed.

End MouseInWizard.

(** ** A whole wizard session *)

Section Session.

Context `{Collaborators}.
Variable max_str_digits : nat.

Lemma handle_events_app (es1 es2 : list Event) :
  forall g : GUI,
    handle_events max_str_digits (es1 ++ es2) g
    = bind (handle_events max_str_digits es1 g)
        (handle_events max_str_digits es2).
Proof.
  induction es1 as [|e es1 IH]; intros g; cbn [app handle_events bind].
  - reflexivity.
  - destruct (handle_event max_str_digits e g) as [g1|x];
      cbn [bind]; [apply IH | reflexivity].
Qed.

Lemma set_input_field_same (g : GUI) :
  set_input_field (input_field g) g = g.
Proof. now gui_norm. Qed.

Lemma handle_event_edit (g : GUI) (k : Z * string) :
  input_mode g = true ->
  is_edit_key k ->
  handle_event max_str_digits (KEYDOWN (fst k) (snd k)) g
  = Ok (set_input_field
          (edit_field (fst k) (snd k) (input_field g)) g).
Proof.
  intros Hm [Hesc Hret]. cbn [handle_event]. rewrite Hm.
  unfold handle_input_event, edit_field.
  apply Z.eqb_neq in Hesc, Hret. rewrite Hesc, Hret.
  destruct (fst k =? K_BACKSPACE); [reflexivity|].
  destruct (PyStr.isprintable (snd k)); [reflexivity|].
  now rewrite set_input_field_same.
Qed.

(** Typing edits the buffer and nothing else. *)
Lemma handle_events_typing (keys : list (Z * string)) :
  forall g : GUI,
    input_mode g = true ->
    Forall is_edit_key keys ->
    handle_events max_str_digits (typing keys) g
    = Ok (set_input_field
            (fold_left (fun field k => edit_field (fst k) (snd k) field)
               keys (input_field g)) g).
Proof.
  induction keys as [|k keys IH]; intros g Hm Hkeys;
    cbn [typing map handle_events fold_left].
  - now rewrite set_input_field_same.
  - inversion Hkeys as [|? ? Hk Hrest]; subst.
    rewrite handle_event_edit by assumption. cbn [bind].
    fold (typing keys). rewrite IH; [|now gui_norm|assumption].
    f_equal; now gui_norm.
Qed.

Lemma handle_event_entry (g : GUI) (event : Event) :
  triggers_entry g event ->
  handle_event max_str_digits event g
  = Ok (start_human_action_selection g).
Proof.
  intros [unicode Hm | pos Hat]; cbn.
  - now rewrite Hm.
  - unfold handle_mouse_click. now rewrite Hat.
Qed.

(** Wizard entry, when it succeeds. *)
Lemma start_human_action_selection_enters (g : GUI) (i : nat) :
  human_agents_of (agents g) <> [] ->
  wizard_target g = Some i ->
  exists prompt,
    start_human_action_selection g
    = set_input_field ""
        (set_input_prompt prompt
           (set_input_type "op"
              (set_input_mode true
                 (set_current_human_agent (Some i) g)))).
Proof.
  intros Hh Ht. unfold start_human_action_selection, wizard_target in *.
  destruct (human_agents_of (agents g)) as [|first rest];
    [contradiction|].
  destruct (current_human_agent g) as [j|] eqn:Hcur.
  - injection Ht as ->. eexists. gui_norm. cbn in Hcur. now subst.
  - cbn in Ht. injection Ht as ->. eexists. now gui_norm.
Qed.

(** One step of the wizard: type, then confirm. *)
Lemma handle_events_type_and_confirm
  (g : GUI) (keys : list (Z * string)) :
  input_mode g = true ->
  input_field g = "" ->
  Forall is_edit_key keys ->
  handle_events max_str_digits (typing keys ++ [confirm]) g
  = process_input max_str_digits (set_input_field (typed keys) g).
Proof.
  intros Hm Hf Hkeys.
  rewrite handle_events_app, handle_events_typing by assumption.
  cbn [bind handle_events]. unfold confirm.
  rewrite handle_event_confirm by now gui_norm.
  rewrite Hf. fold (typed keys).
  now destruct (process_input _ _).
Qed.


End Session.

Section WholeSession.

Context `{Collaborators}.
Variable max_str_digits : nat.

Lemma perform_all_app (os1 os2 : list Operation) :
  forall g : GUI,
    perform_all max_str_digits (os1 ++ os2) g
    = bind (perform_all max_str_digits os1 g)
        (perform_all max_str_digits os2).
Proof.
  induction os1 as [|o os1 IH]; intros g; cbn [app perform_all bind].
  - reflexivity.
  - destruct (perform max_str_digits o g) as [g1|x];
      cbn [bind]; [apply IH | reflexivity].
Qed.

(** [s[:-1]] is [s] without its last character. *)
Lemma drop_last_removelast (s : string) :
  PyStr.drop_last s
  = string_of_list_ascii (removelast (list_ascii_of_string s)).
Proof.
  induction s as [|c s IH]; [reflexivity|].
  destruct s as [|d s]; [reflexivity|].
  change (PyStr.drop_last (String c (String d s)))
    with (String c (PyStr.drop_last (String d s))).
  rewrite IH. reflexivity.
Qed.

Lemma handle_button_action_wizard (button_id : string) (g : GUI) :
  button_id <> "human_action" ->
  let g' := handle_button_action button_id g in
  wizard_state g' = wizard_state g
  /\ agents g' = agents g
  /\ buttons g' = buttons g
  /\ max_steps g' = max_steps g.
Proof.
  intros Hne. unfold handle_button_action, handle_action.
  destruct (String.eqb button_id "pause"); [now gui_norm|].
  destruct (String.eqb_spec button_id "human_action"); [contradiction|].
  destruct (String.eqb button_id "help"); [now gui_norm|].
  destruct (String.eqb button_id "inventory"); now gui_norm.
Qed.

(** An operation that keeps the session edits the buffer, if it is a key
    press, and leaves the wizard and the agents alone. *)
Lemma perform_keeps_session
  (g0 g : GUI) (o : Operation) (step : string) (i : nat)
  (l : list Agent) (field : string) :
  keeps_session g0 o ->
  wizard_at g0 g step i l field ->
  exists g',
    perform max_str_digits o g = Ok g'
    /\ wizard_at g0 g' step i l
         (fold_left buffer_after_key (keys_of [o]) field).
Proof.
  intros Ho (Hm & Hty & Hf & Hcur & Hl & Hb & Hmax).
  destruct Ho as [key unicode Hesc Hret | button pos Hpress | | | | Hlimit];
    cbn [perform handle_event keys_of flat_map app fold_left].
  - rewrite Hm. unfold handle_input_event, buffer_after_key.
    cbn [fst snd].
    apply Z.eqb_neq in Hesc, Hret. rewrite Hesc, Hret.
    destruct (key =? K_BACKSPACE).
    + eexists. split; [reflexivity|].
      rewrite <- Hf, <- drop_last_removelast. subst. now gui_norm.
    + destruct (PyStr.isprintable unicode);
        (eexists; split; [reflexivity|]); subst; now gui_norm.
  - destruct (Z.eqb_spec button 1) as [->|Hne].
    + destruct Hpress as [Hne | Hother]; [contradiction|].
      rewrite <- Hb in Hother. unfold handle_mouse_click.
      destruct (button_at (buttons g) pos) as [button_id|] eqn:Hat.
      * eexists. split; [reflexivity|].
        assert (Hid : button_id <> "human_action") by congruence.
        destruct (handle_button_action_wizard button_id g Hid)
          as (Hw & Ha & Hbs & Hms).
        unfold wizard_state in Hw. injection Hw as Hw1 Hw2 Hw3 _ Hw5.
        unfold wizard_at. rewrite Hw1, Hw2, Hw3, Hw5, Ha, Hbs, Hms.
        repeat split; assumption.
      * eexists. split; [reflexivity|]. repeat split; assumption.
    + eexists. split; [reflexivity|]. repeat split; assumption.
  - eexists. split; [reflexivity|]. subst. now gui_norm.
  - eexists. split; [reflexivity|]. repeat split; assumption.
  - rewrite run_simulation_step_gated by now right.
    eexists. split; [reflexivity|]. repeat split; assumption.
  - unfold render. rewrite Hmax.
    destruct (Z.eqb_spec (max_steps g0) 0); [contradiction|].
    eexists. split; [reflexivity|]. subst. now gui_norm.
Qed.

Lemma perform_all_keeps_session
  (g0 : GUI) (os : list Operation) (step : string) (i : nat)
  (l : list Agent) :
  forall (g : GUI) (field : string),
    Forall (keeps_session g0) os ->
    wizard_at g0 g step i l field ->
    exists g',
      perform_all max_str_digits os g = Ok g'
      /\ wizard_at g0 g' step i l
           (fold_left buffer_after_key (keys_of os) field).
Proof.
  induction os as [|o os IH]; intros g field Hos Hat.
  - exists g. split; [reflexivity | exact Hat].
  - inversion Hos as [|? ? Ho Hrest]; subst.
    destruct (perform_keeps_session g0 g o step i l field Ho Hat)
      as (g1 & Hperform & Hat1).
    destruct (IH g1 _ Hrest Hat1) as (g' & Hall & Hat').
    exists g'. cbn [perform_all]. rewrite Hperform. cbn [bind].
    split; [exact Hall|].
    replace (keys_of (o :: os)) with (keys_of [o] ++ keys_of os)%list
      by (unfold keys_of; cbn [flat_map]; now rewrite app_nil_r).
    now rewrite fold_left_app.
Qed.

Lemma or_default_cases (t default : string) :
  or_default t default
  = match t with
    | EmptyString => default
    | String _ _ => t
    end.
Proof. now destruct t. Qed.

Lemma confirm_at_op
  (g0 g : GUI) (i : nat) (l : list Agent) (a : Agent)
  (field unicode : string) :
  wizard_at g0 g "op" i l field ->
  l !! i = Some a ->
  exists g',
    handle_event max_str_digits (KEYDOWN K_RETURN unicode) g = Ok g'
    /\ wizard_at g0 g' "collect" i
         (<[i := set_op
                   match PyStr.strip field with
                   | EmptyString => "noop"
                   | String _ _ => PyStr.strip field
                   end a]> l) "".
Proof.
  intros (Hm & Hty & Hf & Hcur & Hl & Hb & Hmax) Hat. subst l field.
  rewrite handle_event_confirm by assumption.
  rewrite (process_input_op max_str_digits g i a) by assumption.
  eexists. split; [reflexivity|]. rewrite or_default_cases.
  unfold wizard_at. now gui_norm.
Qed.

Lemma confirm_at_collect
  (g0 g : GUI) (i : nat) (l : list Agent) (a : Agent)
  (field unicode : string) :
  wizard_at g0 g "collect" i l field ->
  l !! i = Some a ->
  exists g',
    handle_event max_str_digits (KEYDOWN K_RETURN unicode) g = Ok g'
    /\ wizard_at g0 g' "share" i
         (<[i := set_rss_to_collect
                   match PyStr.strip field with
                   | EmptyString => "not_applicable"
                   | String _ _ => PyStr.strip field
                   end a]> l) "".
Proof.
  intros (Hm & Hty & Hf & Hcur & Hl & Hb & Hmax) Hat. subst l field.
  rewrite handle_event_confirm by assumption.
  rewrite (process_input_collect max_str_digits g i a) by assumption.
  eexists. split; [reflexivity|]. rewrite or_default_cases.
  unfold wizard_at. now gui_norm.
Qed.

Lemma confirm_at_share
  (g0 g : GUI) (i : nat) (l : list Agent) (a : Agent)
  (field unicode : string) :
  wizard_at g0 g "share" i l field ->
  l !! i = Some a ->
  exists g',
    handle_event max_str_digits (KEYDOWN K_RETURN unicode) g = Ok g'
    /\ wizard_at g0 g' "target" i
         (<[i := set_rss_to_share
                   match PyStr.strip field with
                   | EmptyString => "not_applicable"
                   | String _ _ => PyStr.strip field
                   end a]> l) "".
Proof.
  intros (Hm & Hty & Hf & Hcur & Hl & Hb & Hmax) Hat. subst l field.
  rewrite handle_event_confirm by assumption.
  rewrite (process_input_share max_str_digits g i a) by assumption.
  eexists. split; [reflexivity|]. rewrite or_default_cases.
  unfold wizard_at. now gui_norm.
Qed.

(** C1. A wizard session run from the idle state, on a designated
    human agent of valid index. Between wizard entry and the first
    confirm, and between one confirm and the next, anything may happen
    that neither cancels nor restarts the session: key presses, presses
    of the mouse, ticks and renderings, in one frame or over several.
    After the fourth confirm the wizard is idle again. What was typed at
    a step is the text its key presses leave in an empty buffer
    (printable text appended, a backspace taking the last character
    away, other keys ignored), trimmed. The agent's [op],
    [rss_to_collect] and [rss_to_share] are what was typed at the first
    three steps, in that order, ["noop"], ["not_applicable"] and
    ["not_applicable"] standing in for a blank; its [target_agent_id] is
    the integer typed at the fourth step, [-1] if what was typed is no
    integer; and [update_current_skill] has been called on the agent
    once more than before, with these four values. No other agent has
    changed. *)
Theorem wizard_session_commits
  (g : GUI) (entry : Event) (i : nat) (a : Agent)
  (o1 o2 o3 o4 : list Operation) (u1 u2 u3 u4 : string) :
  input_mode g = false ->
  triggers_entry g entry ->
  wizard_target g = Some i ->
  agents g !! i = Some a ->
  is_human a = true ->
  Forall (keeps_session g) o1 -> Forall (keeps_session g) o2 ->
  Forall (keeps_session g) o3 -> Forall (keeps_session g) o4 ->
  let t1 := PyStr.strip (typed_text (keys_of o1)) in
  let t2 := PyStr.strip (typed_text (keys_of o2)) in
  let t3 := PyStr.strip (typed_text (keys_of o3)) in
  let t4 := PyStr.strip (typed_text (keys_of o4)) in
  let v_op :=
    match t1 with EmptyString => "noop" | String _ _ => t1 end in
  let v_collect :=
    match t2 with EmptyString => "not_applicable" | String _ _ => t2 end in
  let v_share :=
    match t3 with EmptyString => "not_applicable" | String _ _ => t3 end in
  let v_target :=
    match PyStr.int max_str_digits t4 with
    | Ok z => z
    | Raise _ => -1
    end in
  exists g',
    perform_all max_str_digits
      ([OpEvent entry]
       ++ o1 ++ [OpEvent (KEYDOWN K_RETURN u1)]
       ++ o2 ++ [OpEvent (KEYDOWN K_RETURN u2)]
       ++ o3 ++ [OpEvent (KEYDOWN K_RETURN u3)]
       ++ o4 ++ [OpEvent (KEYDOWN K_RETURN u4)]) g
    = Ok g'
    /\ input_mode g' = false
    /\ input_type g' = ""
    /\ input_field g' = ""
    /\ current_human_agent g' = Some i
    /\ agents g'
       = <[i := {| is_human := is_human a;
                   op := v_op;
                   rss_to_collect := v_collect;
                   rss_to_share := v_share;
                   target_agent_id := v_target;
                   skill_updates :=
                     skill_updates a
                     ++ [(v_op, v_collect, v_share, v_target)] |}]>
           (agents g).
Proof.
  intros Hidle Hentry Htarget Hat Hhuman H1 H2 H3 H4
         t1 t2 t3 t4 v_op v_collect v_share v_target.
  pose proof (lookup_lt_Some _ _ _ Hat) as Hlt.
  destruct (start_human_action_selection_enters g i) as [prompt Hstart];
    [now apply human_agents_of_nonempty with i a | assumption |].
  cbn [app perform_all perform].
  rewrite (handle_event_entry max_str_digits g entry Hentry).
  cbn [bind]. rewrite Hstart.
  match goal with
  | |- context [perform_all _ _ ?s] =>
      assert (Hat0 : wizard_at g s "op" i (agents g) "")
        by (unfold wizard_at; now gui_norm);
      set (g0 := s) in *; clearbody g0
  end.
  (* operation *)
  rewrite perform_all_app.
  destruct (perform_all_keeps_session g o1 "op" i (agents g) g0 "" H1 Hat0)
    as (g1 & -> & Hat1).
  cbn [bind app perform_all perform].
  destruct (confirm_at_op g g1 i _ a _ u1 Hat1 Hat) as (g1' & -> & Hat1').
  cbn [bind].
  (* collect *)
  rewrite perform_all_app.
  destruct (perform_all_keeps_session g o2 _ i _ g1' "" H2 Hat1')
    as (g2 & -> & Hat2).
  cbn [bind app perform_all perform].
  destruct (confirm_at_collect g g2 i _ (set_op v_op a) _ u2 Hat2)
    as (g2' & -> & Hat2'); [now apply list_lookup_insert_eq|].
  cbn [bind].
  (* share *)
  rewrite perform_all_app.
  destruct (perform_all_keeps_session g o3 _ i _ g2' "" H3 Hat2')
    as (g3 & -> & Hat3).
  cbn [bind app perform_all perform].
  destruct (confirm_at_share g g3 i _
              (set_rss_to_collect v_collect (set_op v_op a)) _ u3 Hat3)
    as (g3' & -> & Hat3');
    [apply list_lookup_insert_eq; now rewrite length_insert|].
  cbn [bind].
  (* target *)
  rewrite perform_all_app.
  destruct (perform_all_keeps_session g o4 _ i _ g3' "" H4 Hat3')
    as (g4 & -> & Hat4).
  cbn [bind app perform_all perform].
  destruct Hat4 as (Hm4 & Hty4 & Hf4 & Hcur4 & Hl4 & _ & _).
  rewrite handle_event_confirm by assumption.
  destruct (process_input_target max_str_digits g4 i
              (set_rss_to_share v_share
                 (set_rss_to_collect v_collect (set_op v_op a))))
    as [line ->];
    [assumption | assumption
    | rewrite Hl4; apply list_lookup_insert_eq;
      now rewrite !length_insert |].
  cbn [bind]. rewrite Hl4, Hf4.
  match goal with
  | |- exists g', Ok ?s = Ok g' /\ _ =>
      exists s; split; [reflexivity|]
  end.
  replace (fold_left buffer_after_key (keys_of o4) "")
    with (typed_text (keys_of o4)) by reflexivity.
  assert (Htarget4 : parse_target max_str_digits (typed_text (keys_of o4))
                     = v_target) by reflexivity.
  rewrite Htarget4. clear Hl4 Hf4.
  gui_norm. cbn in Hcur4. subst.
  repeat (split; [reflexivity|]).
  now rewrite !list_insert_insert_eq.
Qed.

End WholeSession.

Lemma wizard_session_commits_witness :
  typed_text (keys_of demo_session_op) = " Nav"
  /\ typed_text (keys_of demo_session_share) = "wood "
  /\ typed_text (keys_of demo_session_target) = "-7"
  /\ exists g',
       perform_all 4300
         ([OpEvent (KEYDOWN K_h "h")]
          ++ demo_session_op ++ [OpEvent (KEYDOWN K_RETURN (String "013" ""))]
          ++ [] ++ [OpEvent (KEYDOWN K_RETURN (String "013" ""))]
          ++ demo_session_share
          ++ [OpEvent (KEYDOWN K_RETURN (String "013" ""))]
          ++ demo_session_target
          ++ [OpEvent (KEYDOWN K_RETURN (String "013" ""))]) demo
       = Ok g'
       /\ input_mode g' = false
       /\ input_type g' = ""
       /\ input_field g' = ""
       /\ current_human_agent g' = Some 1%nat
       /\ agents g'
          = [ fresh_agent false;
              {| is_human := true;
                 op := "Nav";
                 rss_to_collect := "not_applicable";
                 rss_to_share := "wood";
                 target_agent_id := -7;
                 skill_updates :=
                   [("Nav", "not_applicable", "wood", -7)] |} ]
       /\ agents g' = agents demo_after_session.
Proof.
  split; [reflexivity|]. split; [reflexivity|]. split; [reflexivity|].
  destruct (wizard_session_commits (H := countdown) 4300 demo
              (KEYDOWN K_h "h") 1 (fresh_agent true)
              demo_session_op [] demo_session_share demo_session_target
              (String "013" "") (String "013" "") (String "013" "")
              (String "013" ""))
    as (g' & Hrun & Hm & Hty & Hf & Hcur & Hagents).
  - reflexivity.
  - apply entry_by_key. reflexivity.
  - reflexivity.
  - reflexivity.
  - reflexivity.
  - unfold demo_session_op.
    do 5 (constructor; [apply keeps_key; discriminate|]).
    constructor; [apply keeps_tick|].
    constructor; [apply keeps_render; discriminate|].
    do 2 (constructor; [apply keeps_key; discriminate|]).
    constructor; [|constructor].
    apply keeps_press. right. vm_compute. discriminate.
  - constructor.
  - unfold demo_session_share.
    do 5 (constructor; [apply keeps_key; discriminate|]). constructor.
  - unfold demo_session_target.
    do 2 (constructor; [apply keeps_key; discriminate|]). constructor.
  - exists g'. split; [exact Hrun|].
    repeat (split; [assumption|]).
    rewrite Hagents. split; vm_compute; reflexivity.
Defined.

Lemma mouse_click_acts_during_wizard_witness :
  reachable 4300 demo_mid_session
  /\ input_mode demo_mid_session = true
  /\ (exists g',
        handle_event 4300 (MOUSEBUTTONDOWN 1 (705, 760)) demo_mid_session
        = Ok g'
        /\ input_mode g' = true
        /\ input_type g' = "op"
        /\ input_field g' = ""
        /\ agents g' = agents demo_mid_session
        /\ current_human_agent g' = current_human_agent demo_mid_session)
  /\ (exists g',
        handle_event 4300 (MOUSEBUTTONDOWN 1 (620, 760)) demo_mid_session
        = Ok g'
        /\ paused g' = negb (paused demo_mid_session)
        /\ wizard_state g' = wizard_state demo_mid_session
        /\ agents g' = agents demo_mid_session).
Proof.
  assert (Hreach : reachable 4300 demo_mid_session).
  { apply (reachable_handle_events (H := countdown) 4300
             ([KEYDOWN K_h "h"]
              ++ typing [(110, "N"); (97, "a"); (118, "v")]
              ++ [confirm] ++ typing [(119, "w"); (111, "o")]) demo).
    - exact (reach_init 4300 [1] 2 5 5).
    - vm_compute. reflexivity. }
  destruct (mouse_click_acts_during_wizard (H := countdown) 4300
              demo_mid_session Hreach eq_refl) as (_ & Hhuman & Hpause).
  split; [exact Hreach|]. split; [reflexivity|]. split.
  - apply Hhuman; lia.
  - apply Hpause; lia.
Defined.

(** ** The command line *)

Section StringFacts.

Variables p q : ascii -> bool.

Lemma forallb_str_lstrip (s : string) :
  PyStr.forallb_str q s = true ->
  PyStr.forallb_str q (PyStr.lstrip_with p s) = true.
Proof.
  induction s as [|c s IH]; cbn; [reflexivity|].
  intros Hq. destruct (p c); [|exact Hq].
  apply andb_true_iff in Hq. now apply IH.
Qed.

Lemma forallb_str_rstrip (s : string) :
  PyStr.forallb_str q s = true ->
  PyStr.forallb_str q (PyStr.rstrip_with p s) = true.
Proof.
  induction s as [|c s IH]; cbn; [reflexivity|].
  intros Hq. apply andb_true_iff in Hq. destruct Hq as [Hc Hs].
  destruct (p c && PyStr.is_empty (PyStr.rstrip_with p s));
    [reflexivity|].
  cbn. now rewrite Hc, IH.
Qed.

Lemma forallb_str_strip (s : string) :
  PyStr.forallb_str q s = true ->
  PyStr.forallb_str q (PyStr.strip_with p s) = true.
Proof.
  intros Hq. unfold PyStr.strip_with.
  now apply forallb_str_rstrip, forallb_str_lstrip.
Qed.

Lemma length_lstrip (s : string) :
  (String.length (PyStr.lstrip_with p s) <= String.length s)%nat.
Proof.
  induction s as [|c s IH]; cbn; [lia|].
  destruct (p c); cbn; lia.
Qed.

Lemma length_rstrip (s : string) :
  (String.length (PyStr.rstrip_with p s) <= String.length s)%nat.
Proof.
  induction s as [|c s IH]; cbn; [lia|].
  destruct (p c && PyStr.is_empty (PyStr.rstrip_with p s)); cbn; lia.
Qed.

Lemma length_strip (s : string) :
  (String.length (PyStr.strip_with p s) <= String.length s)%nat.
Proof.
  unfold PyStr.strip_with.
  pose proof (length_rstrip (PyStr.lstrip_with p s)).
  pose proof (length_lstrip s). lia.
Qed.

(** A string without characters to strip is left as it is. *)
Lemma rstrip_nothing (s : string) :
  PyStr.forallb_str (fun c => negb (p c)) s = true ->
  PyStr.rstrip_with p s = s.
Proof.
  induction s as [|c s IH]; cbn; [reflexivity|].
  intros Hs. apply andb_true_iff in Hs. destruct Hs as [Hc Hs].
  apply negb_true_iff in Hc. rewrite Hc. cbn. now rewrite IH.
Qed.

Lemma strip_nothing (s : string) :
  PyStr.forallb_str (fun c => negb (p c)) s = true ->
  PyStr.strip_with p s = s.
Proof.
  intros Hs. unfold PyStr.strip_with.
  assert (Hl : PyStr.lstrip_with p s = s).
  { destruct s as [|c s]; [reflexivity|]. cbn in *.
    apply andb_true_iff in Hs. destruct Hs as [Hc _].
    apply negb_true_iff in Hc. now rewrite Hc. }
  rewrite Hl. now apply rstrip_nothing.
Qed.

(** Only a string of characters to strip is stripped to nothing. *)
Lemma lstrip_empty (s : string) :
  PyStr.lstrip_with p s = "" -> PyStr.forallb_str p s = true.
Proof.
  induction s as [|c s IH]; cbn; [reflexivity|].
  destruct (p c); [exact IH | discriminate].
Qed.

Lemma strip_empty (s : string) :
  PyStr.strip_with p s = "" -> PyStr.forallb_str p s = true.
Proof.
  unfold PyStr.strip_with. intros Hs. apply lstrip_empty.
  destruct s as [|c s]; [reflexivity|].
  cbn in *. destruct (p c) eqn:Hc.
  - destruct (PyStr.lstrip_with p s) as [|d t] eqn:Ht; [reflexivity|].
    assert (Hd : p d = false).
    { clear Hs. revert Ht. induction s as [|e s IH]; cbn; [discriminate|].
      destruct (p e) eqn:He; [exact IH|]. now intros [= <- _]. }
    cbn in Hs. rewrite Hd in Hs. discriminate.
  - cbn in Hs. rewrite Hc in Hs. discriminate.
Qed.

(** The tokens of a string are made of its characters. *)
Lemma split_tokens (sep : ascii) (s : string) :
  PyStr.forallb_str q s = true ->
  Forall (fun t => PyStr.forallb_str q t = true
                   /\ (String.length t <= String.length s)%nat)
         (PyStr.split sep s).
Proof.
  induction s as [|c s IH]; cbn.
  - intros _. repeat constructor.
  - intros Hq. apply andb_true_iff in Hq. destruct Hq as [Hc Hs].
    specialize (IH Hs).
    destruct (Ascii.eqb c sep).
    + constructor; [split; [reflexivity | cbn; lia]|].
      eapply Forall_impl; [exact IH|]. cbn. intros t [Ht Hlen].
      split; [assumption | lia].
    + destruct (PyStr.split sep s) as [|t ts].
      * constructor; [|constructor].
        split; cbn; [now rewrite Hc | lia].
      * inversion IH as [|? ? [Ht Hlen] Hts]; subst.
        constructor; [split; cbn; [now rewrite Hc, Ht | lia]|].
        eapply Forall_impl; [exact Hts|]. cbn. intros u [Hu Hlen'].
        split; [assumption | lia].
Qed.

Lemma split_no_separator (sep : ascii) (s : string) :
  PyStr.forallb_str (fun c => negb (Ascii.eqb c sep)) s = true ->
  PyStr.split sep s = [s].
Proof.
  induction s as [|c s IH]; cbn; [reflexivity|].
  intros Hs. apply andb_true_iff in Hs. destruct Hs as [Hc Hs].
  apply negb_true_iff in Hc. rewrite Hc. now rewrite IH.
Qed.

Lemma forallb_str_impl (s : string) :
  (forall c, p c = true -> q c = true) ->
  PyStr.forallb_str p s = true -> PyStr.forallb_str q s = true.
Proof.
  intros Hpq. induction s as [|c s IH]; cbn; [reflexivity|].
  intros Hs. apply andb_true_iff in Hs. destruct Hs as [Hc Hs].
  now rewrite (Hpq c Hc), IH.
Qed.

End StringFacts.

Section CommandLine.

Variable max_str_digits : nat.

(** C8, where the program departs from it. [SUPERSCRIPT TWO] passes the
    [isdigit] filter and [int] then rejects it: the token is neither
    converted nor dropped, the comprehension raises [ValueError], alone
    or next to well-formed ids. *)
Theorem superscript_digit_raises :
  PyStr.isdigit (PyStr.strip superscript_two) = true
  /\ parse_human_agent_ids max_str_digits superscript_two
     = Raise ValueError
  /\ parse_human_agent_ids max_str_digits ("0," ++ superscript_two)
     = Raise ValueError.
Proof. destruct max_str_digits; repeat split; reflexivity. Qed.

(** On ASCII characters [isdigit] and [isdecimal] agree. *)
Lemma isdigit_char_ascii (c : ascii) :
  is_ascii c = true -> PyStr.isdigit_char c = PyStr.isdecimal_char c.
Proof.
  destruct c as [[] [] [] [] [] [] [] []]; try discriminate; reflexivity.
Qed.

Lemma isdigit_ascii (t : string) :
  PyStr.forallb_str is_ascii t = true ->
  PyStr.isdigit t = all_decimal t.
Proof.
  intros Ht. unfold PyStr.isdigit, all_decimal. f_equal.
  induction t as [|c t IH]; cbn in *; [reflexivity|].
  apply andb_true_iff in Ht. destruct Ht as [Hc Ht].
  now rewrite (isdigit_char_ascii c Hc), IH.
Qed.

Lemma decimal_not_space (c : ascii) :
  PyStr.isdecimal_char c = true ->
  negb (PyStr.int_isspace_char c) = true.
Proof.
  destruct c as [[] [] [] [] [] [] [] []]; try discriminate; reflexivity.
Qed.

Lemma scan_digits_decimal (t : string) :
  PyStr.forallb_str PyStr.isdecimal_char t = true ->
  PyStr.scan_digits false t
  = Some (map PyStr.digit_value (list_ascii_of_string t)).
Proof.
  induction t as [|c t IH]; cbn; [reflexivity|].
  intros Ht. apply andb_true_iff in Ht. destruct Ht as [Hc Ht].
  rewrite Hc, (IH Ht).
  destruct (Ascii.eqb_spec c "_") as [->|_]; [discriminate|reflexivity].
Qed.

Lemma too_many_digits_within (ds : list Z) :
  max_str_digits = 0%nat \/ (length ds <= max_str_digits)%nat ->
  PyStr.too_many_digits max_str_digits ds = false.
Proof.
  unfold PyStr.too_many_digits. intros [-> | Hlen]; [reflexivity|].
  apply andb_false_iff. right. apply Nat.ltb_ge. exact Hlen.
Qed.

Lemma length_list_ascii_of_string (t : string) :
  length (list_ascii_of_string t) = String.length t.
Proof. induction t as [|c t IH]; cbn; [reflexivity | now rewrite IH]. Qed.

(** [int] reads a token of decimal digits as its value in base ten. *)
Lemma int_of_decimal (t : string) :
  all_decimal t = true ->
  max_str_digits = 0%nat \/ (String.length t <= max_str_digits)%nat ->
  PyStr.int max_str_digits t = Ok (decimal_value t).
Proof.
  unfold all_decimal. intros Ht Hlen.
  apply andb_true_iff in Ht. destruct Ht as [Hne Hdec].
  assert (Hstrip : PyStr.strip_with PyStr.int_isspace_char t = t).
  { apply strip_nothing.
    apply (forallb_str_impl PyStr.isdecimal_char); [|exact Hdec].
    apply decimal_not_space. }
  pose proof (scan_digits_decimal t Hdec) as Hscan.
  assert (Hfew : PyStr.too_many_digits max_str_digits
                   (map PyStr.digit_value (list_ascii_of_string t))
                 = false).
  { apply too_many_digits_within.
    now rewrite length_map, length_list_ascii_of_string. }
  unfold PyStr.int. rewrite Hstrip.
  destruct t as [|c t]; [discriminate|].
  cbn in Hdec. apply andb_true_iff in Hdec. destruct Hdec as [Hc _].
  unfold decimal_value.
  destruct c as [[] [] [] [] [] [] [] []]; try discriminate Hc;
    unfold PyStr.int_unsigned;
    cbn [Ascii.eqb Bool.eqb andb]; now rewrite Hscan, Hfew.
Qed.

(** The comprehension over tokens of ASCII characters. *)
Lemma comprehension_ascii (bound : nat) (tokens : list string) :
  max_str_digits = 0%nat \/ (bound <= max_str_digits)%nat ->
  Forall (fun t => PyStr.forallb_str is_ascii t = true
                   /\ (String.length t <= bound)%nat) tokens ->
  result_map (fun x => PyStr.int max_str_digits (PyStr.strip x))
    (List.filter (fun x => PyStr.isdigit (PyStr.strip x)) tokens)
  = Ok (map decimal_value
          (List.filter all_decimal (map PyStr.strip tokens))).
Proof.
  intros Hbound. induction 1 as [|t tokens [Hascii Hlen] _ IH];
    cbn [List.filter map result_map]; [reflexivity|].
  rewrite (isdigit_ascii (PyStr.strip t))
    by now apply forallb_str_strip.
  destruct (all_decimal (PyStr.strip t)) eqn:Hdec;
    cbn [map result_map]; [|exact IH].
  rewrite int_of_decimal, IH; [reflexivity | exact Hdec |].
  destruct Hbound as [-> | Hb]; [now left | right].
  pose proof (length_strip PyStr.isspace_char t).
  unfold PyStr.strip. lia.
Qed.

Lemma space_not_comma (c : ascii) :
  PyStr.isspace_char c = true -> negb (Ascii.eqb c ",") = true.
Proof.
  destruct c as [[] [] [] [] [] [] [] []]; try discriminate; reflexivity.
Qed.


End CommandLine.

Lemma parse_human_agent_ids_ascii_sample :
  parse_human_agent_ids 4300 "0, 2,x,-1,,3 " = Ok [0; 2; 3].
Proof. reflexivity. Qed.

(** * Further properties of the code *)

(** ** The button bar *)

(** Decide every rectangle of the registry by arithmetic. *)
Ltac walk_registry :=
  let v := eval vm_compute in create_buttons in
  change create_buttons with v;
  cbn [button_at rect];
  repeat match goal with
         | |- (if collidepoint ?r ?p then _ else _) = _ =>
             let E := fresh "E" in
             destruct (collidepoint r p) eqn:E;
             [ apply collidepoint_spec in E; cbn in E;
               first [reflexivity | exfalso; lia]
             | first [ exfalso; apply not_true_iff_false in E; apply E;
                       apply collidepoint_spec; cbn; lia
                     | clear E ] ]
         end;
  try reflexivity.

(** Take a membership in the registry apart, button by button. *)
Ltac each_button Hin :=
  let v := eval vm_compute in create_buttons in
  change create_buttons with v in Hin;
  cbn [In] in Hin;
  repeat (destruct Hin as [Hin | Hin];
          [injection Hin as <- <- |]);
  [.. | destruct Hin].

Section ButtonBar.

Context `{Collaborators}.
Variable max_str_digits : nat.

(** A hit of [button_at] is a button of the registry whose rectangle
    holds the point. *)
Lemma button_at_sound (bs : list (string * Button)) (pos : Z * Z) :
  forall button_id : string,
    button_at bs pos = Some button_id ->
    exists button,
      In (button_id, button) bs /\ collidepoint (rect button) pos = true.
Proof.
  induction bs as [|[id b] bs IH]; intros button_id; cbn [button_at];
    [discriminate|].
  destruct (collidepoint (rect b) pos) eqn:Hc.
  - intros [= <-]. exists b. split; [now left | assumption].
  - intros Hat. destruct (IH _ Hat) as (b' & Hin & Hc').
    exists b'. split; [now right | assumption].
Qed.

Lemma button_at_complete
  (pos : Z * Z) (button_id : string) (button : Button) :
  In (button_id, button) create_buttons ->
  collidepoint (rect button) pos = true ->
  button_at create_buttons pos = Some button_id.
Proof.
  intros Hin Hc. destruct pos as [x y].
  each_button Hin; apply collidepoint_spec in Hc; cbn in Hc;
    walk_registry.
Qed.

(** X1. Hit-testing is exact: the rectangles of the thirteen buttons do
    not overlap, so a press fires a button if and only if the point lies
    in that button's rectangle, whatever the order of the registry. *)
Theorem button_hit_test_exact (pos : Z * Z) (button_id : string) :
  button_at create_buttons pos = Some button_id
  <-> exists button,
        In (button_id, button) create_buttons
        /\ collidepoint (rect button) pos = true.
Proof.
  split.
  - apply button_at_sound.
  - intros (button & Hin & Hc). now apply button_at_complete with button.
Qed.

Lemma button_at_outside (x y : Z) :
  x < 610 \/ 960 <= x \/ y < 650 \/ 780 <= y ->
  button_at create_buttons (x, y) = None.
Proof. intros Hout. walk_registry. Qed.

(** X2. A press that is not a left click, or that falls outside the box
    of the button bar (so anywhere on the game area), changes nothing at
    all, in the wizard or out of it. *)
Theorem press_outside_button_bar_ignored
  (g : GUI) (button x y : Z) :
  buttons g = create_buttons ->
  button <> 1 \/ x < 610 \/ 960 <= x \/ y < 650 \/ 780 <= y ->
  handle_event max_str_digits (MOUSEBUTTONDOWN button (x, y)) g = Ok g.
Proof.
  intros Hb Hout. cbn [handle_event].
  destruct (Z.eqb_spec button 1) as [->|Hne]; [|reflexivity].
  destruct Hout as [Hne | Hout]; [contradiction|].
  unfold handle_mouse_click. rewrite Hb.
  now rewrite (button_at_outside x y Hout).
Qed.

End ButtonBar.

Lemma press_outside_button_bar_ignored_witness :
  buttons demo_mid_session = create_buttons
  /\ handle_event 4300 (MOUSEBUTTONDOWN 1 (300, 300)) demo_mid_session
     = Ok demo_mid_session
  /\ handle_event 4300 (MOUSEBUTTONDOWN 3 (705, 760)) demo
     = Ok demo.
Proof.
  split; [reflexivity|]. split.
  - apply (press_outside_button_bar_ignored (H := countdown) 4300
             demo_mid_session 1 300 300 eq_refl). right. left. lia.
  - apply (press_outside_button_bar_ignored (H := countdown) 4300
             demo 3 705 760 eq_refl). left. lia.
Defined.

(** ** Hovering and pressing *)

(** As [each_button], for a second membership whose button is a variable
    still. *)
Ltac each_other_button Hin :=
  let v := eval vm_compute in create_buttons in
  change create_buttons with v in Hin;
  cbn [In] in Hin;
  repeat (destruct Hin as [Hin | Hin];
          [first [discriminate Hin | injection Hin; intros; subst] |]);
  [.. | destruct Hin].

Section Hover.

(** No two buttons share a rectangle. *)
Lemma registry_rects_differ
  (id1 id2 : string) (b1 b2 : Button) :
  In (id1, b1) create_buttons ->
  In (id2, b2) create_buttons ->
  rect b1 = rect b2 ->
  id1 = id2 /\ b1 = b2.
Proof.
  intros H1 H2 Hr.
  each_button H1; each_other_button H2;
    first [discriminate Hr | split; reflexivity].
Qed.

(** No two buttons share an identifier. *)
Lemma registry_ids_differ (id : string) (b1 b2 : Button) :
  In (id, b1) create_buttons ->
  In (id, b2) create_buttons ->
  b1 = b2.
Proof.
  intros H1 H2.
  each_button H1; each_other_button H2; first [discriminate | reflexivity].
Qed.

Lemma registry_hover_differs (id : string) (b : Button) :
  In (id, b) create_buttons -> color b <> hover_color b.
Proof. intros Hin. each_button Hin; discriminate. Qed.

(** X3. The button drawn in its hover colour is the button a press at the
    pointer would fire: [render_buttons] fills a button's rectangle with
    its hover colour if and only if [handle_mouse_click] at the same
    point selects that button; at most one button is highlighted. *)
Theorem hover_colour_marks_click_target
  (mouse_pos : Z * Z) (button_id : string) (button : Button) :
  In (button_id, button) create_buttons ->
  (In (FillRect (hover_color button) (rect button))
      (render_buttons create_buttons mouse_pos)
   <-> button_at create_buttons mouse_pos = Some button_id).
Proof.
  intros Hin. unfold render_buttons. rewrite in_flat_map. split.
  - intros ([id' b'] & Hin' & Hcmd). cbn [In] in Hcmd.
    destruct Hcmd as [Hfill | [Hline | [Htext | []]]];
      [|discriminate|discriminate].
    injection Hfill as Hcolor Hrect.
    destruct (registry_rects_differ _ _ _ _ Hin' Hin Hrect) as [-> ->].
    destruct (collidepoint (rect button) mouse_pos) eqn:Hc.
    + now apply button_at_complete with button.
    + now destruct (registry_hover_differs _ _ Hin).
  - intros Hat. exists (button_id, button). split; [assumption|].
    destruct (button_at_sound _ _ _ Hat) as (b0 & Hin0 & Hc).
    rewrite (registry_ids_differ _ _ _ Hin Hin0), Hc. now left.
Qed.

End Hover.

Lemma hover_colour_marks_click_target_witness :
  In (FillRect colors.orange
        {| left := 700; top := 750; width := 80; height := 30 |})
     (render_buttons create_buttons (705, 760))
  <-> button_at create_buttons (705, 760) = Some "human_action".
Proof.
  apply (hover_colour_marks_click_target (705, 760) "human_action"
           {| rect := {| left := 700; top := 750; width := 80; height := 30 |};
              text := "Human Action"; action := "human_action";
              color := colors.blue; hover_color := colors.orange |}).
  vm_compute. tauto.
Defined.

(** ** What input events leave alone *)

Section EventFrame.

Context `{Collaborators}.
Variable max_str_digits : nat.

Lemma process_input_static (g g' : GUI) :
  process_input max_str_digits g = Ok g' ->
  human_agent_ids g' = human_agent_ids g
  /\ n_players g' = n_players g
  /\ max_steps g' = max_steps g
  /\ env g' = env g
  /\ current_step g' = current_step g
  /\ fps g' = fps g
  /\ buttons g' = buttons g
  /\ paused g' = paused g
  /\ show_help g' = show_help g
  /\ show_inventory g' = show_inventory g.
Proof.
  intros Hp.
  unfold process_input, assign_current, current_agent, bind in Hp.
  gui_norm.
  repeat match type of Hp with
         | context [String.eqb ?a ?b] => destruct (String.eqb a b)
         | context [match ?o with Some _ => _ | None => _ end] =>
             destruct o
         end;
    try discriminate; inversion Hp; subst; repeat split.
Qed.

Lemma start_human_action_selection_static (g : GUI) :
  let g' := start_human_action_selection g in
  human_agent_ids g' = human_agent_ids g
  /\ n_players g' = n_players g
  /\ max_steps g' = max_steps g
  /\ env g' = env g
  /\ current_step g' = current_step g
  /\ fps g' = fps g
  /\ buttons g' = buttons g
  /\ agents g' = agents g.
Proof.
  unfold start_human_action_selection.
  destruct (human_agents_of (agents g)); [now gui_norm|].
  destruct (current_human_agent g); now gui_norm.
Qed.

Lemma handle_button_action_static (button_id : string) (g : GUI) :
  let g' := handle_button_action button_id g in
  human_agent_ids g' = human_agent_ids g
  /\ n_players g' = n_players g
  /\ max_steps g' = max_steps g
  /\ env g' = env g
  /\ current_step g' = current_step g
  /\ fps g' = fps g
  /\ buttons g' = buttons g
  /\ agents g' = agents g.
Proof.
  unfold handle_button_action, handle_action.
  repeat match goal with
         | |- context [String.eqb ?a ?b] => destruct (String.eqb a b)
         end;
    try apply start_human_action_selection_static; now gui_norm.
Qed.

Lemma handle_event_static (event : Event) (g g' : GUI) :
  handle_event max_str_digits event g = Ok g' ->
  human_agent_ids g' = human_agent_ids g
  /\ n_players g' = n_players g
  /\ max_steps g' = max_steps g
  /\ env g' = env g
  /\ current_step g' = current_step g
  /\ fps g' = fps g
  /\ buttons g' = buttons g.
Proof.
  destruct event as [|key unicode|button pos|]; cbn [handle_event].
  - intros [= <-]. now gui_norm.
  - destruct (input_mode g).
    + unfold handle_input_event.
      destruct (key =? K_ESCAPE); [intros [= <-]; now gui_norm|].
      destruct (key =? K_RETURN).
      * intros Hp. apply process_input_static in Hp. tauto.
      * destruct (key =? K_BACKSPACE); [intros [= <-]; now gui_norm|].
        destruct (PyStr.isprintable unicode); intros [= <-]; now gui_norm.
    + intros [= <-]. unfold handle_normal_event, handle_action.
      destruct (key =? K_ESCAPE); [now gui_norm|].
      destruct (key =? K_p); [now gui_norm|].
      destruct (key =? K_h).
      * pose proof (start_human_action_selection_static g). cbn in *. tauto.
      * destruct (key =? K_i); [now gui_norm|].
        destruct (key =? K_QUESTION); [now gui_norm|].
        destruct (keymap !! key); now gui_norm.
  - destruct (button =? 1); intros [= <-]; [|repeat split].
    unfold handle_mouse_click.
    destruct (button_at (buttons g) pos); [|repeat split].
    pose proof (handle_button_action_static s g). cbn in *. tauto.
  - intros [= <-]. repeat split.
Qed.

Lemma handle_event_agents (event : Event) (g g' : GUI) :
  handle_event max_str_digits event g = Ok g' ->
  length (agents g') = length (agents g)
  /\ human_agents_of (agents g') = human_agents_of (agents g).
Proof.
  intros Hev.
  destruct (handle_event_cases _ _ _ _ Hev)
    as [(_ & -> & _) | [-> | [(_ & Hp) | [(_ & field & ->) | (_ & ->)]]]].
  - now split.
  - destruct (start_human_action_selection_static g)
      as (_ & _ & _ & _ & _ & _ & _ & ->). now split.
  - split.
    + now destruct (process_input_frame _ _ _ Hp)
        as (_ & _ & _ & _ & _ & _ & ->).
    + now apply (process_input_human_agents _ _ _ Hp).
  - now gui_norm.
  - now gui_norm.
Qed.


End EventFrame.

Section EventsAndSimulation.

Context `{Collaborators}.
Variable max_str_digits : nat.

Lemma action_button_found (action : string) (bx by' x y : Z) :
  In (action, (bx, by')) action_button_places ->
  bx <= x < bx + 80 ->
  by' <= y < by' + 30 ->
  button_at create_buttons (x, y) = Some action.
Proof.
  intros Hin Hx Hy. cbn [In action_button_places] in Hin.
  repeat (destruct Hin as [Hin | Hin];
          [injection Hin as <- <- <-; walk_registry |]).
  destruct Hin.
Qed.

(** X4. Input never advances the simulation. Whatever the event and the
    state, handling it leaves the step counter, the environment, the step
    limit, the player count, the frame rate and the button registry as
    they were, adds or removes no agent, and turns no agent human or
    autonomous. The movement and crafting keys, outside the wizard, and
    the nine action buttons only print: the state after is the state
    before with the line ['Action selected: '] and the action added to
    the output, and nothing else changed. *)
Theorem events_never_advance_simulation (event : Event) (g g' : GUI) :
  handle_event max_str_digits event g = Ok g' ->
  (current_step g' = current_step g
   /\ env g' = env g
   /\ max_steps g' = max_steps g
   /\ n_players g' = n_players g
   /\ fps g' = fps g
   /\ buttons g' = buttons g
   /\ length (agents g') = length (agents g)
   /\ human_agents_of (agents g') = human_agents_of (agents g))
  /\ (forall key unicode action,
        event = KEYDOWN key unicode ->
        input_mode g = false ->
        In (key, action) action_keys ->
        g' = set_trace
               (trace g ++ [Print ("Action selected: " ++ action)]) g)
  /\ (forall x y action bx by',
        event = MOUSEBUTTONDOWN 1 (x, y) ->
        buttons g = create_buttons ->
        In (action, (bx, by')) action_button_places ->
        bx <= x < bx + 80 ->
        by' <= y < by' + 30 ->
        g' = set_trace
               (trace g ++ [Print ("Action selected: " ++ action)]) g).
Proof.
  intros Hev. split; [|split].
  - destruct (handle_event_static _ _ _ _ Hev)
      as (_ & Hn & Hm & He & Hs & Hf & Hb).
    destruct (handle_event_agents _ _ _ _ Hev) as (Hl & Hh).
    repeat split; assumption.
  - intros key unicode action -> Hmode Hin.
    cbn [handle_event] in Hev. rewrite Hmode in Hev.
    injection Hev as <-. cbn [In action_keys] in Hin.
    repeat (destruct Hin as [Hin | Hin];
            [injection Hin as <- <-; reflexivity |]).
    destruct Hin.
  - intros x y action bx by' -> Hb Hin Hx Hy.
    cbn [handle_event] in Hev. change (1 =? 1) with true in Hev.
    cbn iota in Hev. unfold handle_mouse_click in Hev.
    rewrite Hb, (action_button_found action bx by' x y Hin Hx Hy) in Hev.
    injection Hev as <-. cbn [In action_button_places] in Hin.
    repeat (destruct Hin as [Hin | Hin];
            [injection Hin as <- _ _; reflexivity |]).
    destruct Hin.
Qed.

End EventsAndSimulation.

Lemma events_never_advance_simulation_witness :
  (exists g',
     handle_event 4300 (KEYDOWN 119 "w") demo = Ok g'
     /\ current_step g' = current_step demo
     /\ env g' = env demo
     /\ g' = set_trace (trace demo ++ [Print "Action selected: move_up"])
               demo)
  /\ (exists g',
        handle_event 4300 (MOUSEBUTTONDOWN 1 (705, 700)) demo_mid_session
        = Ok g'
        /\ g' = set_trace
                  (trace demo_mid_session
                   ++ [Print "Action selected: move_right"])
                  demo_mid_session)
  /\ length (agents demo_at_share_typed) = length (agents demo_mid_session)
  /\ human_agents_of (agents demo_at_share_typed)
     = human_agents_of (agents demo_mid_session).
Proof.
  destruct (handle_event 4300 (KEYDOWN 119 "w") demo) as [g1|x] eqn:Hmove;
    [|vm_compute in Hmove; discriminate].
  destruct (handle_event 4300 (MOUSEBUTTONDOWN 1 (705, 700))
              demo_mid_session) as [g2|x] eqn:Hclick;
    [|vm_compute in Hclick; discriminate].
  assert (Hconfirm : handle_event 4300 confirm demo_mid_session
                     = Ok demo_at_share_typed) by (vm_compute; reflexivity).
  destruct (events_never_advance_simulation (H := countdown) 4300
              _ _ _ Hmove) as ((Hs & He & _) & Hkey & _).
  destruct (events_never_advance_simulation (H := countdown) 4300
              _ _ _ Hclick) as (_ & _ & Hbutton).
  destruct (events_never_advance_simulation (H := countdown) 4300
              _ _ _ Hconfirm)
    as ((_ & _ & _ & _ & _ & _ & Hl & Hh) & _).
  split; [|split; [|split; assumption]].
  - exists g1. split; [reflexivity|]. split; [exact Hs|].
    split; [exact He|].
    apply (Hkey 119 "w" "move_up" eq_refl); [reflexivity|].
    cbn; tauto.
  - exists g2. split; [reflexivity|].
    apply (Hbutton 705 700 "move_right" 700 685 eq_refl);
      [vm_compute; reflexivity | cbn; tauto | lia | lia].
Defined.

(** ** Toggles and text editing *)

Section Editing.

Context `{Collaborators}.
Variable max_str_digits : nat.

Lemma set_paused_twice (g : GUI) :
  set_paused (negb (paused (set_paused (negb (paused g)) g)))
    (set_paused (negb (paused g)) g) = g.
Proof. gui_norm. now rewrite negb_involutive. Qed.

Lemma set_show_help_twice (g : GUI) :
  set_show_help (negb (show_help (set_show_help (negb (show_help g)) g)))
    (set_show_help (negb (show_help g)) g) = g.
Proof. gui_norm. now rewrite negb_involutive. Qed.

Lemma set_show_inventory_twice (g : GUI) :
  set_show_inventory
    (negb (show_inventory (set_show_inventory (negb (show_inventory g)) g)))
    (set_show_inventory (negb (show_inventory g)) g) = g.
Proof. gui_norm. now rewrite negb_involutive. Qed.

(** X5. The view toggles undo themselves: outside the wizard, pressing
    [p], [i] or [?] twice gives back the very state one started from, and
    so does pressing the Pause, Help or Inventory button twice, or the
    key once and its button once. *)
Theorem view_toggles_undo_themselves
  (g : GUI) (key : Z) (button_id : string) (u1 u2 : string) :
  input_mode g = false ->
  (key = K_p /\ button_id = "pause")
  \/ (key = K_i /\ button_id = "inventory")
  \/ (key = K_QUESTION /\ button_id = "help") ->
  handle_events max_str_digits [KEYDOWN key u1; KEYDOWN key u2] g = Ok g
  /\ handle_button_action button_id (handle_button_action button_id g) = g
  /\ handle_button_action button_id (handle_normal_event key g) = g.
Proof.
  intros Hm Hkey.
  assert (Hnormal : forall u g0, input_mode g0 = false ->
            handle_event max_str_digits (KEYDOWN key u) g0
            = Ok (handle_normal_event key g0)).
  { intros u g0 Hm0. cbn [handle_event]. now rewrite Hm0. }
  destruct Hkey as [[-> ->] | [[-> ->] | [-> ->]]];
    cbn [handle_events]; rewrite Hnormal by assumption; cbn [bind];
    (rewrite Hnormal by (gui_norm; assumption)); cbn [bind];
    unfold handle_normal_event, handle_button_action;
    cbn [Z.eqb Pos.eqb K_p K_i K_QUESTION K_ESCAPE K_h String.eqb Ascii.eqb
         Bool.eqb];
    rewrite ?set_paused_twice, ?set_show_help_twice,
      ?set_show_inventory_twice; repeat split.
Qed.

Lemma drop_last_app (s : string) (c : ascii) :
  PyStr.drop_last (s ++ String c "") = s.
Proof.
  induction s as [|d s IH]; [reflexivity|].
  change (String d s ++ String c "")%string
    with (String d (s ++ String c "")).
  destruct (s ++ String c "")%string as [|a r] eqn:E.
  - destruct s; discriminate.
  - change (PyStr.drop_last (String d (String a r)))
      with (String d (PyStr.drop_last (String a r))).
    now rewrite IH.
Qed.

(** X6. Backspace undoes a typed character: in the wizard, a key press
    carrying one printable character followed by a backspace gives back
    the very state one started from. *)
Theorem backspace_undoes_typed_character
  (g : GUI) (key : Z) (c : ascii) (unicode : string) :
  input_mode g = true ->
  key <> K_ESCAPE -> key <> K_RETURN -> key <> K_BACKSPACE ->
  PyStr.isprintable_char c = true ->
  handle_events max_str_digits
    [KEYDOWN key (String c ""); KEYDOWN K_BACKSPACE unicode] g
  = Ok g.
Proof.
  intros Hm Hesc Hret Hbs Hc.
  apply Z.eqb_neq in Hesc, Hret, Hbs.
  cbn [handle_events handle_event]. rewrite Hm.
  unfold handle_input_event at 1. rewrite Hesc, Hret, Hbs.
  cbn [PyStr.isprintable PyStr.forallb_str]. rewrite Hc. cbn [andb bind].
  replace (input_mode (set_input_field (input_field g ++ String c "") g))
    with true by (gui_norm; now subst).
  unfold handle_input_event.
  cbn [Z.eqb Pos.eqb K_BACKSPACE K_ESCAPE K_RETURN bind].
  f_equal. gui_norm. now rewrite drop_last_app.
Qed.

End Editing.

Lemma view_toggles_undo_themselves_witness :
  handle_events 4300 [KEYDOWN K_p "p"; KEYDOWN K_p "p"] demo = Ok demo
  /\ handle_button_action "pause" (handle_button_action "pause" demo) = demo
  /\ handle_button_action "pause" (handle_normal_event K_p demo) = demo.
Proof.
  apply (view_toggles_undo_themselves (H := countdown) 4300 demo K_p
           "pause" "p" "p" eq_refl).
  left. split; reflexivity.
Defined.

Lemma backspace_undoes_typed_character_witness :
  handle_events 4300 [KEYDOWN 120 "x"; KEYDOWN K_BACKSPACE ""]
    demo_mid_session
  = Ok demo_mid_session.
Proof.
  apply (backspace_undoes_typed_character (H := countdown) 4300
           demo_mid_session 120 "x" "" eq_refl); try discriminate.
  reflexivity.
Defined.

(** ** The text buffer *)

Section Buffer.

Context `{Collaborators}.
Variable max_str_digits : nat.

Lemma forallb_str_app (p : ascii -> bool) (s t : string) :
  PyStr.forallb_str p (s ++ t)
  = PyStr.forallb_str p s && PyStr.forallb_str p t.
Proof.
  induction s as [|c s IH]; [reflexivity|].
  change (String c s ++ t)%string with (String c (s ++ t)).
  cbn [PyStr.forallb_str]. now rewrite IH, andb_assoc.
Qed.

Lemma forallb_str_drop_last (p : ascii -> bool) (s : string) :
  PyStr.forallb_str p s = true ->
  PyStr.forallb_str p (PyStr.drop_last s) = true.
Proof.
  induction s as [|c s IH]; [reflexivity|].
  cbn [PyStr.forallb_str]. intros Hs.
  apply andb_true_iff in Hs. destruct Hs as [Hc Hs].
  destruct s as [|d s]; [reflexivity|].
  change (PyStr.drop_last (String c (String d s)))
    with (String c (PyStr.drop_last (String d s))).
  cbn [PyStr.forallb_str]. now rewrite Hc, IH.
Qed.

(** A confirm empties the buffer, unless it does nothing at all. *)
Lemma process_input_field (g g' : GUI) :
  process_input max_str_digits g = Ok g' ->
  input_field g' = "" \/ g' = g.
Proof.
  intros Hp.
  unfold process_input, assign_current, current_agent, bind in Hp.
  gui_norm.
  repeat match type of Hp with
         | context [String.eqb ?a ?b] => destruct (String.eqb a b)
         | context [match ?o with Some _ => _ | None => _ end] =>
             destruct o
         end;
    try discriminate; inversion Hp; subst; auto.
Qed.

Lemma start_human_action_selection_field (g : GUI) :
  input_field (start_human_action_selection g) = ""
  \/ input_field (start_human_action_selection g) = input_field g.
Proof.
  unfold start_human_action_selection.
  destruct (human_agents_of (agents g)); [right; now gui_norm|].
  left. destruct (current_human_agent g); now gui_norm.
Qed.

Lemma handle_event_printable (event : Event) (g g' : GUI) :
  handle_event max_str_digits event g = Ok g' ->
  PyStr.isprintable (input_field g) = true ->
  PyStr.isprintable (input_field g') = true.
Proof.
  intros Hev Hg.
  assert (Hstart : PyStr.isprintable
                     (input_field (start_human_action_selection g)) = true).
  { now destruct (start_human_action_selection_field g) as [-> | ->]. }
  revert Hev.
  destruct event as [|key unicode|button pos|]; cbn [handle_event].
  - intros [= <-]. revert Hg. now gui_norm.
  - destruct (input_mode g).
    + unfold handle_input_event.
      destruct (key =? K_ESCAPE); [intros [= <-]; now gui_norm|].
      destruct (key =? K_RETURN).
      * intros Hp. now destruct (process_input_field _ _ Hp) as [-> | ->].
      * destruct (key =? K_BACKSPACE).
        -- intros [= <-]. apply forallb_str_drop_last in Hg.
           revert Hg. now gui_norm.
        -- destruct (PyStr.isprintable unicode) eqn:Hu; intros [= <-];
             [|assumption].
           unfold PyStr.isprintable in *.
           replace (input_field
                      (set_input_field (input_field g ++ unicode) g))
             with (input_field g ++ unicode)%string by now gui_norm.
           now rewrite forallb_str_app, Hg, Hu.
    + intros [= <-]. unfold handle_normal_event, handle_action.
      destruct (key =? K_ESCAPE); [revert Hg; now gui_norm|].
      destruct (key =? K_p); [revert Hg; now gui_norm|].
      destruct (key =? K_h); [assumption|].
      destruct (key =? K_i); [revert Hg; now gui_norm|].
      destruct (key =? K_QUESTION); [revert Hg; now gui_norm|].
      destruct (keymap !! key); revert Hg; now gui_norm.
  - destruct (button =? 1); intros [= <-]; [|assumption].
    unfold handle_mouse_click.
    destruct (button_at (buttons g) pos) as [button_id|]; [|assumption].
    unfold handle_button_action, handle_action.
    destruct (String.eqb button_id "pause"); [revert Hg; now gui_norm|].
    destruct (String.eqb button_id "human_action"); [assumption|].
    destruct (String.eqb button_id "help"); [revert Hg; now gui_norm|].
    destruct (String.eqb button_id "inventory"); revert Hg; now gui_norm.
  - now intros [= <-].
Qed.

(** X7. The text buffer only ever holds printable characters: in every
    state the program reaches, whatever keys were pressed,
    [input_field.isprintable()] is true (no control character, no line
    break). *)
Theorem input_field_is_always_printable (g : GUI) :
  reachable max_str_digits g ->
  PyStr.isprintable (input_field g) = true.
Proof.
  induction 1 as [ids n m fps | o g g' _ IH Hstep | lines g _ IH].
  - reflexivity.
  - destruct o as [event| |]; cbn [perform] in Hstep.
    + now apply (handle_event_printable event g).
    + injection Hstep as <-.
      pose proof (run_simulation_step_wizard_state g) as Hw.
      unfold wizard_state in Hw. injection Hw as _ _ -> _ _. exact IH.
    + apply render_wizard_state in Hstep.
      unfold wizard_state in Hstep. injection Hstep as _ _ -> _ _. exact IH.
  - revert IH. now gui_norm.
Qed.

End Buffer.

Lemma demo_mid_session_reachable : reachable 4300 demo_mid_session.
Proof.
  apply (reachable_handle_events (H := countdown) 4300
           ([KEYDOWN K_h "h"]
            ++ typing [(110, "N"); (97, "a"); (118, "v")]
            ++ [confirm] ++ typing [(119, "w"); (111, "o")]) demo).
  - exact (reach_init 4300 [1] 2 5 5).
  - vm_compute. reflexivity.
Defined.

Lemma input_field_is_always_printable_witness :
  input_field demo_mid_session = "wo"
  /\ PyStr.isprintable (input_field demo_mid_session) = true.
Proof.
  split; [reflexivity|].
  apply (input_field_is_always_printable (H := countdown) 4300).
  exact demo_mid_session_reachable.
Defined.

(** ** The step counter and the trace *)

Section StepCounter.

Context `{Collaborators}.
Variable max_str_digits : nat.

Lemma environment_steps_app (t u : list Effect) :
  environment_steps (t ++ u) = environment_steps t + environment_steps u.
Proof.
  unfold environment_steps. rewrite List.filter_app, length_app. lia.
Qed.

Lemma environment_steps_prints (lines : list string) :
  environment_steps (map Print lines) = 0.
Proof.
  unfold environment_steps.
  induction lines as [|l lines IH]; [reflexivity | exact IH].
Qed.

Lemma process_input_prints (g g' : GUI) :
  process_input max_str_digits g = Ok g' ->
  exists lines, trace g' = (trace g ++ map Print lines)%list.
Proof.
  intros Hp.
  unfold process_input, assign_current, current_agent, bind in Hp.
  gui_norm.
  repeat match type of Hp with
         | context [String.eqb ?a ?b] => destruct (String.eqb a b)
         | context [match ?o with Some _ => _ | None => _ end] =>
             destruct o
         end;
    try discriminate; inversion Hp; subst;
    first [ now exists []; rewrite app_nil_r
          | eexists [_]; reflexivity ].
Qed.

Lemma start_human_action_selection_prints (g : GUI) :
  exists lines,
    trace (start_human_action_selection g)
    = (trace g ++ map Print lines)%list.
Proof.
  unfold start_human_action_selection.
  destruct (human_agents_of (agents g));
    [exists ["No human agents available"]; now gui_norm|].
  exists []. destruct (current_human_agent g); gui_norm;
    now rewrite app_nil_r.
Qed.

(** An event adds printed lines to the trace, and nothing else. *)
Lemma handle_event_prints (event : Event) (g g' : GUI) :
  handle_event max_str_digits event g = Ok g' ->
  exists lines, trace g' = (trace g ++ map Print lines)%list.
Proof.
  assert (Hsame : forall g0 : GUI,
             trace g0 = trace g ->
             exists lines, trace g0 = (trace g ++ map Print lines)%list).
  { intros g0 ->. exists []. now rewrite app_nil_r. }
  destruct event as [|key unicode|button pos|]; cbn [handle_event].
  - intros [= <-]. apply Hsame. now gui_norm.
  - destruct (input_mode g).
    + unfold handle_input_event.
      destruct (key =? K_ESCAPE);
        [intros [= <-]; apply Hsame; now gui_norm|].
      destruct (key =? K_RETURN); [apply process_input_prints|].
      destruct (key =? K_BACKSPACE);
        [intros [= <-]; apply Hsame; now gui_norm|].
      destruct (PyStr.isprintable unicode); intros [= <-]; apply Hsame;
        now gui_norm.
    + intros [= <-]. unfold handle_normal_event, handle_action.
      destruct (key =? K_ESCAPE); [apply Hsame; now gui_norm|].
      destruct (key =? K_p); [apply Hsame; now gui_norm|].
      destruct (key =? K_h); [apply start_human_action_selection_prints|].
      destruct (key =? K_i); [apply Hsame; now gui_norm|].
      destruct (key =? K_QUESTION); [apply Hsame; now gui_norm|].
      destruct (keymap !! key) as [a|]; [|now apply Hsame].
      exists ["Action selected: " ++ a]%string. now gui_norm.
  - destruct (button =? 1); intros [= <-]; [|now apply Hsame].
    unfold handle_mouse_click.
    destruct (button_at (buttons g) pos) as [button_id|];
      [|now apply Hsame].
    unfold handle_button_action, handle_action.
    destruct (String.eqb button_id "pause"); [apply Hsame; now gui_norm|].
    destruct (String.eqb button_id "human_action");
      [apply start_human_action_selection_prints|].
    destruct (String.eqb button_id "help"); [apply Hsame; now gui_norm|].
    destruct (String.eqb button_id "inventory");
      [apply Hsame; now gui_norm|].
    exists ["Action selected: " ++ button_id]%string. now gui_norm.
  - intros [= <-]. now apply Hsame.
Qed.

Lemma render_steps (g g' : GUI) :
  render g = Ok g' ->
  environment_steps (trace g') = environment_steps (trace g)
  /\ current_step g' = current_step g.
Proof.
  unfold render. destruct (max_steps g =? 0); [discriminate|].
  intros [= <-]. gui_norm. rewrite environment_steps_app.
  split; [|reflexivity].
  repeat match goal with
         | |- context [if ?b then _ else _] => destruct b
         end;
    match goal with
    | |- _ + ?e = _ => replace e with 0 by reflexivity
    end; lia.
Qed.

Lemma run_simulation_step_steps (g : GUI) :
  environment_steps (trace (run_simulation_step g)) - environment_steps (trace g)
  = current_step (run_simulation_step g) - current_step g.
Proof.
  destruct (paused g) eqn:Hp; [|destruct (input_mode g) eqn:Hm].
  - rewrite run_simulation_step_gated by now left. lia.
  - rewrite run_simulation_step_gated by now right. lia.
  - destruct (run_simulation_step_ticks g Hp Hm) as (-> & -> & _).
    rewrite !environment_steps_app.
    destruct (snd (tick_world g) || _);
      match goal with
      | |- _ + (?e + ?f) - _ = _ =>
          replace e with 1 by reflexivity;
          replace f with 0 by reflexivity
      end; lia.
Qed.

(** X8. The step counter counts the steps of the environment: in every
    state the program reaches, [current_step] is the number of calls of
    [step_environment] made so far. *)
Theorem current_step_counts_environment_steps (g : GUI) :
  reachable max_str_digits g ->
  environment_steps (trace g) = current_step g.
Proof.
  induction 1 as [ids n m fps | o g g' _ IH Hstep | lines g _ IH].
  - reflexivity.
  - destruct o as [event| |]; cbn [perform] in Hstep.
    + destruct (handle_event_prints _ _ _ Hstep) as [lines ->].
      destruct (handle_event_static _ _ _ _ Hstep)
        as (_ & _ & _ & _ & -> & _).
      rewrite environment_steps_app, environment_steps_prints. lia.
    + injection Hstep as <-.
      pose proof (run_simulation_step_steps g). lia.
    + destruct (render_steps _ _ Hstep) as [-> ->]. exact IH.
  - replace (trace (log (map Print lines) g))
      with (trace g ++ map Print lines)%list by now gui_norm.
    replace (current_step (log (map Print lines) g))
      with (current_step g) by now gui_norm.
    rewrite environment_steps_app, environment_steps_prints. lia.
Qed.

End StepCounter.

Lemma current_step_counts_environment_steps_witness :
  current_step demo_after_three_ticks = 3
  /\ environment_steps (trace demo_after_three_ticks) = 3.
Proof.
  split; [reflexivity|].
  change 3 with (current_step demo_after_three_ticks) at 1.
  apply (current_step_counts_environment_steps (H := countdown) 4300).
  apply (reachable_run_loop (H := countdown) 4300
           [[]; [KEYDOWN K_w "w"]; []] demo).
  - exact (reach_init 4300 [1] 2 5 5).
  - vm_compute. reflexivity.
Defined.

(** ** Exceptions *)

Section Exceptions.

Context `{Collaborators}.
Variable max_str_digits : nat.

Lemma process_input_step_known (g g' : GUI) :
  process_input max_str_digits g = Ok g' ->
  step_is_known g -> step_is_known g'.
Proof.
  intros Hp.
  unfold process_input, assign_current, current_agent, bind in Hp.
  unfold step_is_known, wizard_steps. gui_norm.
  repeat match type of Hp with
         | context [String.eqb ?a ?b] => destruct (String.eqb a b)
         | context [match ?o with Some _ => _ | None => _ end] =>
             destruct o
         end;
    try discriminate; inversion Hp; subst; cbn; tauto.
Qed.

Lemma handle_event_step_known (event : Event) (g g' : GUI) :
  handle_event max_str_digits event g = Ok g' ->
  step_is_known g -> step_is_known g'.
Proof.
  intros Hev Hk.
  destruct (handle_event_cases _ _ _ _ Hev)
    as [(Hw & _) | [-> | [(_ & Hp) | [(_ & field & ->) | (_ & ->)]]]].
  - unfold step_is_known. unfold wizard_state in Hw.
    now injection Hw as _ -> _ _ _.
  - unfold start_human_action_selection.
    destruct (human_agents_of (agents g)); [revert Hk; now gui_norm|].
    right. destruct (current_human_agent g); gui_norm; now left.
  - now apply (process_input_step_known g).
  - revert Hk. now gui_norm.
  - left. now gui_norm.
Qed.

Lemma reachable_step_known (g : GUI) :
  reachable max_str_digits g -> step_is_known g.
Proof.
  induction 1 as [ids n m fps | o g g' _ IH Hstep | lines g _ IH].
  - now left.
  - destruct o as [event| |]; cbn [perform] in Hstep.
    + now apply (handle_event_step_known event g).
    + injection Hstep as <-.
      pose proof (run_simulation_step_wizard_state g) as Hw.
      unfold step_is_known. unfold wizard_state in Hw.
      now injection Hw as _ -> _ _ _.
    + apply render_wizard_state in Hstep.
      unfold step_is_known. unfold wizard_state in Hstep.
      now injection Hstep as _ -> _ _ _.
  - revert IH. now gui_norm.
Qed.

(** X9. [input_type] takes the values its comment lists: in every state
    the program reaches, either the wizard is idle and [input_type] is
    empty, or the wizard is active and [input_type] is one of ['op'],
    ['collect'], ['share'], ['target']. *)
Theorem input_type_is_a_wizard_step (g : GUI) :
  reachable max_str_digits g ->
  (input_mode g = false /\ input_type g = "")
  \/ (input_mode g = true /\ In (input_type g) wizard_steps).
Proof.
  intros Hr.
  destruct (reachable_wizard_invariant _ g Hr) as [[Hto Hfrom] _].
  destruct (reachable_step_known g Hr) as [Hidle | Hstep].
  - left. split; [|assumption].
    destruct (input_mode g); [|reflexivity].
    now destruct (Hto eq_refl).
  - right. split; [|assumption]. apply Hfrom.
    intros Hempty. rewrite Hempty in Hstep. cbn in Hstep.
    intuition discriminate.
Qed.

(** Only a confirm can raise. *)
Lemma handle_event_raises (event : Event) (g : GUI) (x : exception) :
  handle_event max_str_digits event g = Raise x ->
  input_mode g = true
  /\ (exists unicode, event = KEYDOWN K_RETURN unicode)
  /\ process_input max_str_digits g = Raise x.
Proof.
  destruct event as [|key unicode|button pos|]; cbn [handle_event];
    try discriminate.
  - destruct (input_mode g); [|discriminate].
    unfold handle_input_event.
    destruct (key =? K_ESCAPE); [discriminate|].
    destruct (Z.eqb_spec key K_RETURN) as [->|_].
    + intros Hp. split; [reflexivity|]. split; [now exists unicode|].
      assumption.
    + destruct (key =? K_BACKSPACE); [discriminate|].
      destruct (PyStr.isprintable unicode); discriminate.
  - destruct (button =? 1); discriminate.
Qed.

Lemma process_input_raises (g : GUI) (x : exception) :
  process_input max_str_digits g = Raise x ->
  (current_human_agent g = None /\ x = TypeError)
  \/ (exists i,
        current_human_agent g = Some i
        /\ (length (agents g) <= i)%nat /\ x = IndexError).
Proof.
  intros Hp.
  unfold process_input, assign_current, current_agent, bind in Hp.
  gui_norm.
  repeat match type of Hp with
         | context [String.eqb ?a ?b] => destruct (String.eqb a b)
         | context [match ?o with Some _ => _ | None => _ end] =>
             let E := fresh "E" in destruct o eqn:E
         end;
    try discriminate; injection Hp as <-;
    first [ left; split; reflexivity
          | right; eexists; split; [reflexivity|]; split; [|reflexivity];
            match goal with
            | E : _ !! _ = None |- _ =>
                apply lookup_ge_None in E;
                rewrite ?length_insert in E; exact E
            end ].
Qed.

Lemma process_input_out_of_range (g : GUI) (i : nat) :
  In (input_type g) wizard_steps ->
  current_human_agent g = Some i ->
  (length (agents g) <= i)%nat ->
  process_input max_str_digits g = Raise IndexError.
Proof.
  intros Hstep Hcur Hlen. apply lookup_ge_None in Hlen.
  unfold process_input, assign_current, current_agent.
  rewrite Hcur, Hlen.
  cbn in Hstep. destruct Hstep as [<- | [<- | [<- | [<- | []]]]];
    reflexivity.
Qed.

(** X10. What can go wrong with an event. In a state the program reaches,
    handling an event raises if and only if the event is a confirm in the
    wizard and the designated index is past the end of the agent list;
    what is raised then is [IndexError]. Nothing else raises: no other
    key, no press, no cancel, and no confirm ever finds
    [current_human_agent] unset. *)
Theorem only_a_confirm_out_of_range_raises
  (g : GUI) (event : Event) (x : exception) :
  reachable max_str_digits g ->
  handle_event max_str_digits event g = Raise x
  <-> x = IndexError
      /\ (exists unicode, event = KEYDOWN K_RETURN unicode)
      /\ input_mode g = true
      /\ exists i,
           current_human_agent g = Some i
           /\ (length (agents g) <= i)%nat.
Proof.
  intros Hr.
  destruct (reachable_wizard_invariant _ g Hr) as [[Hto _] Hdes].
  split.
  - intros Hev.
    destruct (handle_event_raises _ _ _ Hev) as (Hm & Hconfirm & Hp).
    destruct (process_input_raises _ _ Hp)
      as [[Hnone _] | (i & Hcur & Hlen & ->)].
    + destruct (Hdes Hm) as [i Hi]. congruence.
    + repeat split; try assumption. now exists i.
  - intros (-> & [unicode ->] & Hm & i & Hcur & Hlen).
    rewrite handle_event_confirm by assumption.
    apply process_input_out_of_range with i; try assumption.
    destruct (reachable_step_known g Hr) as [Hidle | Hstep];
      [|assumption].
    now destruct (Hto Hm).
Qed.

(** Events keep the designation inside the list. *)
Lemma handle_event_designation (event : Event) (g g' : GUI) :
  handle_event max_str_digits event g = Ok g' ->
  designation_in_range g -> designation_in_range g'.
Proof.
  intros Hev Hd. unfold designation_in_range in *.
  destruct (handle_event_cases _ _ _ _ Hev)
    as [(Hw & -> & _) | [-> | [(_ & Hp) | [(_ & field & ->) | (_ & ->)]]]].
  - unfold wizard_state in Hw. now injection Hw as _ _ _ _ ->.
  - destruct (start_human_action_selection_frame g)
      as (_ & _ & _ & _ & _ & ->).
    unfold start_human_action_selection.
    destruct (human_agents_of (agents g)) as [|first rest] eqn:Hh;
      [revert Hd; now gui_norm|].
    destruct (current_human_agent g) as [j|] eqn:Hcur.
    + intros i Hi. apply Hd. revert Hi. gui_norm. congruence.
    + intros i Hi.
      assert (i = first) as -> by (revert Hi; gui_norm; congruence).
      destruct (human_agents_of_head _ _ _ Hh) as [Hat _].
      destruct (agents g !! first) as [a|] eqn:Ha; [|discriminate].
      now apply lookup_lt_Some with a.
  - destruct (process_input_frame _ _ _ Hp)
      as (_ & _ & -> & _ & _ & _ & ->). exact Hd.
  - revert Hd. now gui_norm.
  - revert Hd. now gui_norm.
Qed.

Lemma process_input_in_range (g : GUI) (i : nat) :
  current_human_agent g = Some i ->
  (i < length (agents g))%nat ->
  exists g', process_input max_str_digits g = Ok g'.
Proof.
  intros Hcur Hlt.
  destruct (lookup_lt_is_Some_2 _ _ Hlt) as [a Hat].
  destruct (String.eqb_spec (input_type g) "op") as [Hop|Hop];
    [|destruct (String.eqb_spec (input_type g) "collect") as [Hco|Hco];
      [|destruct (String.eqb_spec (input_type g) "share") as [Hsh|Hsh];
        [|destruct (String.eqb_spec (input_type g) "target")
            as [Hta|Hta]]]].
  - rewrite (process_input_op _ g i a) by assumption. eauto.
  - rewrite (process_input_collect _ g i a) by assumption. eauto.
  - rewrite (process_input_share _ g i a) by assumption. eauto.
  - destruct (process_input_target max_str_digits g i a)
      as [line ->]; try assumption. eauto.
  - exists g. unfold process_input.
    apply String.eqb_neq in Hop, Hco, Hsh, Hta.
    now rewrite Hop, Hco, Hsh, Hta.
Qed.

Lemma handle_event_returns (event : Event) (g : GUI) :
  wizard_invariant g ->
  designation_in_range g ->
  exists g', handle_event max_str_digits event g = Ok g'.
Proof.
  intros [_ Hdes] Hd.
  destruct (handle_event max_str_digits event g) as [g'|x] eqn:Hev;
    [eauto|].
  destruct (handle_event_raises _ _ _ Hev) as (Hm & _ & Hp).
  destruct (Hdes Hm) as [i Hi].
  destruct (process_input_in_range g i Hi (Hd i Hi)) as [g' Hok].
  congruence.
Qed.

Lemma run_simulation_step_agents (g : GUI) :
  agents (run_simulation_step g)
  = if ticks g then fst (fst (tick_world g)) else agents g.
Proof.
  unfold run_simulation_step, ticks.
  destruct (paused g || input_mode g); [reflexivity|]. cbn [negb].
  destruct (tick_world g) as [[agents' env'] done]. cbn [fst].
  gui_norm. now destruct (done || _).
Qed.

Lemma reachable_designation (g : GUI) :
  keeps_agent_count ->
  reachable max_str_digits g -> designation_in_range g.
Proof.
  intros Hkeep.
  induction 1 as [ids n m fps | o g g' _ IH Hstep | lines g _ IH].
  - intros i Hi. discriminate.
  - destruct o as [event| |]; cbn [perform] in Hstep.
    + now apply (handle_event_designation event g).
    + injection Hstep as <-. intros i Hi.
      pose proof (run_simulation_step_wizard_state g) as Hw.
      unfold wizard_state in Hw. injection Hw as _ _ _ _ Hcur.
      rewrite Hcur in Hi. specialize (IH i Hi).
      rewrite run_simulation_step_agents.
      destruct (ticks g); [now rewrite Hkeep | assumption].
    + unfold render in Hstep. destruct (max_steps g =? 0); [discriminate|].
      injection Hstep as <-. revert IH. now gui_norm.
  - revert IH. unfold designation_in_range. now gui_norm.
Qed.

(** X11. With simulation modules that keep the number of agents, input
    handling never fails: in every state the program reaches, every event
    is handled without an exception. *)
Theorem events_never_raise_when_agents_stay (g : GUI) (event : Event) :
  keeps_agent_count ->
  reachable max_str_digits g ->
  exists g', handle_event max_str_digits event g = Ok g'.
Proof.
  intros Hkeep Hr. apply handle_event_returns.
  - now apply reachable_wizard_invariant with max_str_digits.
  - now apply reachable_designation.
Qed.

Lemma reachable_perform_all (os : list Operation) :
  forall g g' : GUI,
    reachable max_str_digits g ->
    perform_all max_str_digits os g = Ok g' ->
    reachable max_str_digits g'.
Proof.
  induction os as [|o os IH]; intros g g' Hr; cbn [perform_all].
  - now intros [= <-].
  - destruct (perform max_str_digits o g) as [g1|x] eqn:Hstep;
      [|discriminate].
    cbn [bind]. apply IH.
    now apply (reach_perform max_str_digits o g).
Qed.

End Exceptions.

Lemma countdown_keeps_agent_count : @keeps_agent_count countdown.
Proof. intros g. reflexivity. Defined.

Lemma input_type_is_a_wizard_step_witness :
  input_mode demo_mid_session = true
  /\ In (input_type demo_mid_session) wizard_steps.
Proof.
  destruct (input_type_is_a_wizard_step (H := countdown) 4300
              demo_mid_session demo_mid_session_reachable)
    as [[Hm _] | Hactive].
  - discriminate Hm.
  - exact Hactive.
Defined.

Lemma dropped_in_wizard_reachable :
  @reachable dropping 4300 dropped_in_wizard.
Proof.
  apply (reachable_perform_all (H := dropping) 4300
           [OpEvent (KEYDOWN K_h "h"); OpEvent (KEYDOWN K_ESCAPE ""); OpTick;
            OpEvent (KEYDOWN K_h "h")]
           (@init dropping [1] 2 5)).
  - exact (@reach_init dropping 4300 [1] 2 5 5).
  - vm_compute. reflexivity.
Defined.

(** Over [dropping] the failure is met: the designated agent is agent 1
    and the list has come down to one agent. *)
Lemma only_a_confirm_out_of_range_raises_witness :
  current_human_agent dropped_in_wizard = Some 1%nat
  /\ length (agents dropped_in_wizard) = 1%nat
  /\ (handle_event 4300 confirm dropped_in_wizard = Raise IndexError
      <-> IndexError = IndexError
          /\ (exists unicode, confirm = KEYDOWN K_RETURN unicode)
          /\ input_mode dropped_in_wizard = true
          /\ exists i,
               current_human_agent dropped_in_wizard = Some i
               /\ (length (agents dropped_in_wizard) <= i)%nat)
  /\ handle_event 4300 confirm dropped_in_wizard = Raise IndexError.
Proof.
  split; [vm_compute; reflexivity|]. split; [vm_compute; reflexivity|].
  pose proof (only_a_confirm_out_of_range_raises (H := dropping) 4300
                dropped_in_wizard confirm IndexError
                dropped_in_wizard_reachable) as Hiff.
  split; [exact Hiff|]. vm_compute. reflexivity.
Defined.

Lemma events_never_raise_when_agents_stay_witness :
  exists g', handle_event 4300 confirm demo_mid_session = Ok g'.
Proof.
  exact (events_never_raise_when_agents_stay (H := countdown) 4300
           demo_mid_session confirm countdown_keeps_agent_count
           demo_mid_session_reachable).
Defined.

(** ** The main loop *)

Section MainLoop.

Context `{Collaborators}.
Variable max_str_digits : nat.

Lemma run_simulation_step_static (g : GUI) :
  let g' := run_simulation_step g in
  max_steps g' = max_steps g
  /\ paused g' = paused g
  /\ input_mode g' = input_mode g.
Proof.
  unfold run_simulation_step.
  destruct (paused g || input_mode g); [repeat split|].
  destruct (tick_world g) as [[agents' env'] done].
  gui_norm. now destruct (done || _).
Qed.

Lemma render_static (g g' : GUI) :
  render g = Ok g' ->
  max_steps g <> 0
  /\ max_steps g' = max_steps g
  /\ current_step g' = current_step g
  /\ running g' = running g
  /\ paused g' = paused g
  /\ input_mode g' = input_mode g.
Proof.
  unfold render. destruct (Z.eqb_spec (max_steps g) 0); [discriminate|].
  intros [= <-]. now gui_norm.
Qed.

Lemma render_returns (g : GUI) :
  max_steps g <> 0 -> exists g', render g = Ok g'.
Proof.
  intros Hm. unfold render.
  destruct (Z.eqb_spec (max_steps g) 0); [contradiction | eauto].
Qed.

Lemma handle_events_static (events : list Event) :
  forall g g' : GUI,
    handle_events max_str_digits events g = Ok g' ->
    max_steps g' = max_steps g
    /\ current_step g' = current_step g
    /\ (running g' = true -> running g = true).
Proof.
  induction events as [|event events IH]; intros g g';
    cbn [handle_events].
  - intros [= <-]. auto.
  - destruct (handle_event max_str_digits event g) as [g1|x] eqn:Hev;
      [|discriminate].
    cbn [bind]. intros Hrest.
    destruct (IH _ _ Hrest) as (-> & -> & Hrun).
    destruct (handle_event_static _ _ _ _ Hev)
      as (_ & _ & -> & _ & -> & _).
    repeat split. intros Hr. specialize (Hrun Hr).
    rewrite (handle_event_running _ _ _ _ Hev) in Hrun.
    now apply andb_true_iff in Hrun.
Qed.

Lemma frame_within_step_limit (events : list Event) (g g' : GUI) :
  running g = true ->
  within_step_limit g ->
  frame max_str_digits events g = Ok g' ->
  within_step_limit g' /\ max_steps g' = max_steps g.
Proof.
  intros Hrun [Hbound Hlt]. specialize (Hlt Hrun). unfold frame.
  destruct (handle_events max_str_digits events g) as [g1|x] eqn:Hev;
    [|discriminate].
  cbn [bind]. intros Hrender.
  destruct (handle_events_static _ _ _ Hev) as (Hm1 & Hs1 & _).
  destruct (render_static _ _ Hrender) as (_ & Hm & Hs & Hr & _).
  destruct (run_simulation_step_static g1) as (Hm2 & _).
  unfold within_step_limit. rewrite Hm, Hs, Hr, Hm2, Hm1.
  split; [|reflexivity].
  rewrite run_simulation_step_running. unfold tick_ends, ticks.
  destruct (paused g1) eqn:Hp; [|destruct (input_mode g1) eqn:Hi].
  - rewrite run_simulation_step_gated by now left. split; [lia|]. lia.
  - rewrite run_simulation_step_gated by now right. split; [lia|]. lia.
  - destruct (run_simulation_step_ticks g1 Hp Hi) as (-> & _).
    split; [lia|]. cbn [orb negb andb]. intros Hstill.
    apply andb_true_iff in Hstill. destruct Hstill as [_ Hstill].
    apply negb_true_iff, orb_false_iff in Hstill.
    destruct Hstill as [_ Hstill]. apply Z.leb_gt in Hstill. lia.
Qed.

Lemma run_loop_within_step_limit (frames : list (list Event)) :
  forall g g' : GUI,
    within_step_limit g ->
    run_loop max_str_digits frames g = Ok g' ->
    within_step_limit g' /\ max_steps g' = max_steps g.
Proof.
  induction frames as [|events frames IH]; intros g g' Hg;
    cbn [run_loop]; destruct (running g) eqn:Hrun;
    try (intros [= <-]; now split).
  destruct (frame max_str_digits events g) as [g1|x] eqn:Hf;
    [|discriminate].
  cbn [bind]. intros Hrest.
  destruct (frame_within_step_limit _ _ _ Hrun Hg Hf) as [Hg1 Hm1].
  destruct (IH _ _ Hg1 Hrest) as [Hg' Hm']. split; [assumption|].
  congruence.
Qed.

(** X12. The program never runs more steps than it was asked to: with
    [--step_num] at least 1, whatever the events, the state [main] ends in
    has its step counter between 0 and [step_num]. *)
Theorem main_respects_step_limit
  (args : Args) (frames : list (list Event)) (g : GUI) :
  1 <= arg_step_num args ->
  main max_str_digits args frames = Ok g ->
  0 <= current_step g <= arg_step_num args
  /\ max_steps g = arg_step_num args.
Proof.
  intros Hpos. unfold main, run.
  destruct (parse_human_agent_ids max_str_digits (arg_human_agents args))
    as [ids|x]; [|discriminate].
  cbn [bind].
  match goal with
  | |- context [run_loop _ _ ?g0] =>
      destruct (run_loop max_str_digits frames g0) as [g1|x] eqn:Hloop;
      [|discriminate];
      assert (H0 : within_step_limit g0)
        by (unfold within_step_limit; cbn; lia);
      assert (Hmax : max_steps g0 = arg_step_num args) by reflexivity
  end.
  cbn [bind]. intros [= <-].
  destruct (run_loop_within_step_limit _ _ _ H0 Hloop) as [[Hb _] Hm].
  rewrite Hmax in Hm.
  destruct (running g1); [rewrite <- Hm; split; [exact Hb | reflexivity]|].
  replace (current_step (log [Print "Fixed Advanced GUI closed"] g1))
    with (current_step g1) by now gui_norm.
  replace (max_steps (log [Print "Fixed Advanced GUI closed"] g1))
    with (max_steps g1) by now gui_norm.
  rewrite <- Hm. split; [exact Hb | reflexivity].
Qed.

Lemma run_loop_stopped (frames : list (list Event)) (g : GUI) :
  running g = false -> run_loop max_str_digits frames g = Ok g.
Proof. intros Hr. destruct frames; cbn [run_loop]; now rewrite Hr. Qed.

(** X13. Once the loop has ended nothing more is read: if a run over some
    frames ends with [running] cleared, the same run with any further
    frames appended ends in the same state. *)
Theorem frames_after_the_end_are_not_read
  (frames more : list (list Event)) :
  forall g g' : GUI,
    run_loop max_str_digits frames g = Ok g' ->
    running g' = false ->
    run_loop max_str_digits (frames ++ more) g = Ok g'.
Proof.
  induction frames as [|events frames IH]; intros g g';
    cbn [app run_loop].
  - destruct (running g) eqn:Hrun; intros [= <-] Hstop;
      [congruence | now apply run_loop_stopped].
  - destruct (running g) eqn:Hrun.
    + destruct (frame max_str_digits events g) as [g1|x];
        [|discriminate].
      cbn [bind]. apply IH.
    + intros [= <-] _. reflexivity.
Qed.

(** X14. Left alone, the program ends by itself: from a running state,
    not paused, the wizard idle, with [current_step] below [max_steps],
    a run over frames without any event ends after at most
    [max_steps - current_step] of them, with [running] cleared and at
    least one step taken. *)
Theorem idle_run_ends_within_step_limit (n : nat) :
  forall g : GUI,
    running g = true ->
    paused g = false ->
    input_mode g = false ->
    0 <= current_step g < max_steps g ->
    (Z.to_nat (max_steps g - current_step g) <= n)%nat ->
    exists g',
      run_loop max_str_digits (idle_frames n) g = Ok g'
      /\ running g' = false
      /\ current_step g < current_step g' <= max_steps g.
Proof.
  induction n as [|n IH]; intros g Hrun Hp Hi Hstep Hn; [lia|].
  cbn [idle_frames repeat run_loop]. rewrite Hrun.
  unfold frame. cbn [handle_events bind].
  destruct (run_simulation_step_ticks g Hp Hi)
    as (Hs2 & _ & Hr2 & Hp2 & Hw2).
  destruct (run_simulation_step_static g) as (Hm2 & _ & Hi2).
  destruct (render_returns (run_simulation_step g)) as [g3 Hrender];
    [lia|].
  rewrite Hrender. cbn [bind].
  destruct (render_static _ _ Hrender) as (_ & Hm3 & Hs3 & Hr3 & Hp3 & Hi3).
  fold (idle_frames n).
  destruct (running g3) eqn:Hrun3.
  - assert (Hlt : current_step g + 1 < max_steps g).
    { assert (Hnot : negb (snd (tick_world g)
                           || (max_steps g <=? current_step g + 1))
                     = true)
        by (rewrite Hr2, Hrun in Hr3; now symmetry).
      apply negb_true_iff, orb_false_iff in Hnot.
      destruct Hnot as [_ Hnot]. apply Z.leb_gt in Hnot. lia. }
    destruct (IH g3) as (g' & Hloop & Hstop & Hbound); try congruence.
    + rewrite Hs3, Hs2, Hm3, Hm2. lia.
    + rewrite Hs3, Hs2, Hm3, Hm2. lia.
    + exists g'. split; [assumption|]. split; [assumption|].
      rewrite Hs3, Hs2, Hm3, Hm2 in Hbound. lia.
  - exists g3. split; [now apply run_loop_stopped|]. split; [assumption|].
    rewrite Hs3, Hs2. lia.
Qed.

Lemma handle_events_returns (events : list Event) :
  forall g : GUI,
    wizard_invariant g ->
    designation_in_range g ->
    exists g', handle_events max_str_digits events g = Ok g'.
Proof.
  induction events as [|event events IH]; intros g Hw Hd;
    cbn [handle_events]; [eauto|].
  destruct (handle_event_returns max_str_digits event g Hw Hd)
    as [g1 Hev].
  rewrite Hev. cbn [bind]. apply IH.
  - now apply (perform_wizard_invariant max_str_digits (OpEvent event) g).
  - now apply (handle_event_designation max_str_digits event g).
Qed.

(** X15. A step limit of zero is fatal: with [--step_num 0] and a
    well-formed [--human_agents], [main] raises [ZeroDivisionError] in its
    first frame, whatever the events are: the progress bar divides the
    step counter by [max_steps]. *)
Theorem zero_step_limit_is_fatal
  (args : Args) (events : list Event) (frames : list (list Event))
  (ids : list Z) :
  arg_step_num args = 0 ->
  parse_human_agent_ids max_str_digits (arg_human_agents args) = Ok ids ->
  main max_str_digits args (events :: frames) = Raise ZeroDivisionError.
Proof.
  intros Hzero Hparse. unfold main, run. rewrite Hparse. cbn [bind].
  match goal with
  | |- context [run_loop _ _ ?g0] =>
      assert (Hw : wizard_invariant g0)
        by (unfold wizard_invariant; cbn;
            split; [split; [discriminate | congruence] | discriminate]);
      assert (Hd : designation_in_range g0) by (intros i Hi; discriminate);
      assert (Hm : max_steps g0 = 0) by exact Hzero;
      destruct (handle_events_returns events g0 Hw Hd) as [g1 Hev];
      change (run_loop max_str_digits (events :: frames) g0)
        with (g2 <-! frame max_str_digits events g0;
              run_loop max_str_digits frames g2)
  end.
  unfold frame. rewrite Hev. cbn [bind].
  destruct (handle_events_static _ _ _ Hev) as (Hm1 & _).
  destruct (run_simulation_step_static g1) as (Hm2 & _).
  unfold render. rewrite Hm2, Hm1, Hm. reflexivity.
Qed.

End MainLoop.

Lemma main_respects_step_limit_witness :
  exists g,
    main (H := countdown) 4300 demo_args
      [[]; [KEYDOWN K_p "p"]; []; [QUIT]; []] = Ok g
    /\ 0 <= current_step g <= 5
    /\ max_steps g = 5.
Proof.
  eexists. split; [vm_compute; reflexivity|].
  apply (main_respects_step_limit (H := countdown) 4300 demo_args
           [[]; [KEYDOWN K_p "p"]; []; [QUIT]; []]);
    [vm_compute; discriminate | vm_compute; reflexivity].
Defined.

Lemma frames_after_the_end_are_not_read_witness :
  run_loop 4300 ([[]; [QUIT]] ++ [[KEYDOWN K_h "h"]; []]) demo
  = run_loop 4300 [[]; [QUIT]] demo.
Proof.
  assert (Hrun : exists g',
             run_loop 4300 [[]; [QUIT]] demo = Ok g' /\ running g' = false)
    by (eexists; split; vm_compute; reflexivity).
  destruct Hrun as (g' & Hloop & Hstop). rewrite Hloop.
  exact (frames_after_the_end_are_not_read (H := countdown) 4300
           [[]; [QUIT]] [[KEYDOWN K_h "h"]; []] demo g' Hloop Hstop).
Defined.

Lemma idle_run_ends_within_step_limit_witness :
  exists g',
    run_loop 4300 (idle_frames 7) demo = Ok g'
    /\ running g' = false
    /\ current_step demo < current_step g' <= max_steps demo.
Proof.
  apply (idle_run_ends_within_step_limit (H := countdown) 4300 7 demo);
    try reflexivity.
  - vm_compute. split; [discriminate | reflexivity].
  - vm_compute. lia.
Defined.

Lemma zero_step_limit_is_fatal_witness :
  main (H := countdown) 4300 zero_step_args [[KEYDOWN K_h "h"]; []]
  = Raise ZeroDivisionError.
Proof.
  apply (zero_step_limit_is_fatal (H := countdown) 4300 zero_step_args
           [KEYDOWN K_h "h"] [[]] [1]); reflexivity.
Defined.

(** ** The ids on the command line *)

Section ParsedIds.

Variable max_str_digits : nat.

Lemma digit_value_range (c : ascii) :
  PyStr.isdecimal_char c = true -> 0 <= PyStr.digit_value c <= 9.
Proof.
  destruct c as [[] [] [] [] [] [] [] []]; try discriminate;
    intros _; vm_compute; split; discriminate.
Qed.

Lemma scan_digits_range (s : string) :
  forall (prev : bool) (ds : list Z),
    PyStr.scan_digits prev s = Some ds ->
    Forall (fun d => 0 <= d <= 9) ds.
Proof.
  induction s as [|c s IH]; intros prev ds; cbn [PyStr.scan_digits].
  - destruct prev; [discriminate|]. intros [= <-]. constructor.
  - destruct (Ascii.eqb c "_").
    + destruct prev; [discriminate | apply IH].
    + destruct (PyStr.isdecimal_char c) eqn:Hc; [|discriminate].
      destruct (PyStr.scan_digits false s) as [ds'|] eqn:Hs;
        [|discriminate].
      intros [= <-]. constructor; [now apply digit_value_range|].
      now apply (IH false).
Qed.

Lemma digits_value_nonneg (ds : list Z) :
  Forall (fun d => 0 <= d <= 9) ds -> 0 <= PyStr.digits_value ds.
Proof.
  unfold PyStr.digits_value.
  assert (Hacc : forall acc, 0 <= acc ->
            Forall (fun d => 0 <= d <= 9) ds ->
            0 <= fold_left (fun acc d => 10 * acc + d) ds acc).
  { induction ds as [|d ds IH]; intros acc Hacc Hds; cbn [fold_left];
      [assumption|].
    inversion Hds as [|? ? Hd Hrest]; subst. apply IH; [lia | assumption]. }
  apply Hacc. lia.
Qed.

Lemma int_unsigned_nonneg (s : string) (z : Z) :
  PyStr.int_unsigned max_str_digits s = Ok z -> 0 <= z.
Proof.
  unfold PyStr.int_unsigned. destruct s as [|c s]; [discriminate|].
  destruct (Ascii.eqb c "_"); [discriminate|].
  destruct (PyStr.scan_digits false (String c s)) as [ds|] eqn:Hs;
    [|discriminate].
  destruct (PyStr.too_many_digits max_str_digits ds); [discriminate|].
  intros [= <-]. apply digits_value_nonneg.
  now apply scan_digits_range with (String c s) false.
Qed.

Lemma digit_char_no_sign (c : ascii) :
  PyStr.isdigit_char c = true ->
  PyStr.int_isspace_char c = false
  /\ Ascii.eqb c "+" = false /\ Ascii.eqb c "-" = false.
Proof.
  destruct c as [[] [] [] [] [] [] [] []]; try discriminate;
    intros _; repeat split.
Qed.

(** A token that passes [isdigit] is never read as a negative number. *)
Lemma int_of_isdigit_nonneg (t : string) (z : Z) :
  PyStr.isdigit t = true ->
  PyStr.int max_str_digits t = Ok z ->
  0 <= z.
Proof.
  unfold PyStr.isdigit. destruct t as [|c t]; [discriminate|].
  cbn [PyStr.is_empty negb andb PyStr.forallb_str]. intros Ht.
  apply andb_true_iff in Ht. destruct Ht as [Hc _].
  destruct (digit_char_no_sign c Hc) as (Hsp & Hplus & Hminus).
  unfold PyStr.int, PyStr.strip_with.
  cbn [PyStr.lstrip_with]. rewrite Hsp.
  cbn [PyStr.rstrip_with]. rewrite Hsp. cbn [andb].
  set (body := PyStr.rstrip_with PyStr.int_isspace_char t).
  assert (Hint : forall r : result Z,
            (r = PyStr.int_unsigned max_str_digits (String c body)) ->
            r = Ok z -> 0 <= z).
  { intros r -> Hr. now apply int_unsigned_nonneg with (String c body). }
  apply Ascii.eqb_neq in Hplus, Hminus.
  destruct c as [[] [] [] [] [] [] [] []];
    try (now apply Hint); congruence.
Qed.

Lemma comprehension_nonneg (tokens : list string) :
  forall ids : list Z,
    result_map (fun x => PyStr.int max_str_digits (PyStr.strip x))
      (List.filter (fun x => PyStr.isdigit (PyStr.strip x)) tokens)
    = Ok ids ->
    Forall (fun id => 0 <= id) ids.
Proof.
  induction tokens as [|t tokens IH]; intros ids; cbn [List.filter].
  - intros [= <-]. constructor.
  - destruct (PyStr.isdigit (PyStr.strip t)) eqn:Ht; [|apply IH].
    cbn [result_map].
    destruct (PyStr.int max_str_digits (PyStr.strip t)) as [z|x] eqn:Hz;
      [|discriminate].
    cbn [bind].
    destruct (result_map _ _) as [zs|x] eqn:Hzs; [|discriminate].
    cbn [bind]. intros [= <-]. constructor.
    + now apply int_of_isdigit_nonneg with (PyStr.strip t).
    + now apply IH.
Qed.

(** X16. No negative agent id comes out of the command line: whatever
    string [--human_agents] is, if the parser returns, every id it returns
    is at least 0 (a token with a sign fails the [isdigit] filter). *)
Theorem parsed_ids_are_not_negative (human_agents : string) (ids : list Z) :
  parse_human_agent_ids max_str_digits human_agents = Ok ids ->
  Forall (fun id => 0 <= id) ids.
Proof.
  unfold parse_human_agent_ids.
  destruct (PyStr.falsy (PyStr.strip human_agents)).
  - intros [= <-]. constructor.
  - apply comprehension_nonneg.
Qed.

End ParsedIds.

Lemma parsed_ids_are_not_negative_witness :
  parse_human_agent_ids 4300 "2, -1,+3,0" = Ok [2; 0]
  /\ Forall (fun id => 0 <= id) [2; 0].
Proof.
  assert (Hparse : parse_human_agent_ids 4300 "2, -1,+3,0" = Ok [2; 0])
    by reflexivity.
  split; [exact Hparse|].
  exact (parsed_ids_are_not_negative 4300 "2, -1,+3,0" [2; 0] Hparse).
Defined.

Section CommandLineTokens.

Variable max_str_digits : nat.

Lemma too_many_digits_allowed (ds : list Z) :
  max_str_digits = 0%nat
  \/ (length ds <= Nat.max 640 max_str_digits)%nat ->
  PyStr.too_many_digits max_str_digits ds = false.
Proof.
  unfold PyStr.too_many_digits. intros [-> | Hlen]; [reflexivity|].
  destruct (Nat.ltb_spec 0 max_str_digits); [|reflexivity].
  destruct (Nat.ltb_spec 640 (length ds)); [|reflexivity].
  destruct (Nat.ltb_spec max_str_digits (length ds)); [lia | reflexivity].
Qed.

(** [int] reads a token of decimal digits the digit limit allows as its
    value in base ten. *)
Lemma int_of_decimal_allowed (t : string) :
  all_decimal t = true ->
  digit_limit_allows max_str_digits t ->
  PyStr.int max_str_digits t = Ok (decimal_value t).
Proof.
  unfold all_decimal, digit_limit_allows. intros Ht Hlen.
  apply andb_true_iff in Ht. destruct Ht as [Hne Hdec].
  assert (Hstrip : PyStr.strip_with PyStr.int_isspace_char t = t).
  { apply strip_nothing.
    apply (forallb_str_impl PyStr.isdecimal_char); [|exact Hdec].
    apply decimal_not_space. }
  pose proof (scan_digits_decimal t Hdec) as Hscan.
  assert (Hfew : PyStr.too_many_digits max_str_digits
                   (map PyStr.digit_value (list_ascii_of_string t))
                 = false).
  { apply too_many_digits_allowed.
    now rewrite length_map, length_list_ascii_of_string. }
  unfold PyStr.int. rewrite Hstrip.
  destruct t as [|c t]; [discriminate|].
  cbn in Hdec. apply andb_true_iff in Hdec. destruct Hdec as [Hc _].
  unfold decimal_value.
  destruct c as [[] [] [] [] [] [] [] []]; try discriminate Hc;
    unfold PyStr.int_unsigned;
    cbn [Ascii.eqb Bool.eqb andb]; now rewrite Hscan, Hfew.
Qed.

(** The comprehension over tokens of ASCII characters. *)
Lemma comprehension_ascii_allowed (tokens : list string) :
  Forall (fun t => PyStr.forallb_str is_ascii t = true) tokens ->
  Forall (fun t => all_decimal (PyStr.strip t) = true ->
                   digit_limit_allows max_str_digits (PyStr.strip t))
         tokens ->
  result_map (fun x => PyStr.int max_str_digits (PyStr.strip x))
    (List.filter (fun x => PyStr.isdigit (PyStr.strip x)) tokens)
  = Ok (map decimal_value
          (List.filter all_decimal (map PyStr.strip tokens))).
Proof.
  induction 1 as [|t tokens Hascii _ IH]; intros Hallowed;
    cbn [List.filter map result_map]; [reflexivity|].
  inversion Hallowed as [|? ? Ht Hrest]; subst.
  rewrite (isdigit_ascii (PyStr.strip t))
    by now apply forallb_str_strip.
  destruct (all_decimal (PyStr.strip t)) eqn:Hdec;
    cbn [map result_map]; [|now apply IH].
  rewrite int_of_decimal_allowed, IH; auto.
Qed.

Lemma blank_has_no_comma (s : string) :
  PyStr.forallb_str PyStr.isspace_char s = true ->
  PyStr.split "," s = [s] /\ PyStr.strip s = "".
Proof.
  intros Hs. split.
  - apply split_no_separator.
    apply (forallb_str_impl PyStr.isspace_char); [|exact Hs].
    apply space_not_comma.
  - unfold PyStr.strip, PyStr.strip_with.
    induction s as [|d s IH]; [reflexivity|].
    cbn in Hs. apply andb_true_iff in Hs.
    destruct Hs as [Hd Hs]. cbn. rewrite Hd. now apply IH.
Qed.

(** X20. On a command line of ASCII characters the program does what its
    help text says: provided no token of decimal digits is longer than
    the interpreter's digit limit allows (a limit on each token, not on
    the list), it does not raise and returns
    [parse_human_agent_ids_spec], the decimal values, in order, of the
    comma-separated tokens that are non-empty and all decimal digits
    once trimmed. *)
Theorem parse_human_agent_ids_ascii (human_agents : string) :
  PyStr.forallb_str is_ascii human_agents = true ->
  Forall (fun t => all_decimal (PyStr.strip t) = true ->
                   digit_limit_allows max_str_digits (PyStr.strip t))
         (PyStr.split "," human_agents) ->
  parse_human_agent_ids max_str_digits human_agents
  = Ok (parse_human_agent_ids_spec human_agents).
Proof.
  intros Hascii Hallowed.
  unfold parse_human_agent_ids, parse_human_agent_ids_spec.
  destruct (PyStr.strip human_agents) as [|c rest] eqn:Hstrip;
    cbn [PyStr.falsy PyStr.is_empty].
  - apply strip_empty in Hstrip.
    destruct (blank_has_no_comma _ Hstrip) as [-> Hblank].
    cbn [map List.filter]. now rewrite Hblank.
  - apply comprehension_ascii_allowed; [|exact Hallowed].
    eapply Forall_impl; [now apply (split_tokens is_ascii)|].
    cbn. tauto.
Qed.

End CommandLineTokens.

Lemma parse_human_agent_ids_ascii_witness :
  parse_human_agent_ids 4300 " 0,2 ,x,,7"
  = Ok (parse_human_agent_ids_spec " 0,2 ,x,,7")
  /\ parse_human_agent_ids_spec " 0,2 ,x,,7" = [0; 2; 7].
Proof.
  split; [|reflexivity].
  apply (parse_human_agent_ids_ascii 4300 " 0,2 ,x,,7");
    [reflexivity|].
  do 5 (constructor; [intros _; right; vm_compute; lia|]). constructor.
Defined.

(** ** The actions that can be selected *)

Section SelectedActions.

Context `{Collaborators}.
Variable max_str_digits : nat.

(** [place_plant] is bound to the key [p] and to no other. *)
Lemma keymap_place_plant (key : Z) :
  keymap !! key = Some "place_plant" -> key = K_p.
Proof.
  unfold keymap. intros Hk. apply elem_of_list_to_map_2 in Hk.
  rewrite !elem_of_cons, elem_of_nil in Hk.
  repeat (destruct Hk as [Hk | Hk];
          [first [discriminate Hk | now injection Hk] |]).
  destruct Hk.
Qed.

Lemma selected_is_not_place_plant (a : string) :
  a <> "place_plant" ->
  ~ In "Action selected: place_plant" ["Action selected: " ++ a]%string.
Proof.
  intros Ha [Heq | []]. apply Ha. cbn in Heq. now injection Heq.
Qed.

Lemma process_input_lines (g g' : GUI) :
  process_input max_str_digits g = Ok g' ->
  exists lines,
    trace g' = (trace g ++ map Print lines)%list
    /\ ~ In "Action selected: place_plant" lines.
Proof.
  intros Hp.
  unfold process_input, assign_current, current_agent, bind in Hp.
  gui_norm.
  repeat match type of Hp with
         | context [String.eqb ?a ?b] => destruct (String.eqb a b)
         | context [match ?o with Some _ => _ | None => _ end] =>
             destruct o
         end;
    try discriminate; inversion Hp; subst;
    first [ exists []; split; [now rewrite app_nil_r | intros []]
          | eexists [_]; split; [reflexivity|];
            intros [Heq | []]; cbn in Heq; discriminate Heq ].
Qed.

Lemma start_human_action_selection_lines (g : GUI) :
  exists lines,
    trace (start_human_action_selection g)
    = (trace g ++ map Print lines)%list
    /\ ~ In "Action selected: place_plant" lines.
Proof.
  unfold start_human_action_selection.
  destruct (human_agents_of (agents g)).
  - exists ["No human agents available"]. split; [now gui_norm|].
    intros [Heq | []]. discriminate Heq.
  - exists []. split; [|intros []].
    destruct (current_human_agent g); gui_norm; now rewrite app_nil_r.
Qed.

(** X17. The binding of [place_plant] is dead. [keymap] maps the key [p]
    to ['place_plant'], but [p] is taken by pause before [keymap] is
    consulted, and no button carries that action: with the registry of
    [create_buttons], no event whatever gets
    ['Action selected: place_plant'] printed. *)
Theorem place_plant_is_never_selected (event : Event) (g g' : GUI) :
  buttons g = create_buttons ->
  handle_event max_str_digits event g = Ok g' ->
  keymap !! K_p = Some "place_plant"
  /\ exists lines,
       trace g' = (trace g ++ map Print lines)%list
       /\ ~ In "Action selected: place_plant" lines.
Proof.
  intros Hb Hev. split; [reflexivity|]. revert Hev.
  assert (Hsame : forall g0 : GUI,
             trace g0 = trace g ->
             exists lines,
               trace g0 = (trace g ++ map Print lines)%list
               /\ ~ In "Action selected: place_plant" lines).
  { intros g0 ->. exists []. split; [now rewrite app_nil_r | intros []]. }
  destruct event as [|key unicode|button pos|]; cbn [handle_event].
  - intros [= <-]. apply Hsame. now gui_norm.
  - destruct (input_mode g).
    + unfold handle_input_event.
      destruct (key =? K_ESCAPE);
        [intros [= <-]; apply Hsame; now gui_norm|].
      destruct (key =? K_RETURN); [apply process_input_lines|].
      destruct (key =? K_BACKSPACE);
        [intros [= <-]; apply Hsame; now gui_norm|].
      destruct (PyStr.isprintable unicode); intros [= <-]; apply Hsame;
        now gui_norm.
    + intros [= <-]. unfold handle_normal_event, handle_action.
      destruct (key =? K_ESCAPE); [apply Hsame; now gui_norm|].
      destruct (Z.eqb_spec key K_p) as [_|Hkey];
        [apply Hsame; now gui_norm|].
      destruct (key =? K_h); [apply start_human_action_selection_lines|].
      destruct (key =? K_i); [apply Hsame; now gui_norm|].
      destruct (key =? K_QUESTION); [apply Hsame; now gui_norm|].
      destruct (keymap !! key) as [a|] eqn:Hk; [|now apply Hsame].
      exists ["Action selected: " ++ a]%string. split; [now gui_norm|].
      apply selected_is_not_place_plant. intros ->.
      now apply Hkey, keymap_place_plant.
  - destruct (button =? 1); intros [= <-]; [|now apply Hsame].
    unfold handle_mouse_click. rewrite Hb.
    destruct (button_at create_buttons pos) as [button_id|] eqn:Hat;
      [|now apply Hsame].
    destruct (button_at_sound _ _ _ Hat) as (b & Hin & _).
    unfold handle_button_action, handle_action.
    each_button Hin; cbn [String.eqb Ascii.eqb Bool.eqb];
      first [ apply start_human_action_selection_lines
            | apply Hsame; now gui_norm
            | eexists [_]; split; [now gui_norm|];
              intros [Heq | []]; discriminate Heq ].
  - intros [= <-]. now apply Hsame.
Qed.

End SelectedActions.

Lemma place_plant_is_never_selected_witness :
  keymap !! K_p = Some "place_plant"
  /\ exists lines,
       trace (set_paused true demo) = (trace demo ++ map Print lines)%list
       /\ ~ In "Action selected: place_plant" lines.
Proof.
  exact (place_plant_is_never_selected (H := countdown) 4300
           (KEYDOWN K_p "p") demo (set_paused true demo) eq_refl eq_refl).
Defined.

(** ** Commits and partial sessions *)

Section Commits.

Context `{Collaborators}.
Variable max_str_digits : nat.

Lemma map_insert_same {A B : Type} (f : A -> B) (l : list A) :
  forall (i : nat) (a a' : A),
    l !! i = Some a -> f a' = f a -> map f (<[i := a']> l) = map f l.
Proof.
  induction l as [|b l IH]; intros i a a' Hat Hf; [reflexivity|].
  destruct i as [|i]; cbn in Hat.
  - injection Hat as ->. cbn. now rewrite Hf.
  - cbn. f_equal. now apply IH with a.
Qed.

Lemma process_input_skill_updates (g g' : GUI) :
  process_input max_str_digits g = Ok g' ->
  input_type g <> "target" ->
  map skill_updates (agents g') = map skill_updates (agents g).
Proof.
  intros Hp.
  unfold process_input, assign_current, current_agent, bind in Hp.
  gui_norm.
  repeat match type of Hp with
         | context [String.eqb ?a ?b] => destruct (String.eqb_spec a b)
         | context [match ?o with Some _ => _ | None => _ end] =>
             let E := fresh "E" in destruct o eqn:E
         end;
    try discriminate; inversion Hp; subst; intros Hty;
    try contradiction; try reflexivity;
    match goal with
    | E : _ !! _ = Some ?a |- _ => now apply map_insert_same with a
    end.
Qed.

(** X18. The skill update is called at one place only: an event that is
    not a confirm at the target step calls [update_current_skill] on no
    agent. *)
Theorem skill_update_only_at_target_confirm
  (event : Event) (g g' : GUI) :
  handle_event max_str_digits event g = Ok g' ->
  ~ (input_mode g = true /\ input_type g = "target"
     /\ exists unicode, event = KEYDOWN K_RETURN unicode) ->
  map skill_updates (agents g') = map skill_updates (agents g).
Proof.
  intros Hev Hnot.
  destruct (handle_event_cases _ _ _ _ Hev)
    as [(_ & -> & _) | [-> | [(Hm & Hp) | [(_ & field & ->) | (_ & ->)]]]].
  - reflexivity.
  - now destruct (start_human_action_selection_frame g)
      as (_ & _ & _ & _ & _ & ->).
  - destruct (String.eqb_spec (input_type g) "target") as [Hta|Hta];
      [|now apply process_input_skill_updates].
    destruct event as [|key unicode|button pos|].
    + cbn in Hev. injection Hev as <-.
      now gui_norm.
    + destruct (Z.eqb_spec key K_RETURN) as [->|Hkey].
      * destruct Hnot. repeat split; try assumption. now exists unicode.
      * cbn [handle_event] in Hev. rewrite Hm in Hev.
        unfold handle_input_event in Hev.
        apply Z.eqb_neq in Hkey. rewrite Hkey in Hev.
        destruct (key =? K_ESCAPE); [injection Hev as <-; now gui_norm|].
        destruct (key =? K_BACKSPACE);
          [injection Hev as <-; now gui_norm|].
        destruct (PyStr.isprintable unicode); injection Hev as <-;
          now gui_norm.
    + cbn [handle_event] in Hev.
      destruct (button =? 1); injection Hev as <-; [|reflexivity].
      unfold handle_mouse_click.
      destruct (button_at (buttons g) pos); [|reflexivity].
      now destruct (handle_button_action_static s g)
        as (_ & _ & _ & _ & _ & _ & _ & ->).
    + cbn in Hev. now injection Hev as <-.
  - now gui_norm.
  - now gui_norm.
Qed.

(** X19. Cancelling does not take back what was confirmed. A session that
    is cancelled after its first confirm leaves the agent with the
    confirmed operation and, for the rest, as it was: the other three
    fields keep their old values and no skill update has been made. *)
Theorem cancel_keeps_confirmed_operation
  (g : GUI) (entry : Event) (i : nat) (a : Agent)
  (k1 k2 : list (Z * string)) (unicode : string) :
  triggers_entry g entry ->
  wizard_target g = Some i ->
  agents g !! i = Some a ->
  is_human a = true ->
  Forall is_edit_key k1 -> Forall is_edit_key k2 ->
  exists g',
    handle_events max_str_digits
      ([entry] ++ (typing k1 ++ [confirm])
       ++ (typing k2 ++ [KEYDOWN K_ESCAPE unicode])) g
    = Ok g'
    /\ input_mode g' = false
    /\ input_type g' = ""
    /\ agents g'
       = <[i := set_op (or_default (PyStr.strip (typed k1)) "noop") a]>
           (agents g).
Proof.
  intros Hentry Htarget Hat Hhuman H1 H2.
  destruct (start_human_action_selection_enters g i) as [prompt Hstart];
    [now apply human_agents_of_nonempty with i a | assumption |].
  cbn [app handle_events]. rewrite (handle_event_entry _ g entry Hentry).
  cbn [bind]. rewrite Hstart. clear Hstart.
  rewrite handle_events_app, handle_events_type_and_confirm;
    [|now gui_norm|now gui_norm|assumption].
  rewrite (process_input_op _ _ i a);
    [|now gui_norm|now gui_norm|now gui_norm].
  cbn [bind].
  rewrite handle_events_app, handle_events_typing;
    [|now gui_norm|assumption].
  cbn [bind handle_events handle_event].
  match goal with
  | |- context [if input_mode ?g2 then _ else _] =>
      replace (input_mode g2) with true by now gui_norm
  end.
  unfold handle_input_event. cbn [Z.eqb Pos.eqb K_ESCAPE bind].
  eexists. split; [reflexivity|]. now gui_norm.
Qed.

End Commits.

Lemma skill_update_only_at_target_confirm_witness :
  map skill_updates (agents demo_at_share_typed)
  = map skill_updates (agents demo_mid_session).
Proof.
  apply (skill_update_only_at_target_confirm (H := countdown) 4300
           confirm demo_mid_session demo_at_share_typed).
  - vm_compute. reflexivity.
  - intros (_ & Hty & _). vm_compute in Hty. discriminate Hty.
Defined.

Lemma cancel_keeps_confirmed_operation_witness :
  exists g',
    handle_events 4300
      ([KEYDOWN K_h "h"] ++ (typing navigator_keys ++ [confirm])
       ++ (typing [(119, "w")] ++ [KEYDOWN K_ESCAPE ""])) demo
    = Ok g'
    /\ input_mode g' = false
    /\ input_type g' = ""
    /\ agents g'
       = <[1%nat := set_op "Navigator" (fresh_agent true)]> (agents demo).
Proof.
  apply (cancel_keeps_confirmed_operation (H := countdown) 4300 demo
           (KEYDOWN K_h "h") 1 (fresh_agent true) navigator_keys
           [(119, "w")] "");
    try reflexivity;
    try (apply entry_by_key; reflexivity);
    repeat constructor; discriminate.
Defined.

(** ** Printing and reading integers *)

Section Decimal.

Variable max_str_digits : nat.

(** The digits [str] writes are decimal characters, and reading them
    left to right computes the number written. *)
Lemma string_of_uint_decimal (u : Decimal.uint) :
  PyStr.forallb_str PyStr.isdecimal_char (NilEmpty.string_of_uint u) = true.
Proof. induction u; cbn; try assumption; reflexivity. Qed.

Lemma fold_digits_of_uint_acc (u : Decimal.uint) :
  forall acc : positive,
    fold_left (fun acc d => 10 * acc + d)
      (map PyStr.digit_value
         (list_ascii_of_string (NilEmpty.string_of_uint u)))
      (Z.pos acc)
    = Z.pos (Pos.of_uint_acc u acc).
Proof.
  induction u as [|u IH|u IH|u IH|u IH|u IH|u IH|u IH|u IH|u IH|u IH];
    intros acc; [reflexivity|..];
    cbn [NilEmpty.string_of_uint list_ascii_of_string map fold_left
         Pos.of_uint_acc];
    rewrite <- IH; f_equal;
    match goal with
    | |- context [PyStr.digit_value ?c] =>
        let v := eval vm_compute in (PyStr.digit_value c) in
        change (PyStr.digit_value c) with v
    end; lia.
Qed.

Lemma fold_digits_of_uint (u : Decimal.uint) :
  fold_left (fun acc d => 10 * acc + d)
    (map PyStr.digit_value
       (list_ascii_of_string (NilEmpty.string_of_uint u)))
    0
  = Z.of_N (Pos.of_uint u).
Proof.
  induction u as [|u IH|u IH|u IH|u IH|u IH|u IH|u IH|u IH|u IH|u IH];
    [reflexivity|exact IH|..];
    cbn [NilEmpty.string_of_uint list_ascii_of_string map fold_left
         Pos.of_uint Z.of_N];
    rewrite <- fold_digits_of_uint_acc; f_equal.
Qed.

Lemma string_of_uint_not_empty (u : Decimal.uint) :
  u <> Decimal.Nil -> PyStr.is_empty (NilEmpty.string_of_uint u) = false.
Proof. destruct u; [contradiction|..]; reflexivity. Qed.

Lemma string_of_pos (p : positive) :
  PyStr.str_of_Z (Z.pos p) = NilEmpty.string_of_uint (Pos.to_uint p)
  /\ all_decimal (PyStr.str_of_Z (Z.pos p)) = true
  /\ decimal_value (PyStr.str_of_Z (Z.pos p)) = Z.pos p.
Proof.
  assert (Hstr : PyStr.str_of_Z (Z.pos p)
                 = NilEmpty.string_of_uint (Pos.to_uint p)).
  { unfold PyStr.str_of_Z. cbn [Z.to_int NilZero.string_of_int].
    unfold NilZero.string_of_uint.
    pose proof (Unsigned.to_uint_nonnil p). now destruct (Pos.to_uint p). }
  split; [exact Hstr|]. rewrite Hstr. split.
  - unfold all_decimal.
    rewrite string_of_uint_not_empty by apply Unsigned.to_uint_nonnil.
    apply string_of_uint_decimal.
  - unfold decimal_value, PyStr.digits_value.
    now rewrite fold_digits_of_uint, Unsigned.of_to.
Qed.

Lemma int_unsigned_of_decimal (t : string) :
  all_decimal t = true ->
  max_str_digits = 0%nat \/ (String.length t <= max_str_digits)%nat ->
  PyStr.int_unsigned max_str_digits t = Ok (decimal_value t).
Proof.
  unfold all_decimal. intros Ht Hlen.
  apply andb_true_iff in Ht. destruct Ht as [Hne Hdec].
  unfold PyStr.int_unsigned. destruct t as [|c t]; [discriminate|].
  rewrite (scan_digits_decimal _ Hdec).
  rewrite too_many_digits_within
    by now rewrite length_map, length_list_ascii_of_string.
  cbn in Hdec. apply andb_true_iff in Hdec. destruct Hdec as [Hc _].
  destruct (Ascii.eqb_spec c "_") as [->|_]; [discriminate|reflexivity].
Qed.

Lemma decimal_or_minus_not_space (s : string) :
  PyStr.forallb_str PyStr.isdecimal_char s = true ->
  PyStr.forallb_str (fun c => negb (PyStr.int_isspace_char c)) s = true
  /\ PyStr.forallb_str (fun c => negb (PyStr.isspace_char c)) s = true.
Proof.
  intros Hs. split;
    apply (forallb_str_impl PyStr.isdecimal_char); try exact Hs;
    intros c; destruct c as [[] [] [] [] [] [] [] []];
    try discriminate; reflexivity.
Qed.

(** [int(str(z)) == z] *)
Lemma int_of_str (z : Z) :
  max_str_digits = 0%nat
  \/ (String.length (PyStr.str_of_Z z) <= max_str_digits)%nat ->
  PyStr.strip (PyStr.str_of_Z z) = PyStr.str_of_Z z
  /\ PyStr.int max_str_digits (PyStr.str_of_Z z) = Ok z.
Proof.
  intros Hlen. destruct z as [|p|p].
  - split; [reflexivity|].
    unfold PyStr.int. cbn. unfold PyStr.too_many_digits.
    now destruct max_str_digits.
  - destruct (string_of_pos p) as (_ & Hdec & Hval).
    pose proof Hdec as Hall. unfold all_decimal in Hall.
    apply andb_true_iff in Hall. destruct Hall as [_ Hall].
    destruct (decimal_or_minus_not_space _ Hall) as [_ Hsp]. split.
    + now apply strip_nothing.
    + now rewrite int_of_decimal, Hval.
  - destruct (string_of_pos p) as (Hstr & Hdec & Hval).
    assert (Hneg : PyStr.str_of_Z (Z.neg p)
                   = String "-" (PyStr.str_of_Z (Z.pos p))).
    { rewrite Hstr. unfold PyStr.str_of_Z.
      cbn [Z.to_int NilZero.string_of_int]. unfold NilZero.string_of_uint.
      pose proof (Unsigned.to_uint_nonnil p).
      now destruct (Pos.to_uint p). }
    pose proof Hdec as Hall. unfold all_decimal in Hall.
    apply andb_true_iff in Hall. destruct Hall as [_ Hall].
    destruct (decimal_or_minus_not_space _ Hall) as [Hisp Hsp].
    rewrite Hneg in *. split.
    + apply strip_nothing. cbn [PyStr.forallb_str]. now rewrite Hsp.
    + unfold PyStr.int. rewrite strip_nothing
        by (cbn [PyStr.forallb_str]; now rewrite Hisp).
      rewrite int_unsigned_of_decimal; [|exact Hdec|].
      * cbn [bind]. now rewrite Hval.
      * destruct Hlen as [-> | Hlen]; [now left | right].
        cbn [String.length] in Hlen. lia.
Qed.

End Decimal.

Section RoundTrips.

Context `{Collaborators}.
Variable max_str_digits : nat.

(** X21. The target step reads back what [str] prints: whatever integer
    the buffer spells in decimal, negative or beyond the number of agents,
    a confirm at the target step stores exactly that integer as
    [target_agent_id]; there is no range check. *)
Theorem target_step_accepts_every_integer
  (g : GUI) (i : nat) (a : Agent) (unicode : string) (z : Z) :
  input_mode g = true ->
  input_type g = "target" ->
  current_human_agent g = Some i ->
  agents g !! i = Some a ->
  input_field g = PyStr.str_of_Z z ->
  max_str_digits = 0%nat
  \/ (String.length (PyStr.str_of_Z z) <= max_str_digits)%nat ->
  exists g',
    handle_event max_str_digits (KEYDOWN K_RETURN unicode) g = Ok g'
    /\ target_agent_id <$> agents g' !! i = Some z.
Proof.
  intros Hm Hty Hcur Hat Hfield Hlen.
  pose proof (lookup_lt_Some _ _ _ Hat) as Hlt.
  rewrite handle_event_confirm by assumption.
  destruct (process_input_target max_str_digits g i a) as [line ->];
    try assumption.
  eexists. split; [reflexivity|].
  assert (Hz : parse_target max_str_digits (input_field g) = z).
  { unfold parse_target. rewrite Hfield.
    destruct (int_of_str max_str_digits z Hlen) as [-> ->]. reflexivity. }
  rewrite Hz. gui_norm. now rewrite list_lookup_insert_eq.
Qed.

End RoundTrips.

Section CommandLineRoundTrip.

Variable max_str_digits : nat.

Lemma split_app_separator (sep : ascii) (t rest : string) :
  PyStr.forallb_str (fun c => negb (Ascii.eqb c sep)) t = true ->
  PyStr.split sep (t ++ String sep rest) = t :: PyStr.split sep rest.
Proof.
  induction t as [|c t IH]; intros Ht.
  - change ("" ++ String sep rest)%string with (String sep rest).
    cbn [PyStr.split]. now rewrite Ascii.eqb_refl.
  - cbn [PyStr.forallb_str] in Ht. apply andb_true_iff in Ht.
    destruct Ht as [Hc Ht]. apply negb_true_iff in Hc.
    change (String c t ++ String sep rest)%string
      with (String c (t ++ String sep rest)).
    cbn [PyStr.split]. now rewrite Hc, IH.
Qed.

(** [sep.join(ts).split(sep) == ts], for tokens without the separator. *)
Lemma split_concat (sep : ascii) (ts : list string) :
  ts <> [] ->
  Forall (fun t =>
            PyStr.forallb_str (fun c => negb (Ascii.eqb c sep)) t = true)
         ts ->
  PyStr.split sep (String.concat (String sep "") ts) = ts.
Proof.
  induction ts as [|t ts IH]; intros Hne Hts; [contradiction|].
  inversion Hts as [|? ? Ht Hrest]; subst.
  destruct ts as [|t' ts].
  - cbn [String.concat]. now apply split_no_separator.
  - change (String.concat (String sep "") (t :: t' :: ts))
      with (t ++ String sep (String.concat (String sep "") (t' :: ts)))%string.
    rewrite split_app_separator by assumption.
    f_equal. now apply IH.
Qed.

Lemma str_of_nonneg (z : Z) :
  0 <= z -> all_decimal (PyStr.str_of_Z z) = true.
Proof.
  destruct z as [|p|p]; [reflexivity | | lia]. intros _.
  now destruct (string_of_pos p) as (_ & Hdec & _).
Qed.

Lemma decimal_not_comma_nor_space (t : string) :
  all_decimal t = true ->
  PyStr.forallb_str (fun c => negb (Ascii.eqb c ",")) t = true
  /\ PyStr.forallb_str is_ascii t = true
  /\ PyStr.strip t = t
  /\ PyStr.is_empty (PyStr.strip t) = false.
Proof.
  unfold all_decimal. intros Ht. apply andb_true_iff in Ht.
  destruct Ht as [Hne Hdec].
  assert (Hstrip : PyStr.strip t = t).
  { apply strip_nothing.
    now destruct (decimal_or_minus_not_space _ Hdec). }
  repeat split.
  - apply (forallb_str_impl PyStr.isdecimal_char); [|exact Hdec].
    intros c. destruct c as [[] [] [] [] [] [] [] []];
      try discriminate; reflexivity.
  - apply (forallb_str_impl PyStr.isdecimal_char); [|exact Hdec].
    intros c. destruct c as [[] [] [] [] [] [] [] []];
      try discriminate; reflexivity.
  - exact Hstrip.
  - rewrite Hstrip. now apply negb_true_iff.
Qed.

Lemma comprehension_of_printed (ids : list Z) :
  Forall (fun id => 0 <= id) ids ->
  max_str_digits = 0%nat
  \/ Forall (fun id =>
               (String.length (PyStr.str_of_Z id) <= max_str_digits)%nat)
            ids ->
  result_map (fun x => PyStr.int max_str_digits (PyStr.strip x))
    (List.filter (fun x => PyStr.isdigit (PyStr.strip x))
       (map PyStr.str_of_Z ids))
  = Ok ids.
Proof.
  induction 1 as [|id ids Hid _ IH]; intros Hlen; [reflexivity|].
  cbn [map List.filter].
  pose proof (str_of_nonneg id Hid) as Hdec.
  destruct (decimal_not_comma_nor_space _ Hdec) as (_ & Hascii & Hstrip & _).
  rewrite Hstrip, (isdigit_ascii _ Hascii), Hdec. cbn [result_map].
  assert (Hone : max_str_digits = 0%nat
                 \/ (String.length (PyStr.str_of_Z id)
                     <= max_str_digits)%nat).
  { destruct Hlen as [-> | Hlen]; [now left | right].
    now inversion Hlen. }
  destruct (int_of_str max_str_digits id Hone) as [_ Hint].
  cbv beta. rewrite Hstrip, Hint. cbn [bind].
  rewrite IH; [reflexivity|].
  destruct Hlen as [-> | Hlen]; [now left | right]. now inversion Hlen.
Qed.

Lemma concat_starts_with_digit (ids : list Z) :
  ids <> [] ->
  Forall (fun id => 0 <= id) ids ->
  exists c rest,
    String.concat "," (map PyStr.str_of_Z ids) = String c rest
    /\ PyStr.isspace_char c = false.
Proof.
  intros Hne Hids. destruct ids as [|id ids]; [contradiction|].
  inversion Hids as [|? ? Hid _]; subst.
  pose proof (str_of_nonneg id Hid) as Hdec.
  unfold all_decimal in Hdec. apply andb_true_iff in Hdec.
  destruct Hdec as [Hne' Hdec].
  destruct (PyStr.str_of_Z id) as [|c t] eqn:Hstr; [discriminate|].
  cbn [PyStr.forallb_str] in Hdec. apply andb_true_iff in Hdec.
  destruct Hdec as [Hc _].
  assert (Hsp : PyStr.isspace_char c = false).
  { destruct c as [[] [] [] [] [] [] [] []]; try discriminate;
      reflexivity. }
  cbn [map]. rewrite Hstr.
  destruct ids as [|id' ids]; cbn [map String.concat String.append]; eauto.
Qed.

(** X22. Ids written out are read back: for every list of non-negative
    ids, the ids printed in decimal and joined by commas (the form the
    help text shows, ["0,2"]) are parsed to that very list, in order;
    the empty list is written as the empty string. *)
Theorem human_agents_round_trip (ids : list Z) :
  Forall (fun id => 0 <= id) ids ->
  max_str_digits = 0%nat
  \/ Forall (fun id =>
               (String.length (PyStr.str_of_Z id) <= max_str_digits)%nat)
            ids ->
  parse_human_agent_ids max_str_digits
    (String.concat "," (map PyStr.str_of_Z ids))
  = Ok ids.
Proof.
  intros Hids Hlen. unfold parse_human_agent_ids.
  destruct ids as [|id ids]; [reflexivity|].
  destruct (concat_starts_with_digit (id :: ids)) as (c & rest & Hc & Hsp);
    [discriminate | assumption |].
  assert (Hfalsy : PyStr.falsy
                     (PyStr.strip
                        (String.concat "," (map PyStr.str_of_Z (id :: ids))))
                   = false).
  { rewrite Hc. unfold PyStr.strip, PyStr.strip_with.
    cbn [PyStr.lstrip_with]. rewrite Hsp.
    cbn [PyStr.rstrip_with]. now rewrite Hsp. }
  rewrite Hfalsy, split_concat.
  - now apply comprehension_of_printed.
  - discriminate.
  - clear -Hids. induction Hids as [|z zs Hz _ IH]; constructor.
    + now destruct (decimal_not_comma_nor_space _ (str_of_nonneg z Hz)).
    + exact IH.
Qed.

End CommandLineRoundTrip.

Lemma target_step_accepts_every_integer_witness :
  exists g',
    handle_event 4300 confirm demo_at_target_minus_seven = Ok g'
    /\ target_agent_id <$> agents g' !! 1%nat = Some (-7).
Proof.
  apply (target_step_accepts_every_integer (H := countdown) 4300
           demo_at_target_minus_seven 1
           (set_rss_to_share "not_applicable"
              (set_rss_to_collect "not_applicable"
                 (set_op "noop" (fresh_agent true))))
           (String "013" "") (-7));
    try (vm_compute; reflexivity).
  right. vm_compute. lia.
Defined.

Lemma human_agents_round_trip_witness :
  String.concat "," (map PyStr.str_of_Z [0; 2; 10]) = "0,2,10"
  /\ parse_human_agent_ids 4300 "0,2,10" = Ok [0; 2; 10].
Proof.
  split; [reflexivity|].
  change "0,2,10" with (String.concat "," (map PyStr.str_of_Z [0; 2; 10])).
  apply (human_agents_round_trip 4300 [0; 2; 10]).
  - do 3 (constructor; [discriminate|]). constructor.
  - right. do 3 (constructor; [vm_compute; lia|]). constructor.
Defined.

Section FrameSteps.

Context `{Collaborators}.
Variable max_str_digits : nat.

Lemma handle_events_prints (events : list Event) :
  forall g g' : GUI,
    handle_events max_str_digits events g = Ok g' ->
    fps g' = fps g
    /\ exists lines, trace g' = (trace g ++ map Print lines)%list.
Proof.
  induction events as [|event events IH]; intros g g';
    cbn [handle_events].
  - intros [= <-]. split; [reflexivity|]. exists [].
    cbn [map]. now rewrite app_nil_r.
  - destruct (handle_event max_str_digits event g) as [g1|x] eqn:Hev;
      [|discriminate].
    cbn [bind]. intros Hrest.
    destruct (IH _ _ Hrest) as (-> & lines2 & ->).
    destruct (handle_event_prints _ _ _ _ Hev) as [lines1 ->].
    destruct (handle_event_static _ _ _ _ Hev)
      as (_ & _ & _ & _ & _ & -> & _).
    split; [reflexivity|]. exists (lines1 ++ lines2)%list.
    now rewrite map_app, app_assoc.
Qed.

(** X23. One pass of the main loop steps the environment exactly once
    when it ends neither paused nor in the wizard, and not at all
    otherwise, however many events the pass handled and even when one of
    them asked to quit. *)
Theorem frame_steps_environment_once
  (events : list Event) (g g' : GUI) :
  frame max_str_digits events g = Ok g' ->
  environment_steps (trace g')
  = environment_steps (trace g)
    + (if paused g' || input_mode g' then 0 else 1).
Proof.
  unfold frame.
  destruct (handle_events max_str_digits events g) as [g1|x] eqn:Hev;
    [|discriminate].
  cbn [bind]. intros Hrender.
  destruct (handle_events_prints _ _ _ Hev) as (_ & lines & Htrace).
  destruct (render_static _ _ Hrender) as (_ & _ & _ & _ & -> & ->).
  destruct (render_steps _ _ Hrender) as [-> _].
  destruct (run_simulation_step_static g1) as (_ & -> & ->).
  assert (Hg1 : environment_steps (trace g1) = environment_steps (trace g)).
  { rewrite Htrace, environment_steps_app, environment_steps_prints. lia. }
  destruct (paused g1) eqn:Hp; [|destruct (input_mode g1) eqn:Hm];
    cbn [orb].
  - rewrite run_simulation_step_gated by now left. lia.
  - rewrite run_simulation_step_gated by now right. lia.
  - destruct (run_simulation_step_ticks g1 Hp Hm) as (_ & -> & _).
    rewrite !environment_steps_app.
    destruct (snd (tick_world g1) || _);
      match goal with
      | |- _ + (?e + ?f) = _ =>
          replace e with 1 by reflexivity;
          replace f with 0 by reflexivity
      end; lia.
Qed.

End FrameSteps.

Section Pacing.

Context `{Collaborators}.
Variable max_str_digits : nat.

Lemma paced_at_prints (rate : Z) (lines : list string) :
  Forall (paced_at rate) (map Print lines).
Proof. induction lines; constructor; [exact I | assumption]. Qed.

Lemma frames_shown_app (t u : list Effect) :
  frames_shown (t ++ u) = (frames_shown t + frames_shown u)%nat.
Proof. unfold frames_shown. now rewrite List.filter_app, length_app. Qed.

Lemma frames_shown_prints (lines : list string) :
  frames_shown (map Print lines) = 0%nat.
Proof. induction lines as [|l lines IH]; [reflexivity | exact IH]. Qed.

Lemma run_simulation_step_paced (g : GUI) :
  fps (run_simulation_step g) = fps g
  /\ exists added,
      trace (run_simulation_step g) = (trace g ++ added)%list
      /\ Forall (paced_at (fps g)) added
      /\ frames_shown added = 0%nat.
Proof.
  unfold run_simulation_step.
  destruct (paused g || input_mode g).
  - split; [reflexivity|]. exists []. rewrite app_nil_r.
    repeat split. constructor.
  - destruct (tick_world g) as [[agents' env'] done].
    destruct (done || _); gui_norm; (split; [reflexivity|]).
    + eexists. split; [now rewrite <- app_assoc|].
      split; [repeat constructor | reflexivity].
    + eexists. split; [reflexivity|].
      split; [repeat constructor | reflexivity].
Qed.

Lemma render_paced (g g' : GUI) :
  render g = Ok g' ->
  fps g' = fps g
  /\ exists added,
      trace g' = (trace g ++ added)%list
      /\ Forall (paced_at (fps g)) added
      /\ frames_shown added = 1%nat.
Proof.
  unfold render. destruct (max_steps g =? 0); [discriminate|].
  intros [= <-]. gui_norm. split; [reflexivity|].
  eexists. split; [reflexivity|].
  repeat match goal with
         | |- context [if ?b then _ else _] => destruct b
         end;
    (split; [repeat constructor | reflexivity]).
Qed.

Lemma frame_paced (events : list Event) (g g' : GUI) :
  frame max_str_digits events g = Ok g' ->
  fps g' = fps g
  /\ exists added,
      trace g' = (trace g ++ added)%list
      /\ Forall (paced_at (fps g)) added
      /\ frames_shown added = 1%nat.
Proof.
  unfold frame.
  destruct (handle_events max_str_digits events g) as [g1|x] eqn:Hev;
    [|discriminate].
  cbn [bind]. intros Hrender.
  destruct (handle_events_prints _ _ _ _ Hev) as (Hf1 & lines & Ht1).
  destruct (run_simulation_step_paced g1) as (Hf2 & added2 & Ht2 & Hp2 & Hn2).
  destruct (render_paced _ _ Hrender) as (Hf3 & added3 & Ht3 & Hp3 & Hn3).
  rewrite Hf2, Hf1 in Hf3. rewrite Hf2, Hf1 in Hp3. rewrite Hf1 in Hp2.
  split; [exact Hf3|].
  exists (map Print lines ++ added2 ++ added3)%list.
  split; [now rewrite Ht3, Ht2, Ht1, <- !app_assoc|].
  split.
  - apply Forall_app. split; [apply paced_at_prints|].
    apply Forall_app. now split.
  - rewrite !frames_shown_app, frames_shown_prints. lia.
Qed.

Lemma run_loop_paced (frames : list (list Event)) :
  forall g g' : GUI,
    run_loop max_str_digits frames g = Ok g' ->
    fps g' = fps g
    /\ exists added,
        trace g' = (trace g ++ added)%list
        /\ Forall (paced_at (fps g)) added
        /\ (frames_shown added <= length frames)%nat
        /\ (running g' = true -> frames_shown added = length frames).
Proof.
  induction frames as [|events frames IH]; intros g g' Hloop.
  - assert (g' = g) as ->.
    { cbn [run_loop] in Hloop. destruct (running g); now inversion Hloop. }
    split; [reflexivity|]. exists []. rewrite app_nil_r.
    repeat split; [constructor | reflexivity].
  - cbn [run_loop] in Hloop. destruct (running g) eqn:Hrun.
    + destruct (frame max_str_digits events g) as [g1|x] eqn:Hframe;
        [|discriminate].
      cbn [bind] in Hloop.
      destruct (frame_paced _ _ _ Hframe) as (Hf1 & added1 & Ht1 & Hp1 & Hn1).
      destruct (IH _ _ Hloop) as (Hf2 & added2 & Ht2 & Hp2 & Hn2 & Hall).
      rewrite Hf1 in Hf2, Hp2. split; [exact Hf2|].
      exists (added1 ++ added2)%list.
      split; [now rewrite Ht2, Ht1, <- app_assoc|].
      split; [apply Forall_app; now split|].
      rewrite frames_shown_app. cbn [length].
      split; [lia|]. intros Hr. specialize (Hall Hr). lia.
    + injection Hloop as <-. split; [reflexivity|]. exists [].
      rewrite app_nil_r.
      repeat split; [constructor | cbn; lia | congruence].
Qed.

(** X24. The frame rate of the command line paces every frame: in a run
    of [main], every call of [clock.tick] is made with [--fps] (never with
    the constructor's own 5); no more frames are shown than there are
    batches of events, and exactly one per batch when the run is still
    going at the end. *)
Theorem every_frame_is_paced_at_requested_rate
  (args : Args) (frames : list (list Event)) (g : GUI) :
  main max_str_digits args frames = Ok g ->
  fps g = arg_fps args
  /\ Forall (paced_at (arg_fps args)) (trace g)
  /\ (frames_shown (trace g) <= length frames)%nat
  /\ (running g = true -> frames_shown (trace g) = length frames).
Proof.
  unfold main.
  destruct (parse_human_agent_ids max_str_digits (arg_human_agents args))
    as [ids|x]; [|discriminate].
  cbn [bind]. unfold run.
  match goal with
  | |- context [run_loop max_str_digits frames ?g0] =>
      set (start := g0);
      destruct (run_loop max_str_digits frames start) as [g1|x] eqn:Hloop;
      [|discriminate]
  end.
  cbn [bind]. intros [= <-].
  destruct (run_loop_paced _ _ _ Hloop)
    as (Hf & added & Ht & Hp & Hn & Hall).
  assert (Hfps : fps start = arg_fps args) by reflexivity.
  assert (Hstart : exists lines, trace start = map Print lines).
  { eexists [_; _; _; _; _; _; _; _; _; _; _].
    subst start. cbn -[PyStr.str_of_Z repr_int_list String.append].
    reflexivity. }
  destruct Hstart as [lines0 Hstart].
  rewrite Hfps in Hf, Hp.
  assert (Hpaced : Forall (paced_at (arg_fps args)) (trace g1)).
  { rewrite Ht, Hstart. apply Forall_app. split; [apply paced_at_prints|].
    exact Hp. }
  assert (Hshown : frames_shown (trace g1) = frames_shown added).
  { rewrite Ht, Hstart, frames_shown_app, frames_shown_prints. lia. }
  destruct (running g1) eqn:Hr.
  - rewrite Hshown. repeat split; auto.
  - replace (fps (log [Print "Fixed Advanced GUI closed"] g1))
      with (fps g1) by now gui_norm.
    replace (trace (log [Print "Fixed Advanced GUI closed"] g1))
      with (trace g1 ++ map Print ["Fixed Advanced GUI closed"])%list
      by now gui_norm.
    replace (running (log [Print "Fixed Advanced GUI closed"] g1))
      with (running g1) by now gui_norm.
    rewrite frames_shown_app, frames_shown_prints, Hshown, Hr.
    repeat split; [exact Hf | | lia | discriminate].
    apply Forall_app. split; [exact Hpaced | apply paced_at_prints].
Qed.

End Pacing.

Section Trimmed.

Context `{Collaborators}.
Variable max_str_digits : nat.

Lemma rstrip_idempotent (p : ascii -> bool) (s : string) :
  PyStr.rstrip_with p (PyStr.rstrip_with p s) = PyStr.rstrip_with p s.
Proof.
  induction s as [|c s IH]; [reflexivity|].
  cbn [PyStr.rstrip_with].
  destruct (p c && PyStr.is_empty (PyStr.rstrip_with p s)) eqn:Hc;
    [reflexivity|].
  cbn [PyStr.rstrip_with]. now rewrite IH, Hc.
Qed.

Lemma lstrip_head (p : ascii -> bool) (s : string) :
  match PyStr.lstrip_with p s with
  | EmptyString => True
  | String c _ => p c = false
  end.
Proof.
  induction s as [|c s IH]; [exact I|].
  cbn [PyStr.lstrip_with]. now destruct (p c) eqn:Hc.
Qed.

(** [s.strip().strip() == s.strip()] *)
Lemma strip_idempotent (s : string) :
  PyStr.strip (PyStr.strip s) = PyStr.strip s.
Proof.
  unfold PyStr.strip, PyStr.strip_with.
  pose proof (lstrip_head PyStr.isspace_char s) as Hhead.
  destruct (PyStr.lstrip_with PyStr.isspace_char s) as [|c t];
    [reflexivity|].
  assert (Hl : PyStr.lstrip_with PyStr.isspace_char
                 (PyStr.rstrip_with PyStr.isspace_char (String c t))
               = PyStr.rstrip_with PyStr.isspace_char (String c t)).
  { cbn [PyStr.rstrip_with]. rewrite Hhead. cbn [andb].
    cbn [PyStr.lstrip_with]. now rewrite Hhead. }
  rewrite Hl. apply rstrip_idempotent.
Qed.

Lemma or_default_trimmed (s default : string) :
  default <> "" ->
  PyStr.strip default = default ->
  let v := or_default (PyStr.strip s) default in
  v <> "" /\ PyStr.strip v = v.
Proof.
  intros Hne Hd. unfold or_default, PyStr.falsy.
  destruct (PyStr.strip s) as [|c t] eqn:Hs; cbn [PyStr.is_empty].
  - now split.
  - split; [discriminate|]. rewrite <- Hs. apply strip_idempotent.
Qed.

(** X25. What the wizard stores as text is trimmed and never empty:
    whatever the buffer holds, a confirm at the operation, collect or
    share step leaves the agent's field of that step non-empty and free
    of leading and trailing whitespace. *)
Theorem confirmed_text_is_trimmed
  (g g' : GUI) (i : nat) (a : Agent) (unicode : string) :
  input_mode g = true ->
  current_human_agent g = Some i ->
  agents g !! i = Some a ->
  handle_event max_str_digits (KEYDOWN K_RETURN unicode) g = Ok g' ->
  (input_type g = "op" ->
   exists a', agents g' !! i = Some a'
              /\ op a' <> "" /\ PyStr.strip (op a') = op a')
  /\ (input_type g = "collect" ->
      exists a', agents g' !! i = Some a'
                 /\ rss_to_collect a' <> ""
                 /\ PyStr.strip (rss_to_collect a') = rss_to_collect a')
  /\ (input_type g = "share" ->
      exists a', agents g' !! i = Some a'
                 /\ rss_to_share a' <> ""
                 /\ PyStr.strip (rss_to_share a') = rss_to_share a').
Proof.
  intros Hm Hcur Hat Hev.
  pose proof (lookup_lt_Some _ _ _ Hat) as Hlt.
  rewrite handle_event_confirm in Hev by assumption.
  repeat split; intros Hty.
  - rewrite (process_input_op max_str_digits g i a) in Hev by assumption.
    injection Hev as <-.
    exists (set_op (or_default (PyStr.strip (input_field g)) "noop") a).
    split.
    + gui_norm. now rewrite list_lookup_insert_eq.
    + destruct a. apply or_default_trimmed; [discriminate | reflexivity].
  - rewrite (process_input_collect max_str_digits g i a) in Hev
      by assumption.
    injection Hev as <-.
    exists (set_rss_to_collect (or_default (PyStr.strip (input_field g)) "not_applicable") a).
    split.
    + gui_norm. now rewrite list_lookup_insert_eq.
    + destruct a. apply or_default_trimmed; [discriminate | reflexivity].
  - rewrite (process_input_share max_str_digits g i a) in Hev by assumption.
    injection Hev as <-.
    exists (set_rss_to_share (or_default (PyStr.strip (input_field g)) "not_applicable") a).
    split.
    + gui_norm. now rewrite list_lookup_insert_eq.
    + destruct a. apply or_default_trimmed; [discriminate | reflexivity].
Qed.

End Trimmed.

Lemma frame_steps_environment_once_witness :
  exists g' : @GUI countdown,
    frame 4300 [KEYDOWN K_p "p"; KEYDOWN K_p "p"; QUIT] demo = Ok g'
    /\ environment_steps (trace g') = 1.
Proof.
  destruct (frame 4300 [KEYDOWN K_p "p"; KEYDOWN K_p "p"; QUIT] demo)
    as [g'|x] eqn:Hframe; [|vm_compute in Hframe; discriminate].
  exists g'. split; [reflexivity|].
  rewrite (frame_steps_environment_once 4300 _ demo g' Hframe).
  assert (Hp : paused g' = false).
  { vm_compute in Hframe. injection Hframe as <-. reflexivity. }
  assert (Hm : input_mode g' = false).
  { vm_compute in Hframe. injection Hframe as <-. reflexivity. }
  rewrite Hp, Hm. reflexivity.
Defined.

Lemma every_frame_is_paced_at_requested_rate_witness :
  exists g : @GUI countdown,
    main 4300 fast_args [[]; [KEYDOWN K_p "p"]; []] = Ok g
    /\ fps g = 30
    /\ Forall (paced_at 30) (trace g)
    /\ (frames_shown (trace g) <= 3)%nat.
Proof.
  destruct (main (H := countdown) 4300 fast_args [[]; [KEYDOWN K_p "p"]; []])
    as [g|x] eqn:Hmain; [|vm_compute in Hmain; discriminate].
  exists g. split; [reflexivity|].
  destruct (every_frame_is_paced_at_requested_rate 4300 fast_args _ g Hmain)
    as (Hf & Hp & Hn & _).
  auto.
Defined.

Lemma confirmed_text_is_trimmed_witness :
  input_field demo_at_op_padded = " Scout "
  /\ exists a', agents (ok_or demo (handle_event 4300 confirm
                                      demo_at_op_padded)) !! 1%nat
                = Some a'
                /\ op a' <> "" /\ PyStr.strip (op a') = op a'.
Proof.
  split; [vm_compute; reflexivity|].
  destruct (handle_event 4300 confirm demo_at_op_padded) as [g'|x] eqn:Hev;
    [|vm_compute in Hev; discriminate].
  cbn [ok_or].
  apply (confirmed_text_is_trimmed (H := countdown) 4300
           demo_at_op_padded g' 1 (fresh_agent true) (String "013" ""));
    try (vm_compute; reflexivity).
  exact Hev.
Defined.
